(** * Process and task lifecycle of [locust/main.py]

    A shallow embedding of the orchestration code of [locust.main]: merging
    of locustfiles, validation of the command line options, the forking of
    local worker processes, the SIGINT handler of the waiting parent, the
    automatic run controller and [shutdown()].

    Conventions of the model.
    - Code that may call [sys.exit] returns a value of type [run]: [Exit c]
      when [sys.exit(c)] was reached, [Ret a] when the code ran to its end,
      [Blocked] when it is still waiting for something that the recorded
      observations of the outside world do not contain.  An exception of
      [inspect.getfile] in the merge, which nothing catches, ends the
      interpreter with status 1 and is recorded as [Exit 1].
    - Calls into collaborators (runner, web UI, statistics, the operating
      system) are recorded, in program order, as a list of [event]s.
    - Log lines and the text written to stderr are not modelled, except for
      the one log line that is the only result of [kill_workers].
    - What the outside world answers (the pid returned by a fork, the wait
      status of a child, the number of ready workers at a poll) is an
      argument of the function that asks for it. *)

From Stdlib Require Import ZArith List Ascii String Bool Lia QArith.
From Stdlib Require Import DecimalString.
Import ListNotations.
Open Scope Z_scope.

(** ** Results of code that may exit *)

Inductive run (A : Type) : Type :=
| Exit (code : Z)
| Blocked
| Ret (a : A).

Arguments Exit {A} code.
Arguments Blocked {A}.
Arguments Ret {A} a.

Definition run_bind {A B : Type} (r : run A) (k : A -> run B) : run B :=
  match r with
  | Exit c => Exit c
  | Blocked => Blocked
  | Ret a => k a
  end.

(** [(int)PyLong_AsLong(c)], the argument that CPython hands to [exit()]
    for [sys.exit(c)] with an integer [c], where the C [long] has
    [long_bits] bits: [-1] when [c] does not fit a [long], else [c] cut to
    the 32 bits of an [int]. *)
Definition c_exit_code (long_bits : Z) (c : Z) : Z :=
  if (- 2 ^ (long_bits - 1) <=? c) && (c <? 2 ^ (long_bits - 1))
  then (c + 2 ^ 31) mod 2 ^ 32 - 2 ^ 31
  else -1.

(** The status that a POSIX system with a [long] of 64 bits reports for
    [sys.exit(c)]: the low eight bits of the argument of [exit()]. *)
Definition exit_status (c : Z) : Z := c_exit_code 64 c mod 256.

(** The status that Windows reports: there a [long] has 32 bits and the
    exit code of a process is kept as an unsigned number of 32 bits. *)
Definition exit_status_nt (c : Z) : Z := c_exit_code 32 c mod 2 ^ 32.

(** ** Python dictionaries, in insertion order *)

Definition dict (V : Type) := list (string * V).

Fixpoint dict_get {V : Type} (k : string) (d : dict V) : option V :=
  match d with
  | [] => None
  | (k', v) :: d' => if String.eqb k k' then Some v else dict_get k d'
  end.

Definition dict_mem {V : Type} (k : string) (d : dict V) : bool :=
  match dict_get k d with Some _ => true | None => false end.

(** [d[k] = v]: an existing key keeps its position, a new key goes last. *)
Fixpoint dict_set {V : Type} (k : string) (v : V) (d : dict V) : dict V :=
  match d with
  | [] => [(k, v)]
  | (k', v') :: d' =>
      if String.eqb k k' then (k, v) :: d' else (k', v') :: dict_set k v d'
  end.

Definition dict_values {V : Type} (d : dict V) : list V := map snd d.

(** ** Truthiness of the option values that [main] tests with [if] *)

Definition truthy_Z (z : Z) : bool := negb (z =? 0).

Definition truthy_opt_Z (z : option Z) : bool :=
  match z with Some v => truthy_Z v | None => false end.

Definition truthy_str (s : string) : bool :=
  match s with EmptyString => false | String _ _ => true end.

Definition truthy_opt_str (s : option string) : bool :=
  match s with Some v => truthy_str v | None => false end.

(** ** [merge_locustfiles_content] *)

(** What [merge_locustfiles_content] reads of a User class: [__module__],
    the name under which [inspect.getfile] looks for the module of the
    class, and [.tasks]. *)
Record UserClass := mkUserClass {
  uc_module : string;
  uc_tasks : list string
}.

(** A load shape instance: [type(shape).__name__] and [use_common_options]. *)
Record ShapeClass := mkShapeClass {
  sc_name : string;
  sc_use_common_options : bool
}.

(** [sys.modules] as far as [inspect.getfile] reads it: the [__file__] of
    the module that is bound to a name. *)
Definition sys_modules := dict string.

(** [inspect.getfile(cls)] for a class is
    [sys.modules.get(cls.__module__).__file__], read when the call is made.
    [None]: no module with a file is bound to the name, and
    [inspect.getfile] raises [TypeError]. *)
Definition inspect_getfile (modules : sys_modules) (cls : UserClass)
  : option string :=
  dict_get (uc_module cls) modules.

(** What [load_locustfile] does for one path.  It returns a pair: the
    dictionary of User classes visible in the module (imported ones
    included) and the list of shape instances.  And it binds names in
    [sys.modules], listed in [lf_modules] with the [__file__] that each
    has when the load returns: the module name of the locustfile (its file
    name without extension), which is bound to the module made from this
    path also when a module of that name was loaded before, and the
    modules that the locustfile imports (the import of a module that is
    loaded already leaves its file as it is).  [load_locustfile] is not
    part of [main.py]; it is an argument of the functions below. *)
Record Locustfile := mkLocustfile {
  lf_user_classes : dict UserClass;
  lf_shape_classes : list ShapeClass;
  lf_modules : sys_modules
}.

Record Merged := mkMerged {
  available_user_classes : dict UserClass;
  available_shape_classes : dict ShapeClass;
  available_user_tasks : dict (list string);
  shape_class : option ShapeClass
}.

(** [sys.modules] after a load has bound its names: a name that was bound
    before is bound to the new file. *)
Definition bind_modules (loaded : sys_modules) (modules : sys_modules)
  : sys_modules :=
  fold_left (fun m kv => dict_set (fst kv) (snd kv) m) loaded modules.

(** The loop "Setting Available Shape Classes". *)
Fixpoint add_shape_classes (shapes : list ShapeClass) (avail : dict ShapeClass)
  : run (dict ShapeClass) :=
  match shapes with
  | [] => Ret avail
  | s :: rest =>
      if dict_mem (sc_name s) avail then Exit 1
      else add_shape_classes rest (dict_set (sc_name s) s avail)
  end.

(** The loop "Setting Available User Classes".  [modules] is [sys.modules]
    while the loop runs, that is after the load of the file whose classes
    [items] are.  Where [inspect.getfile] raises, the exception is caught
    nowhere and the interpreter ends with status 1. *)
Fixpoint add_user_classes (modules : sys_modules) (items : dict UserClass)
    (classes : dict UserClass) (tasks : dict (list string))
  : run (dict UserClass * dict (list string)) :=
  match items with
  | [] => Ret (classes, tasks)
  | (class_name, class_definition) :: rest =>
      match dict_get class_name classes with
      | Some previous =>
          match inspect_getfile modules previous,
                inspect_getfile modules class_definition with
          | Some previous_path, Some new_path =>
              if String.eqb previous_path new_path
              then add_user_classes modules rest classes tasks
              else Exit 1
          | _, _ => Exit 1
          end
      | None =>
          add_user_classes modules rest
            (dict_set class_name class_definition classes)
            (dict_set class_name (uc_tasks class_definition) tasks)
      end
  end.

Fixpoint merge_loop (load_locustfile : string -> Locustfile)
    (locustfiles : list string) (modules : sys_modules)
    (classes : dict UserClass) (shapes : dict ShapeClass)
    (tasks : dict (list string))
  : run (dict UserClass * dict ShapeClass * dict (list string)) :=
  match locustfiles with
  | [] => Ret (classes, shapes, tasks)
  | f :: rest =>
      let content := load_locustfile f in
      let modules := bind_modules (lf_modules content) modules in
      run_bind (add_shape_classes (lf_shape_classes content) shapes)
        (fun shapes' =>
      run_bind (add_user_classes modules (lf_user_classes content) classes tasks)
        (fun ct =>
           merge_loop load_locustfile rest modules (fst ct) shapes' (snd ct)))
  end.

(** The modules of the User classes are bound by the loads themselves, so
    the merge starts from no binding. *)
Definition merge_locustfiles_content (load_locustfile : string -> Locustfile)
    (locustfiles : list string) : run Merged :=
  run_bind (merge_loop load_locustfile locustfiles [] [] [] [])
    (fun r =>
       let '(classes, shapes, tasks) := r in
       Ret (mkMerged classes shapes tasks (hd_error (dict_values shapes)))).

(** ** Parsed options *)

(** The attributes of [options] that [main] reads.  [autostart] is a flag;
    the [None] that a forked child stores into it is as false as [False],
    so it is a [bool] here.  [config_users] records only whether the option
    was given. *)
Record Options := mkOptions {
  headful : bool;
  headless : bool;
  autostart : bool;
  autoquit : Z;
  processes : Z;
  master : bool;
  worker : bool;
  expect_workers : Z;
  expect_workers_max_wait : Z;
  run_time : option Z;
  csv_prefix : option string;
  html_file : option string;
  list_commands : bool;
  user_classes : list string;
  config_users : bool;
  show_task_ratio : bool;
  show_task_ratio_json : bool;
  num_users : option Z;
  spawn_rate : option Z;
  web_base_path : string;
  only_summary : bool;
  print_stats : bool;
  json : bool;
  json_file : option string;
  exit_code_on_error : Z
}.

(** [options.headless = v] *)
Definition set_headless (v : bool) (o : Options) : Options :=
  {| headful := headful o; headless := v; autostart := autostart o;
     autoquit := autoquit o; processes := processes o; master := master o;
     worker := worker o; expect_workers := expect_workers o;
     expect_workers_max_wait := expect_workers_max_wait o;
     run_time := run_time o; csv_prefix := csv_prefix o;
     html_file := html_file o; list_commands := list_commands o;
     user_classes := user_classes o; config_users := config_users o;
     show_task_ratio := show_task_ratio o;
     show_task_ratio_json := show_task_ratio_json o;
     num_users := num_users o; spawn_rate := spawn_rate o;
     web_base_path := web_base_path o; only_summary := only_summary o;
     print_stats := print_stats o; json := json o; json_file := json_file o;
     exit_code_on_error := exit_code_on_error o |}.

(** [options.processes = v] *)
Definition set_processes (v : Z) (o : Options) : Options :=
  {| headful := headful o; headless := headless o; autostart := autostart o;
     autoquit := autoquit o; processes := v; master := master o;
     worker := worker o; expect_workers := expect_workers o;
     expect_workers_max_wait := expect_workers_max_wait o;
     run_time := run_time o; csv_prefix := csv_prefix o;
     html_file := html_file o; list_commands := list_commands o;
     user_classes := user_classes o; config_users := config_users o;
     show_task_ratio := show_task_ratio o;
     show_task_ratio_json := show_task_ratio_json o;
     num_users := num_users o; spawn_rate := spawn_rate o;
     web_base_path := web_base_path o; only_summary := only_summary o;
     print_stats := print_stats o; json := json o; json_file := json_file o;
     exit_code_on_error := exit_code_on_error o |}.

(** What the forked child stores before it leaves the loop: it is a worker,
    and run time, autostart, csv prefix and html file are cleared. *)
Definition child_options (o : Options) : Options :=
  {| headful := headful o; headless := headless o; autostart := false;
     autoquit := autoquit o; processes := processes o; master := master o;
     worker := true; expect_workers := expect_workers o;
     expect_workers_max_wait := expect_workers_max_wait o;
     run_time := None; csv_prefix := None;
     html_file := None; list_commands := list_commands o;
     user_classes := user_classes o; config_users := config_users o;
     show_task_ratio := show_task_ratio o;
     show_task_ratio_json := show_task_ratio_json o;
     num_users := num_users o; spawn_rate := spawn_rate o;
     web_base_path := web_base_path o; only_summary := only_summary o;
     print_stats := print_stats o; json := json o; json_file := json_file o;
     exit_code_on_error := exit_code_on_error o |}.

(** What the parent that is not a worker stores after the loop:
    [options.master = True; options.expect_workers = options.processes]. *)
Definition parent_master_options (o : Options) : Options :=
  {| headful := headful o; headless := headless o; autostart := autostart o;
     autoquit := autoquit o; processes := processes o; master := true;
     worker := worker o; expect_workers := processes o;
     expect_workers_max_wait := expect_workers_max_wait o;
     run_time := run_time o; csv_prefix := csv_prefix o;
     html_file := html_file o; list_commands := list_commands o;
     user_classes := user_classes o; config_users := config_users o;
     show_task_ratio := show_task_ratio o;
     show_task_ratio_json := show_task_ratio_json o;
     num_users := num_users o; spawn_rate := spawn_rate o;
     web_base_path := web_base_path o; only_summary := only_summary o;
     print_stats := print_stats o; json := json o; json_file := json_file o;
     exit_code_on_error := exit_code_on_error o |}.

(** "apply headless mode defaults": a missing user count or spawn rate
    becomes 1. *)
Definition headless_defaults (o : Options) : Options :=
  {| headful := headful o; headless := headless o; autostart := autostart o;
     autoquit := autoquit o; processes := processes o; master := master o;
     worker := worker o; expect_workers := expect_workers o;
     expect_workers_max_wait := expect_workers_max_wait o;
     run_time := run_time o; csv_prefix := csv_prefix o;
     html_file := html_file o; list_commands := list_commands o;
     user_classes := user_classes o; config_users := config_users o;
     show_task_ratio := show_task_ratio o;
     show_task_ratio_json := show_task_ratio_json o;
     num_users := match num_users o with None => Some 1 | u => u end;
     spawn_rate := match spawn_rate o with None => Some 1 | r => r end;
     web_base_path := web_base_path o; only_summary := only_summary o;
     print_stats := print_stats o; json := json o; json_file := json_file o;
     exit_code_on_error := exit_code_on_error o |}.

(** ** Events *)

Inductive signal := SIGINT | SIGKILL.

(** How a call of [os.kill] ends: normally, with [ProcessLookupError], or
    with another exception. *)
Inductive kill_result := KillOk | KillProcessLookupError | KillOtherError.

(** How a child process ended, as [os.waitpid] reports it for a child that
    is waited for without [WUNTRACED]: it exited with a code, or a signal
    terminated it.  The status [0] that [waitpid(pid, WNOHANG)] returns for
    a child that is still running reads as [Exited 0]. *)
Inductive child_status := Exited (code : Z) | Signaled (signum : Z).

(** [os.waitstatus_to_exitcode] of the Python standard library: the exit
    code of a child that exited, minus the signal number of a child that a
    signal terminated. *)
Definition waitstatus_to_exitcode (st : child_status) : Z :=
  match st with
  | Exited code => code
  | Signaled signum => - signum
  end.

Inductive RunnerKind := MasterRunner | WorkerRunner | LocalRunner.

(** The greenlets that [main] spawns. *)
Inductive task :=
| StatsPrinter
| StatsHistory
| CsvWriter
| InputListener
| RunnerStart (user_count spawn_rate : option Z)
| StopAndOptionallyQuit.

Inductive atexit_handler :=
| AtexitKillWorkers (children : list Z)
| AtexitKillInputListener.

Inductive event :=
| EFork (ret : Z)                               (* gevent.fork() returned [ret] *)
| EKill (pid : Z) (s : signal) (r : kill_result) (* os.kill(pid, s) *)
| EWaitpid (pid : Z) (nohang : bool)            (* os.waitpid(pid, ...) *)
| ESigintHandler                                (* signal.signal(SIGINT, sigint_handler) *)
| ESigtermHandler                               (* gevent.signal_handler(SIGTERM, ...) *)
| EAtexitRegister (h : atexit_handler)
| EBadResponseCode (code : Z)                   (* the error line of kill_workers *)
| ECreateRunner (k : RunnerKind)
| ECreateWebUi
| EFireInit
| EWebUiStart
| EWebUiStop
| ESpawn (t : task)                             (* gevent.spawn *)
| ESpawnLater (seconds : Z) (t : task)          (* gevent.spawn_later *)
| EKillGreenlet (t : task)                      (* greenlet.kill(block=False) *)
| ERunnerStartShape
| EJoinShape
| ERunnerStop
| ERunnerQuit
| ESleep (seconds : Q)                          (* time.sleep *)
| ESaveHtmlReport
| EFireQuitting
| EFireQuit (exit_code : Z)
| EPrintStatsJson
| ESaveStatsJson (file : string)
| EPrintStats
| EPrintPercentileStats
| EPrintErrorReport.

(** A computation: the events it caused and how it ended. *)
Definition M (A : Type) : Type := list event * run A.

Definition ret {A : Type} (a : A) : M A := ([], Ret a).

Definition emit (es : list event) : M unit := (es, Ret tt).

Definition sys_exit {A : Type} (code : Z) : M A := ([], Exit code).

Definition blocked {A : Type} : M A := ([], Blocked).

Definition lift {A : Type} (r : run A) : M A := ([], r).

Definition bind {A B : Type} (m : M A) (k : A -> M B) : M B :=
  match snd m with
  | Exit c => (fst m, Exit c)
  | Blocked => (fst m, Blocked)
  | Ret a => (fst m ++ fst (k a), snd (k a))
  end.

Notation "x <- c1 ;; c2" := (bind c1 (fun x => c2))
  (at level 61, c1 at next level, right associativity).
Notation "c1 ;; c2" := (bind c1 (fun _ => c2))
  (at level 61, right associativity).

Definition trace {A : Type} (m : M A) : list event := fst m.

Definition outcome {A : Type} (m : M A) : run A := snd m.

(** ** The outside world, as one process observes it *)

(** What can happen while the worker parent sits in [os.waitpid(pid, 0)]:
    SIGINT is delivered (the handler runs, then the wait is resumed), or
    the awaited child ends. *)
Inductive os_input := Sigint | ChildExit (st : child_status).

(** One call of [os.waitpid(pid, os.WNOHANG)] in [kill_workers]: it
    returns a status, or raises [OSError] with [errno.EINTR], or raises
    another [OSError]. *)
Inductive wait_attempt :=
| WaitReturned (st : child_status)
| WaitEINTR
| WaitOSError.

(** What [shutdown()] reads after the quitting event was fired. *)
Record FinalState := mkFinalState {
  process_exit_code : option Z;       (* environment.process_exit_code *)
  errors : nat;                       (* len(runner.errors) *)
  exceptions : nat;                   (* len(runner.exceptions) *)
  unhandled_greenlet_exception : bool (* log.unhandled_greenlet_exception *)
}.

Record Host := mkHost {
  os_name_nt : bool;                  (* os.name == "nt" *)
  cpu_count : option Z;               (* os.cpu_count() *)
  fork_ret : nat -> Z;                (* result of the k-th gevent.fork() *)
  os_kill : Z -> signal -> kill_result;
  wait_inputs : list os_input;        (* while the worker parent waits *)
  wait_attempts : Z -> list wait_attempt;
                                      (* the WNOHANG calls made for a child
                                         before the 3 second deadline *)
  final_status : Z -> child_status;   (* os.waitpid(pid, 0) in kill_workers *)
  update_user_class_raises : bool;    (* environment.update_user_class *)
  master_connect_fails : bool;        (* create_worker_runner raises OSError *)
  init_raises : bool;                 (* a greenlet exception was logged
                                         while the init event was fired *)
  worker_polls : list (Z * Q);        (* len(runner.clients.ready) and the
                                         seconds since start_time, at each
                                         turn of the wait loop *)
  final : option FinalState           (* None: main_greenlet.join() has not
                                         ended; else it returned or
                                         KeyboardInterrupt ended it *)
}.

(** ** Forking the local processes *)

(** The checks at the head of [if options.processes:].  The result is the
    count handed to [range]. *)
Definition resolve_processes (h : Host) (o : Options) : run Z :=
  if os_name_nt h then Exit 1
  else if processes o =? -1 then
    match cpu_count h with
    | None => Exit 1
    | Some n => if truthy_Z n then Ret n else Exit 1
    end
  else if processes o <? -1 then Exit 1
  else if master o then Exit 1
  else Ret (processes o).

(** [for _ in range(n)]: fork; the parent appends the pid, the child (for
    which fork returned 0) leaves the loop.  [k] counts the forks made so
    far.  The boolean tells whether the loop ran to its end, that is
    whether the [else] clause of the [for] runs. *)
Fixpoint fork_loop (fork_ret : nat -> Z) (k n : nat) (children : list Z)
  : M (list Z * bool) :=
  match n with
  | O => ret (children, true)
  | S n' =>
      let child_pid := fork_ret k in
      emit [EFork child_pid] ;;
      if truthy_Z child_pid
      then fork_loop fork_ret (S k) n' (children ++ [child_pid])
      else ret (children, false)
  end.

(** ** The SIGINT handler of the waiting parent *)

(** [sigint_handler]: [has_run] is the attribute that the handler keeps on
    itself.  The result is its new value. *)
Definition sigint_handler (kill : Z -> signal -> kill_result)
    (children : list Z) (has_run : bool) : M bool :=
  if has_run then
    emit (map (fun child_pid => EKill child_pid SIGKILL (kill child_pid SIGKILL))
              children) ;;
    sys_exit 1
  else ret true.

(** The parent that is itself a worker waits for each child in turn and
    exits with the largest exit code.  [remaining] are the children not
    yet waited for. *)
Fixpoint parent_wait {A : Type} (kill : Z -> signal -> kill_result)
    (children : list Z) (has_run : bool) (remaining : list Z) (exit_code : Z)
    (inputs : list os_input) {struct inputs} : M A :=
  match remaining with
  | [] => sys_exit exit_code
  | child_pid :: rest =>
      match inputs with
      | [] => blocked
      | Sigint :: inputs' =>
          has_run' <- sigint_handler kill children has_run ;;
          parent_wait kill children has_run' remaining exit_code inputs'
      | ChildExit child_status :: inputs' =>
          emit [EWaitpid child_pid false] ;;
          let child_exit_code := waitstatus_to_exitcode child_status in
          parent_wait kill children has_run rest
            (Z.max exit_code child_exit_code) inputs'
      end
  end.

(** ** [kill_workers] *)

(** [children.remove(pid)] *)
Fixpoint list_remove (pid : Z) (l : list Z) : list Z :=
  match l with
  | [] => []
  | x :: l' => if x =? pid then l' else x :: list_remove pid l'
  end.

(** The [while time.time() < start_time + 3] loop for one child, over the
    calls of [waitpid] that fit before the deadline. *)
Fixpoint poll_child (child_pid : Z) (attempts : list wait_attempt)
  : list event * option child_status :=
  match attempts with
  | [] => ([], None)
  | WaitReturned st :: _ => ([EWaitpid child_pid true], Some st)
  | WaitEINTR :: rest =>
      let r := poll_child child_pid rest in
      (EWaitpid child_pid true :: ESleep (1 # 10) :: fst r, snd r)
  | WaitOSError :: rest =>
      let r := poll_child child_pid rest in
      (EWaitpid child_pid true :: fst r, snd r)
  end.

(** The first loop of [kill_workers], over the copy [children[:]]. *)
Fixpoint reap_finished (attempts : Z -> list wait_attempt)
    (snapshot children : list Z) (exit_code : Z)
  : list event * (list Z * Z) :=
  match snapshot with
  | [] => ([], (children, exit_code))
  | child_pid :: rest =>
      let p := poll_child child_pid (attempts child_pid) in
      let r :=
        match snd p with
        | Some st =>
            reap_finished attempts rest (list_remove child_pid children)
              (Z.max exit_code (waitstatus_to_exitcode st))
        | None => reap_finished attempts rest children exit_code
        end in
      (fst p ++ fst r, snd r)
  end.

(** The second loop: SIGINT to the children still in the list.  Only
    [ProcessLookupError] is caught; the boolean is false when another
    exception left the loop. *)
Fixpoint interrupt_children (kill : Z -> signal -> kill_result)
    (children : list Z) : list event * bool :=
  match children with
  | [] => ([], true)
  | child_pid :: rest =>
      match kill child_pid SIGINT with
      | KillOtherError => ([EKill child_pid SIGINT KillOtherError], false)
      | r =>
          let t := interrupt_children kill rest in
          (EKill child_pid SIGINT r :: fst t, snd t)
      end
  end.

(** The third loop: wait for the children still in the list. *)
Fixpoint reap_remaining (status : Z -> child_status) (children : list Z)
    (exit_code : Z) : list event * Z :=
  match children with
  | [] => ([], exit_code)
  | child_pid :: rest =>
      let r := reap_remaining status rest
                 (Z.max exit_code (waitstatus_to_exitcode (status child_pid))) in
      (EWaitpid child_pid false :: fst r, snd r)
  end.

(** [kill_workers(children)].  The result is the value of its local
    [exit_code] at the end, [None] when an exception left the function.
    The function returns nothing to its caller. *)
Definition kill_workers (h : Host) (children : list Z)
  : list event * option Z :=
  let r1 := reap_finished (wait_attempts h) children children 0 in
  let children1 := fst (snd r1) in
  let r2 := interrupt_children (os_kill h) children1 in
  if snd r2 then
    let r3 := reap_remaining (final_status h) children1 (snd (snd r1)) in
    let exit_code := snd r3 in
    (fst r1 ++ fst r2 ++ fst r3
       ++ (if 1 <? exit_code then [EBadResponseCode exit_code] else [])
       ++ [ESleep (1 # 10)],
     Some exit_code)
  else (fst r1 ++ fst r2, None).

(** The [if options.processes:] block of [main].  It returns the options
    and the list [children] with which [main] goes on. *)
Definition processes_block (h : Host) (o : Options) : M (Options * list Z) :=
  if truthy_Z (processes o) then
    n <- lift (resolve_processes h o) ;;
    let o := set_processes n o in
    r <- fork_loop (fork_ret h) 0 (Z.to_nat n) [] ;;
    let children := fst r in
    if snd r then
      if worker o then
        emit [ESigintHandler] ;;
        parent_wait (os_kill h) children false children 0 (wait_inputs h)
      else
        emit [EAtexitRegister (AtexitKillWorkers children)] ;;
        ret (parent_master_options o, children)
    else ret (child_options o, children)
  else ret (o, []).

(** ** [main], up to the init event *)

(** The state in which [main] starts its greenlets. *)
Record Started := mkStarted {
  st_options : Options;
  st_runner : RunnerKind;
  st_web_ui : bool;                   (* web_ui is not None *)
  st_shape_class : option ShapeClass; (* environment.shape_class *)
  st_children : list Z
}.

(** [--autoquit] without [--autostart]. *)
Definition check_autoquit (o : Options) : M unit :=
  if negb (autoquit o =? -1) && negb (autostart o) then sys_exit 1 else ret tt.

(** [--list], the missing User class, the unknown User names. *)
Definition check_user_classes (o : Options) (m : Merged) : M unit :=
  if list_commands o then sys_exit 0
  else match available_user_classes m with
  | [] => sys_exit 1
  | _ :: _ =>
      match filter (fun n => negb (dict_mem n (available_user_classes m)))
                   (user_classes o) with
      | [] => ret tt
      | _ :: _ => sys_exit 1
      end
  end.

(** [--config-users]: any exception of [update_user_class] ends the
    process with [sys.exit(-1)]. *)
Definition apply_config_users (h : Host) (o : Options) : M unit :=
  if config_users o && update_user_class_raises h then sys_exit (-1) else ret tt.

Definition show_task_ratios (o : Options) : M unit :=
  if show_task_ratio o then sys_exit 0
  else if show_task_ratio_json o then sys_exit 0
  else ret tt.

(** The choice of the runner. *)
Definition create_runner (h : Host) (o : Options) : M RunnerKind :=
  if master o then
    if worker o then sys_exit (-1)
    else if expect_workers o <? 1 then sys_exit (-1)
    else emit [ECreateRunner MasterRunner] ;; ret MasterRunner
  else if worker o then
    if master_connect_fails h then sys_exit (-1)
    else emit [ECreateRunner WorkerRunner] ;; ret WorkerRunner
  else emit [ECreateRunner LocalRunner] ;; ret LocalRunner.

(** [options.web_base_path and options.web_base_path[0] != "/"] *)
Definition bad_web_base_path (p : string) : bool :=
  match p with
  | EmptyString => false
  | String c _ => negb (Ascii.eqb c "/"%char)
  end.

(** "start Web UI": the result tells whether a web UI was created. *)
Definition create_web_ui (o : Options) : M bool :=
  if negb (headless o) && negb (worker o) then
    if bad_web_base_path (web_base_path o) then sys_exit 1
    else emit [ECreateWebUi] ;; ret true
  else ret false.

(** The init event; an exception in one of its handlers is fatal. *)
Definition fire_init (h : Host) : M unit :=
  emit [EFireInit] ;;
  if init_raises h then sys_exit 1 else ret tt.

(** [main] from its first line to the init event, for a run that is not
    handed over to [locust_cloud].  The two hand-overs (lines 165-166 and
    181-182, which end the process with whatever code [locust_cloud.main]
    returns), [stats.validate_stats_configuration()], the set-up of
    logging and the raising of the open file limit call code outside
    [main.py] and are left out: the definition says nothing about a run
    that one of them ends.  None of them reads the options that the
    checks below read. *)
Definition main_startup (h : Host) (load_locustfile : string -> Locustfile)
    (locustfiles : list string) (o : Options) : M Started :=
  m <- lift (merge_locustfiles_content load_locustfile locustfiles) ;;
  let o := if headful o then set_headless false o else o in
  check_autoquit o ;;
  oc <- processes_block h o ;;
  let o := fst oc in
  check_user_classes o m ;;
  apply_config_users h o ;;
  show_task_ratios o ;;
  runner <- create_runner h o ;;
  web_ui <- create_web_ui o ;;
  fire_init h ;;
  ret (mkStarted o runner web_ui (shape_class m) (snd oc)).

(** ** The automatic run controller *)

(** [stop_and_optionally_quit], the body of the run time timer. *)
Definition stop_and_optionally_quit (o : Options) (web_ui : bool) : list event :=
  if autostart o && negb (headless o) then
    ERunnerStop ::
    (if negb (autoquit o =? -1) then
       ESleep (inject_Z (autoquit o)) :: ERunnerQuit ::
       (if web_ui then [EWebUiStop] else [])
     else [])
  else [ERunnerQuit].

Definition Qlt_bool (x y : Q) : bool := negb (Qle_bool y x).

(** "wait for worker nodes to connect": one element of [polls] for each
    evaluation of the loop condition. *)
Fixpoint wait_for_workers (o : Options) (polls : list (Z * Q)) : M unit :=
  match polls with
  | [] => blocked
  | (ready, elapsed) :: rest =>
      if ready <? expect_workers o then
        if truthy_Z (expect_workers_max_wait o)
           && Qlt_bool (inject_Z (expect_workers_max_wait o)) elapsed
        then emit [ERunnerQuit] ;; sys_exit 1
        else emit [ESleep 1] ;; wait_for_workers o rest
      else ret tt
  end.

(** [start_automatic_run].  The result is [options] as the function
    leaves it. *)
Definition start_automatic_run (h : Host) (s : Started) (o : Options)
  : M Options :=
  (if master o then wait_for_workers o (worker_polls h) else ret tt) ;;
  o <- (if negb (worker o) then
          let o := headless_defaults o in
          match st_shape_class s with
          | Some _ =>
              emit ([ERunnerStartShape; EJoinShape]
                      ++ stop_and_optionally_quit o (st_web_ui s)) ;;
              ret o
          | None =>
              emit [ESpawn (RunnerStart (num_users o) (spawn_rate o))] ;;
              ret o
          end
        else ret o) ;;
  match run_time o with
  | Some t =>
      if truthy_Z t then emit [ESpawnLater t StopAndOptionallyQuit] ;; ret o
      else ret o
  | None => ret o
  end.

(** ** [shutdown] *)

(** "determine the process exit code" *)
Definition determine_exit_code (o : Options) (f : FinalState) : Z :=
  match process_exit_code f with
  | Some code => code
  | None =>
      if negb (Nat.eqb (errors f) 0) || negb (Nat.eqb (exceptions f) 0)
      then exit_code_on_error o
      else if unhandled_greenlet_exception f then 2
      else 0
  end.

(** The statistics that [shutdown] prints or writes. *)
Definition final_statistics (o : Options) (runner : RunnerKind) : list event :=
  (if json o then [EPrintStatsJson] else [])
  ++ match json_file o with
     | Some (String c f) => [ESaveStatsJson (String c f)]
     | _ =>
         match runner with
         | WorkerRunner => []
         | _ => [EPrintStats; EPrintPercentileStats; EPrintErrorReport]
         end
     end.

(** [shutdown()].  The three booleans tell which of the greenlet variables
    of [main] are not [None]. *)
Definition shutdown {A : Type} (o : Options) (runner : RunnerKind)
    (input_listener_greenlet stats_printer_greenlet
       headless_master_greenlet : bool)
    (f : FinalState) : M A :=
  emit (if input_listener_greenlet then [EKillGreenlet InputListener] else []) ;;
  emit [EFireQuitting] ;;
  let code := determine_exit_code o f in
  emit (if stats_printer_greenlet then [EKillGreenlet StatsPrinter] else []) ;;
  emit (if headless_master_greenlet
        then [EKillGreenlet (RunnerStart (num_users o) (spawn_rate o))]
        else []) ;;
  emit [ERunnerQuit] ;;
  emit (final_statistics o runner) ;;
  emit [EFireQuit code] ;;
  sys_exit code.

(** ** [main], from the init event to the exit *)

Definition stats_printer_wanted (o : Options) : bool :=
  negb (only_summary o) && (print_stats o || (headless o && negb (worker o))).

(** The rest of [main].  The variable [headless_master_greenlet] of [main]
    stays [None]: [start_automatic_run] assigns a local of the same name. *)
Definition main_run (h : Host) (s : Started) : M Empty_set :=
  let o := st_options s in
  emit (if st_web_ui s then [EWebUiStart] else []) ;;
  emit (if stats_printer_wanted o then [ESpawn StatsPrinter] else []) ;;
  emit [ESpawn StatsHistory] ;;
  emit (if truthy_opt_str (csv_prefix o) then [ESpawn CsvWriter] else []) ;;
  o1 <- (if headless o then start_automatic_run h s o else ret o) ;;
  emit (if negb (worker o1)
        then [ESpawn InputListener; EAtexitRegister AtexitKillInputListener]
        else []) ;;
  emit [ESigtermHandler] ;;
  o2 <- (if autostart o1 && negb (headless o1)
         then start_automatic_run h s o1 else ret o1) ;;
  match final h with
  | None => blocked
  | Some f =>
      emit (if truthy_opt_str (html_file o2) then [ESaveHtmlReport] else []) ;;
      shutdown o2 (st_runner s) (negb (worker o2)) (stats_printer_wanted o)
        false f
  end.

Definition main (h : Host) (load_locustfile : string -> Locustfile)
    (locustfiles : list string) (o : Options) : M Empty_set :=
  s <- main_startup h load_locustfile locustfiles o ;;
  main_run h s.

(** ** The process *)

(** The handlers registered with [atexit], last registered first. *)
Fixpoint atexit_handlers (tr : list event) : list atexit_handler :=
  match tr with
  | [] => []
  | EAtexitRegister a :: tr' => atexit_handlers tr' ++ [a]
  | _ :: tr' => atexit_handlers tr'
  end.

Definition run_atexit (h : Host) (a : atexit_handler) : list event :=
  match a with
  | AtexitKillWorkers children => fst (kill_workers h children)
  | AtexitKillInputListener => [EKillGreenlet InputListener]
  end.

(** The whole process: [main], then the [atexit] handlers, then the exit
    status.  The status is the one given to [sys.exit]; what a handler
    computes does not change it. *)
Definition process (h : Host) (load_locustfile : string -> Locustfile)
    (locustfiles : list string) (o : Options) : list event * option Z :=
  let m := main h load_locustfile locustfiles o in
  match snd m with
  | Exit code =>
      (fst m ++ flat_map (run_atexit h) (atexit_handlers (fst m)),
       Some (if os_name_nt h then exit_status_nt code else exit_status code))
  | _ => (fst m, None)
  end.

(** ** Notions used in the statements *)

(** What a call of [waitpid] with [WNOHANG] returned for a child before
    the deadline of [kill_workers], if one returned at all. *)
Definition polled_status (attempts : Z -> list wait_attempt) (child_pid : Z)
  : option child_status :=
  snd (poll_child child_pid (attempts child_pid)).

(** No call returned for the child: it stays in [children]. *)
Definition not_polled (attempts : Z -> list wait_attempt) (child_pid : Z) : bool :=
  match polled_status attempts child_pid with Some _ => false | None => true end.

(** The exit code read in the first loop, if any. *)
Definition polled_codes (attempts : Z -> list wait_attempt) (child_pid : Z)
  : list Z :=
  match polled_status attempts child_pid with
  | Some st => [waitstatus_to_exitcode st]
  | None => []
  end.

(** The exit code that [kill_workers] reads for a child: from the status
    that a call with [WNOHANG] returned before the deadline, else from the
    final wait. *)
Definition reaped_exit_code (h : Host) (child_pid : Z) : Z :=
  match snd (poll_child child_pid (wait_attempts h child_pid)) with
  | Some st => waitstatus_to_exitcode st
  | None => waitstatus_to_exitcode (final_status h child_pid)
  end.

(** [m] is the largest of [init] and the elements of [l]. *)
Definition is_max_of (init : Z) (l : list Z) (m : Z) : Prop :=
  init <= m /\ (forall x, In x l -> x <= m) /\ (m = init \/ In m l).

(** [a] occurs before some occurrence of [b]. *)
Definition precedes (a b : event) (tr : list event) : Prop :=
  exists l1 l2 l3, tr = l1 ++ a :: l2 ++ b :: l3.

(** The combinations that the [if options.processes:] block refuses. *)
Definition invalid_processes (h : Host) (o : Options) : Prop :=
  os_name_nt h = true
  \/ (processes o = -1 /\ (cpu_count h = None \/ cpu_count h = Some 0))
  \/ processes o < -1
  \/ (processes o <> -1 /\ master o = true).


(** The event of [gevent.spawn_later]. *)
Definition arms_timer (e : event) : bool :=
  match e with ESpawnLater _ _ => true | _ => false end.

(** ** Sample inputs *)

(** The module name that [load_locustfile] gives to the locustfile at a
    path of the samples: the file name without directory and without
    [.py]. *)
Fixpoint module_name (path acc : string) : string :=
  match path with
  | EmptyString => acc
  | String c rest =>
      if Ascii.eqb c "/"%char then module_name rest EmptyString
      else if Ascii.eqb c "."%char then acc
      else module_name rest (acc ++ String c EmptyString)
  end.

(** A locustfile with one User class and one load shape. *)
Definition shape_locustfile (path : string) : Locustfile :=
  mkLocustfile
    [("WebsiteUser"%string,
      mkUserClass (module_name path EmptyString)
        ["index"%string; "stats"%string])]
    [mkShapeClass "StagesShape" false]
    [(module_name path EmptyString, path)].


(** A locustfile with one User class and no load shape. *)
Definition plain_locustfile (path : string) : Locustfile :=
  mkLocustfile
    [("WebsiteUser"%string,
      mkUserClass (module_name path EmptyString)
        ["index"%string; "stats"%string])]
    []
    [(module_name path EmptyString, path)].

(** Options of a plain run, with the attributes that the examples vary. *)
Definition sample_options (headless' autostart' : bool) (autoquit' processes' : Z)
    (master' worker' : bool) (run_time' : option Z) (json' : bool) : Options :=
  {| headful := false; headless := headless'; autostart := autostart';
     autoquit := autoquit'; processes := processes'; master := master';
     worker := worker'; expect_workers := 1; expect_workers_max_wait := 0;
     run_time := run_time'; csv_prefix := None; html_file := None;
     list_commands := false; user_classes := []; config_users := false;
     show_task_ratio := false; show_task_ratio_json := false;
     num_users := None; spawn_rate := None; web_base_path := EmptyString;
     only_summary := false; print_stats := false; json := json';
     json_file := None; exit_code_on_error := 1 |}.

(** A run that ended without request errors. *)
Definition clean_final : FinalState := mkFinalState None 0 0 false.

(** A host on which nothing fails; the k-th fork returns pid 101 + k. *)
Definition sample_host (inputs : list os_input)
    (attempts : Z -> list wait_attempt) (polls : list (Z * Q))
    (f : option FinalState) : Host :=
  {| os_name_nt := false; cpu_count := Some 4;
     fork_ret := fun k => 101 + Z.of_nat k;
     os_kill := fun _ _ => KillOk;
     wait_inputs := inputs; wait_attempts := attempts;
     final_status := fun _ => Exited 0;
     update_user_class_raises := false; master_connect_fails := false;
     init_raises := false; worker_polls := polls; final := f |}.

(** Options of a headless master that waits for [expect] workers for at
    most [max_wait] seconds. *)
Definition waiting_master_options (expect max_wait : Z) : Options :=
  {| headful := false; headless := true; autostart := false;
     autoquit := -1; processes := 0; master := true;
     worker := false; expect_workers := expect;
     expect_workers_max_wait := max_wait;
     run_time := None; csv_prefix := None; html_file := None;
     list_commands := false; user_classes := []; config_users := false;
     show_task_ratio := false; show_task_ratio_json := false;
     num_users := None; spawn_rate := None; web_base_path := EmptyString;
     only_summary := false; print_stats := false; json := false;
     json_file := None; exit_code_on_error := 1 |}.

(** Two of three workers are ready at each turn of the wait loop; the
    turns are one second apart. *)
Definition two_of_three_polls : list (Z * Q) :=
  [(2, 0%Q); (2, 1%Q); (2, 2%Q); (2, 3%Q); (2, 4%Q); (2, 5%Q); (2, 6%Q)].

(** ** Notions used in the further properties *)

(** The events by which a process starts a test itself. *)
Definition starts_runner (e : event) : bool :=
  match e with
  | ESpawn (RunnerStart _ _) => true
  | ERunnerStartShape => true
  | _ => false
  end.

(** What a worker process leaves to its master: the web UI, the input
    listener, the start of the test and the plain-text reports. *)
Definition left_to_master (e : event) : bool :=
  match e with
  | ECreateWebUi | EWebUiStart | EWebUiStop => true
  | ESpawn InputListener => true
  | ESpawn (RunnerStart _ _) => true
  | ERunnerStartShape | EJoinShape => true
  | EPrintStats | EPrintPercentileStats | EPrintErrorReport => true
  | _ => false
  end.

(** ** The keys of the input listener *)

(** What the function stored under a key does when it is called. *)
Inductive key_result :=
| KeyStart (user_count spawn_rate : Z)  (* runner.start(user_count, spawn_rate) *)
| KeyWarning                            (* logging.warning(...) *)
| KeyOpenTab (url : string)             (* webbrowser.open_new_tab(url) *)
| KeyNameError.                         (* [url] was never assigned *)

(** [webbrowser.open_new_tab(url)] in a function of [main]: [url] is a
    local variable of [main], assigned only where the web UI is created. *)
Definition open_new_tab (url : option string) : key_result :=
  match url with
  | Some u => KeyOpenTab u
  | None => KeyNameError
  end.

Definition carriage_return : string := String (ascii_of_nat 13) EmptyString.

Definition line_feed : string := String (ascii_of_nat 10) EmptyString.

(** The dictionary given to [input_listener].  Each function reads
    [runner.state] and [runner.user_count] when it is called. *)
Definition input_keys (url : option string)
  : dict (string -> Z -> key_result) :=
  [ ("w"%string,
     fun state user_count =>
       if negb (String.eqb state "spawning")
       then KeyStart (user_count + 1) 100 else KeyWarning);
    ("W"%string,
     fun state user_count =>
       if negb (String.eqb state "spawning")
       then KeyStart (user_count + 10) 100 else KeyWarning);
    ("s"%string,
     fun state user_count =>
       if negb (String.eqb state "spawning")
       then KeyStart (Z.max 0 (user_count - 1)) 100 else KeyWarning);
    ("S"%string,
     fun state user_count =>
       if negb (String.eqb state "spawning")
       then KeyStart (Z.max 0 (user_count - 10)) 100 else KeyWarning);
    (carriage_return, fun _ _ => open_new_tab url);
    (line_feed, fun _ _ => open_new_tab url) ].

(** ** The address of the web UI *)

(** The options read only where the web UI is created. *)
Record WebOptions := mkWebOptions {
  tls_cert : option string;
  tls_key : option string;
  web_host : string;
  web_port : Z;
  web_host_display_name : option string
}.

(** [str(n)] for an integer. *)
Definition str_Z (n : Z) : string := NilZero.string_of_int (Z.to_int n).

(** The variable [url] of [main] when the input listener is spawned:
    [None] when it was never assigned. *)
Definition web_url (h : Host) (o : Options) (w : WebOptions) : option string :=
  if negb (headless o) && negb (worker o) then
    let protocol :=
      if truthy_opt_str (tls_cert w) && truthy_opt_str (tls_key w)
      then "https"%string else "http"%string in
    let host :=
      if String.eqb (web_host w) "*" then EmptyString else web_host w in
    Some
      (if truthy_str host then
         (protocol ++ "://" ++ host ++ ":" ++ str_Z (web_port w)
            ++ web_base_path o)%string
       else if truthy_opt_str (web_host_display_name w) then
         match web_host_display_name w with
         | Some d => d
         | None => EmptyString
         end
       else
         (protocol ++ "://"
            ++ (if os_name_nt h then "localhost" else "0.0.0.0")
            ++ ":" ++ str_Z (web_port w) ++ web_base_path o)%string)
  else None.

(** ** The directory of the csv files *)

(** [s[:n]] and [s[n:]] for [n >= 0]. *)
Fixpoint str_take (n : nat) (s : string) : string :=
  match n, s with
  | O, _ => EmptyString
  | S _, EmptyString => EmptyString
  | S n', String c s' => String c (str_take n' s')
  end.

Fixpoint str_drop (n : nat) (s : string) : string :=
  match n, s with
  | O, _ => s
  | S _, EmptyString => EmptyString
  | S n', String _ s' => str_drop n' s'
  end.

(** [p.rfind("/")]: the index of the last slash, -1 when there is none.
    [i] is the index of the first character of [p], [last] the index of
    the last slash seen. *)
Fixpoint rfind_slash (i last : Z) (p : string) : Z :=
  match p with
  | EmptyString => last
  | String c p' =>
      rfind_slash (i + 1) (if Ascii.eqb c "/"%char then i else last) p'
  end.

(** [posixpath.basename]: [i = p.rfind("/") + 1; return p[i:]]. *)
Definition posixpath_basename (p : string) : string :=
  str_drop (Z.to_nat (rfind_slash 0 (-1) p + 1)) p.

(** [os.path.basename].  [os.path] is [posixpath], except on Windows,
    where it is [ntpath]: there a backslash and the colon of a drive
    separate as well.  [ntpath.basename] is not embedded; it is an
    argument. *)
Definition basename (h : Host) (ntpath_basename : string -> string)
    (p : string) : string :=
  if os_name_nt h then ntpath_basename p else posixpath_basename p.

(** [s[:-n]] for [n >= 0]: [-0] is [0], so the slice is empty for
    [n = 0]. *)
Definition slice_to_minus (n : nat) (s : string) : string :=
  match n with
  | O => EmptyString
  | S _ => str_take (String.length s - n) s
  end.

(** [base_csv_dir = options.csv_prefix[: -len(base_csv_file)]] *)
Definition base_csv_dir (h : Host) (ntpath_basename : string -> string)
    (csv_prefix : string) : string :=
  slice_to_minus (String.length (basename h ntpath_basename csv_prefix))
                 csv_prefix.

(** The directory that [main] creates for the csv files, if it creates
    one: [os.makedirs] is called when the directory does not exist and its
    name is not empty. *)
Definition csv_makedirs (h : Host) (ntpath_basename : string -> string)
    (path_exists : string -> bool) (csv_prefix : string) : option string :=
  if negb (path_exists (base_csv_dir h ntpath_basename csv_prefix))
     && negb (Nat.eqb (String.length
                         (base_csv_dir h ntpath_basename csv_prefix)) 0)
  then Some (base_csv_dir h ntpath_basename csv_prefix) else None.

Fixpoint has_slash (s : string) : bool :=
  match s with
  | EmptyString => false
  | String c s' => Ascii.eqb c "/"%char || has_slash s'
  end.

(** ** [examples/extend_web_ui.py] *)

(** The global [stats]: for each request name a dictionary with the key
    ["content-length"]. *)
Definition content_stats := dict (dict Z).

Definition content_length_key : string := "content-length".

(** [on_request]: [None] stands for a [KeyError]. *)
Definition on_request (name : string) (response_length : Z)
    (stats : content_stats) : option content_stats :=
  let stats1 :=
    if dict_mem name stats then stats
    else dict_set name [(content_length_key, 0)] stats in
  match dict_get name stats1 with
  | None => None
  | Some inner =>
      match dict_get content_length_key inner with
      | None => None
      | Some v =>
          Some (dict_set name
                  (dict_set content_length_key (v + response_length) inner)
                  stats1)
      end
  end.

(** [on_reset_stats] *)
Definition on_reset_stats : content_stats := [].

(** What [get_content_length_stats] returns: the rows, or the empty
    dictionary [stats] itself. *)
Inductive stats_view :=
| StatsRows (rows : list (string * Z))  (* name and content_length of a row *)
| StatsEmpty.

(** The loop of [get_content_length_stats]; [None] stands for a
    [KeyError]. *)
Fixpoint content_length_rows (stats : content_stats)
  : option (list (string * Z)) :=
  match stats with
  | [] => Some []
  | (name, inner_stats) :: rest =>
      match dict_get content_length_key inner_stats with
      | None => None
      | Some content_length =>
          match content_length_rows rest with
          | None => None
          | Some rows => Some ((name, content_length) :: rows)
          end
      end
  end.

Definition get_content_length_stats (stats : content_stats)
  : option stats_view :=
  match stats with
  | [] => Some StatsEmpty
  | _ :: _ =>
      match content_length_rows stats with
      | None => None
      | Some rows => Some (StatsRows (firstn 500 rows))
      end
  end.

(** The events that reach the handlers of the example. *)
Inductive stats_event :=
| Request (name : string) (response_length : Z)
| ResetStats.

Fixpoint handle_events (events : list stats_event) (stats : content_stats)
  : option content_stats :=
  match events with
  | [] => Some stats
  | Request name response_length :: rest =>
      match on_request name response_length stats with
      | None => None
      | Some stats' => handle_events rest stats'
      end
  | ResetStats :: rest => handle_events rest on_reset_stats
  end.

(** The requests since the last reset, oldest first. *)
Fixpoint since_reset (events : list stats_event) (acc : list (string * Z))
  : list (string * Z) :=
  match events with
  | [] => acc
  | Request name response_length :: rest =>
      since_reset rest (acc ++ [(name, response_length)])
  | ResetStats :: rest => since_reset rest []
  end.

(** The sum of the response lengths of the requests called [name]. *)
Fixpoint total_length (name : string) (requests : list (string * Z)) : Z :=
  match requests with
  | [] => 0
  | (n, l) :: rest =>
      (if String.eqb n name then l else 0) + total_length name rest
  end.

(** The names of the requests, each once, in the order of their first
    request. *)
Fixpoint first_names (requests : list (string * Z)) (seen : list string)
  : list string :=
  match requests with
  | [] => []
  | (n, _) :: rest =>
      if existsb (String.eqb n) seen then first_names rest seen
      else n :: first_names rest (seen ++ [n])
  end.

(** The global [stats] after the requests [requests] since the last
    reset: one entry for each name, in the order of the first requests,
    with the sum of the response lengths. *)
Definition stats_of_requests (requests : list (string * Z)) : content_stats :=
  map (fun n => (n, [(content_length_key, total_length n requests)]))
      (first_names requests []).

(** * Properties *)

(** ** Dictionaries *)

Lemma dict_get_set_same {V : Type} (k : string) (v : V) (d : dict V) :
  dict_get k (dict_set k v d) = Some v.
Proof.
  induction d as [|[k' v'] d IH]; simpl.
  - now rewrite String.eqb_refl.
  - destruct (String.eqb k k') eqn:E; simpl.
    + now rewrite String.eqb_refl.
    + now rewrite E.
Qed.

Lemma dict_get_set_other {V : Type} (k k' : string) (v : V) (d : dict V) :
  k <> k' -> dict_get k' (dict_set k v d) = dict_get k' d.
Proof.
  intros Hne. induction d as [|[k0 v0] d IH]; simpl.
  - destruct (String.eqb k' k) eqn:E; auto.
    apply String.eqb_eq in E. congruence.
  - destruct (String.eqb k k0) eqn:E; simpl.
    + apply String.eqb_eq in E. subst k0.
      destruct (String.eqb k' k) eqn:E'; auto.
      apply String.eqb_eq in E'. congruence.
    + now rewrite IH.
Qed.

(** ** Merging locustfiles *)





Lemma add_shape_classes_exit shapes avail code :
  add_shape_classes shapes avail = Exit code -> code = 1.
Proof.
  revert avail. induction shapes as [|s rest IH]; simpl; intros avail H.
  - discriminate.
  - destruct (dict_mem (sc_name s) avail); [congruence | eauto].
Qed.

Lemma add_shape_classes_not_blocked shapes avail :
  add_shape_classes shapes avail <> Blocked.
Proof.
  revert avail. induction shapes as [|s rest IH]; simpl; intros avail.
  - discriminate.
  - destruct (dict_mem (sc_name s) avail); [discriminate | apply IH].
Qed.

(** The three ways in which the comparison of the two paths can end. *)
Lemma getfile_cases (modules : sys_modules) (previous new : UserClass) :
  (exists path, inspect_getfile modules previous = Some path
                /\ inspect_getfile modules new = Some path)
  \/ (exists p1 p2, inspect_getfile modules previous = Some p1
                    /\ inspect_getfile modules new = Some p2
                    /\ String.eqb p1 p2 = false)
  \/ (inspect_getfile modules previous = None
      \/ inspect_getfile modules new = None).
Proof.
  destruct (inspect_getfile modules previous) as [p1|]; [|right; right; auto].
  destruct (inspect_getfile modules new) as [p2|]; [|right; right; auto].
  destruct (String.eqb p1 p2) eqn:E.
  - apply String.eqb_eq in E. subst p2. left. eauto.
  - right. left. eauto.
Qed.

(** One turn of the loop for a name that is bound. *)
Lemma add_user_classes_bound modules n d rest classes tasks previous :
  dict_get n classes = Some previous ->
  add_user_classes modules ((n, d) :: rest) classes tasks
  = match inspect_getfile modules previous, inspect_getfile modules d with
    | Some previous_path, Some new_path =>
        if String.eqb previous_path new_path
        then add_user_classes modules rest classes tasks
        else Exit 1
    | _, _ => Exit 1
    end.
Proof. intros H. simpl. now rewrite H. Qed.

(** When the loop goes on past a name that is bound, the two paths are the
    same. *)
Lemma add_user_classes_bound_inv {A : Type} modules n d rest classes tasks
    previous (r : A) (P : run (dict UserClass * dict (list string)) -> Prop) :
  dict_get n classes = Some previous ->
  (forall c, ~ P (Exit c)) ->
  P (add_user_classes modules ((n, d) :: rest) classes tasks) ->
  (exists path, inspect_getfile modules previous = Some path
                /\ inspect_getfile modules d = Some path)
  /\ P (add_user_classes modules rest classes tasks).
Proof.
  intros Hg Hex HP. rewrite (add_user_classes_bound _ _ _ _ _ _ _ Hg) in HP.
  destruct (getfile_cases modules previous d)
    as [[path [E1 E2]] | [[p1 [p2 [E1 [E2 E]]]] | [E1 | E2]]].
  - rewrite E1, E2, String.eqb_refl in HP. split; [eauto | exact HP].
  - rewrite E1, E2, E in HP. now apply Hex in HP.
  - rewrite E1 in HP. now apply Hex in HP.
  - rewrite E2 in HP.
    destruct (inspect_getfile modules previous); now apply Hex in HP.
Qed.

Lemma add_user_classes_exit modules items classes tasks code :
  add_user_classes modules items classes tasks = Exit code -> code = 1.
Proof.
  revert classes tasks.
  induction items as [|[n d] rest IH]; simpl; intros classes tasks H.
  - discriminate.
  - destruct (dict_get n classes) as [prev|]; [|eauto].
    destruct (inspect_getfile modules prev) as [p1|]; [|congruence].
    destruct (inspect_getfile modules d) as [p2|]; [|congruence].
    destruct (String.eqb p1 p2); [eauto | congruence].
Qed.

Lemma add_user_classes_not_blocked modules items classes tasks :
  add_user_classes modules items classes tasks <> Blocked.
Proof.
  revert classes tasks.
  induction items as [|[n d] rest IH]; simpl; intros classes tasks.
  - discriminate.
  - destruct (dict_get n classes) as [prev|]; [|apply IH].
    destruct (inspect_getfile modules prev) as [p1|]; [|discriminate].
    destruct (inspect_getfile modules d) as [p2|]; [|discriminate].
    destruct (String.eqb p1 p2); [apply IH | discriminate].
Qed.

(** A name that is bound keeps its definition. *)
Lemma add_user_classes_keeps modules items classes tasks classes' tasks' :
  add_user_classes modules items classes tasks = Ret (classes', tasks') ->
  forall n d, dict_get n classes = Some d -> dict_get n classes' = Some d.
Proof.
  revert classes tasks.
  induction items as [|[n0 d0] rest IH]; intros classes tasks H n d Hn.
  - simpl in H. congruence.
  - destruct (dict_get n0 classes) as [prev|] eqn:E0.
    + apply (add_user_classes_bound_inv (A := unit) modules n0 d0 rest classes
               tasks prev tt (fun r => r = Ret (classes', tasks')) E0) in H;
        [|discriminate].
      destruct H as [_ H]. eauto.
    + simpl in H. rewrite E0 in H. eapply IH; [exact H|].
      rewrite dict_get_set_other; [assumption | congruence].
Qed.



Lemma merge_loop_exit load files modules classes shapes tasks code :
  merge_loop load files modules classes shapes tasks = Exit code -> code = 1.
Proof.
  revert modules classes shapes tasks.
  induction files as [|f rest IH]; simpl; intros modules classes shapes tasks H.
  - discriminate.
  - destruct (add_shape_classes _ shapes) eqn:Es; simpl in H;
      [inversion H; subst; eapply add_shape_classes_exit; eauto | discriminate |].
    destruct (add_user_classes _ _ classes tasks) eqn:Eu; simpl in H;
      [inversion H; subst; eapply add_user_classes_exit; eauto | discriminate |].
    eauto.
Qed.

Lemma merge_loop_not_blocked load files modules classes shapes tasks :
  merge_loop load files modules classes shapes tasks <> Blocked.
Proof.
  revert modules classes shapes tasks.
  induction files as [|f rest IH]; simpl; intros modules classes shapes tasks.
  - discriminate.
  - destruct (add_shape_classes _ shapes) eqn:Es; simpl;
      [discriminate | now apply add_shape_classes_not_blocked in Es |].
    destruct (add_user_classes _ _ classes tasks) eqn:Eu; simpl;
      [discriminate | now apply add_user_classes_not_blocked in Eu |].
    apply IH.
Qed.

Lemma merge_loop_keeps load files modules classes shapes tasks
    classes' shapes' tasks' :
  merge_loop load files modules classes shapes tasks
    = Ret (classes', shapes', tasks') ->
  forall n d, dict_get n classes = Some d -> dict_get n classes' = Some d.
Proof.
  revert modules classes shapes tasks.
  induction files as [|f rest IH]; simpl;
    intros modules classes shapes tasks H n d Hn.
  - congruence.
  - destruct (add_shape_classes _ shapes) eqn:Es; simpl in H; try discriminate.
    destruct (add_user_classes _ _ classes tasks) as [| |[c1 t1]] eqn:Eu;
      simpl in H; try discriminate.
    eapply IH; [exact H|]. eapply add_user_classes_keeps; eauto.
Qed.









Lemma merge_exit load files code :
  merge_locustfiles_content load files = Exit code -> code = 1.
Proof.
  unfold merge_locustfiles_content.
  destruct (merge_loop load files [] [] [] []) as [c| |[[c s] t]] eqn:E; simpl;
    intros H; try discriminate.
  inversion H; subst. eapply merge_loop_exit; eauto.
Qed.

Lemma merge_not_blocked load files :
  merge_locustfiles_content load files <> Blocked.
Proof.
  unfold merge_locustfiles_content.
  destruct (merge_loop load files [] [] [] []) as [c| |[[c s] t]] eqn:E; simpl;
    try discriminate.
  now apply merge_loop_not_blocked in E.
Qed.





(** ** Computations *)

Lemma bind_emit {B : Type} (es : list event) (k : unit -> M B) :
  bind (emit es) k = (es ++ fst (k tt), snd (k tt)).
Proof. reflexivity. Qed.

Lemma bind_ret {A B : Type} (a : A) (k : A -> M B) : bind (ret a) k = k a.
Proof. unfold bind, ret; simpl. now destruct (k a). Qed.

Lemma bind_exit {A B : Type} (code : Z) (k : A -> M B) :
  bind (sys_exit code) k = sys_exit code.
Proof. reflexivity. Qed.

Lemma bind_lift_exit {A B : Type} (code : Z) (k : A -> M B) :
  bind (lift (Exit code)) k = ([], Exit code).
Proof. reflexivity. Qed.

Lemma bind_lift_ret {A B : Type} (a : A) (k : A -> M B) :
  bind (lift (Ret a)) k = k a.
Proof. unfold bind, lift; simpl. now destruct (k a). Qed.

(** ** The exit code of [shutdown] *)

(** C1: [shutdown()] exits with the code it determines, and determines it
    in this order: the explicit [environment.process_exit_code] if there is
    one; else [options.exit_code_on_error] if a request error or an
    exception was recorded; else 2 if a greenlet raised unhandled; else 0. *)
Theorem shutdown_exit_code_precedence
    (o : Options) (runner : RunnerKind)
    (input_listener stats_printer headless_master : bool) (f : FinalState) :
  outcome (@shutdown Empty_set o runner input_listener stats_printer
             headless_master f) = Exit (determine_exit_code o f)
  /\ (forall code, process_exit_code f = Some code ->
        determine_exit_code o f = code)
  /\ (process_exit_code f = None ->
      (errors f <> 0 \/ exceptions f <> 0)%nat ->
      determine_exit_code o f = exit_code_on_error o)
  /\ (process_exit_code f = None -> errors f = 0%nat -> exceptions f = 0%nat ->
      unhandled_greenlet_exception f = true ->
      determine_exit_code o f = 2)
  /\ (process_exit_code f = None -> errors f = 0%nat -> exceptions f = 0%nat ->
      unhandled_greenlet_exception f = false ->
      determine_exit_code o f = 0).
Proof.
  unfold determine_exit_code. repeat split.
  - intros code ->. reflexivity.
  - intros -> [H | H].
    + destruct (errors f); [contradiction | reflexivity].
    + destruct (exceptions f); [contradiction|].
      simpl. now rewrite orb_true_r.
  - intros -> -> -> ->. reflexivity.
  - intros -> -> -> ->. reflexivity.
Qed.

Lemma shutdown_exit_code_precedence_witness :
  determine_exit_code
    (sample_options true false (-1) 0 false false None false)
    (mkFinalState None 0 3 true) = 1
  /\ determine_exit_code
       (sample_options true false (-1) 0 false false None false)
       (mkFinalState None 0 0 true) = 2.
Proof.
  split.
  - apply (proj1 (proj2 (proj2 (shutdown_exit_code_precedence
             (sample_options true false (-1) 0 false false None false)
             LocalRunner true true false (mkFinalState None 0 3 true))))).
    + reflexivity.
    + right. simpl. discriminate.
  - apply (proj1 (proj2 (proj2 (proj2 (shutdown_exit_code_precedence
             (sample_options true false (-1) 0 false false None false)
             LocalRunner true true false (mkFinalState None 0 0 true)))))).
    all: reflexivity.
Defined.

(** ** The run time limit *)

(** C6: when the run time limit fires with autostart and without headless,
    [runner.stop()] comes first; with an autoquit delay the sleep of that
    delay follows, and only then [runner.quit()] and, if there is a web UI,
    [web_ui.stop()]; without an autoquit delay nothing follows the stop.
    With headless, [runner.quit()] is all that happens.  In no case does a
    quit come before a stop. *)
Theorem stop_and_optionally_quit_order (o : Options) (web_ui : bool) :
  (autostart o = true -> headless o = false ->
     hd_error (stop_and_optionally_quit o web_ui) = Some ERunnerStop
     /\ (autoquit o <> -1 ->
         stop_and_optionally_quit o web_ui =
           [ERunnerStop; ESleep (inject_Z (autoquit o)); ERunnerQuit]
             ++ (if web_ui then [EWebUiStop] else []))
     /\ (autoquit o = -1 -> stop_and_optionally_quit o web_ui = [ERunnerStop]))
  /\ (headless o = true -> stop_and_optionally_quit o web_ui = [ERunnerQuit])
  /\ ~ precedes ERunnerQuit ERunnerStop (stop_and_optionally_quit o web_ui).
Proof.
  unfold stop_and_optionally_quit. split; [|split].
  - intros -> ->. simpl. split; [reflexivity|split].
    + intros Hq.
      destruct (autoquit o =? -1) eqn:E; [apply Z.eqb_eq in E; contradiction|].
      reflexivity.
    + intros ->. reflexivity.
  - intros ->. now rewrite andb_false_r.
  - intros [l1 [l2 [l3 H]]].
    destruct (autostart o && negb (headless o)).
    + destruct l1 as [|e l1]; simpl in H; [discriminate|].
      inversion H as [[He Ht]]. clear H.
      assert (Hin : In ERunnerStop
                (if negb (autoquit o =? -1)
                 then ESleep (inject_Z (autoquit o)) :: ERunnerQuit
                        :: (if web_ui then [EWebUiStop] else [])
                 else [])).
      { rewrite Ht. apply in_or_app. right. right.
        apply in_or_app. right. now left. }
      destruct (negb (autoquit o =? -1)); simpl in Hin.
      * destruct web_ui; simpl in Hin; intuition discriminate.
      * contradiction.
    + destruct l1 as [|e l1]; simpl in H.
      * inversion H as [Ht]. destruct l2; discriminate.
      * inversion H as [[He Ht]]. destruct l1; discriminate.
Qed.

Lemma stop_and_optionally_quit_order_witness :
  stop_and_optionally_quit
    (sample_options false true 30 0 false false (Some 60) false) true
  = [ERunnerStop; ESleep (inject_Z 30); ERunnerQuit; EWebUiStop].
Proof.
  apply (proj1 (proj2 (proj1 (stop_and_optionally_quit_order
           (sample_options false true 30 0 false false (Some 60) false) true)
           eq_refl eq_refl))).
  simpl. discriminate.
Defined.

(** ** The statistics printed by [shutdown] *)

(** C8 fails on the code: with [--json] and no [--json-file], on a process
    that is not a worker, [shutdown()] prints the statistics as JSON and
    also prints the summary, the percentiles and the error report. *)
Lemma json_and_summary_both_printed :
  final_statistics (sample_options true false (-1) 0 false false None true)
    LocalRunner
  = [EPrintStatsJson; EPrintStats; EPrintPercentileStats; EPrintErrorReport]
  /\ trace (@shutdown Empty_set
              (sample_options true false (-1) 0 false false None true)
              LocalRunner true true false clean_final)
     = [EKillGreenlet InputListener; EFireQuitting; EKillGreenlet StatsPrinter;
        ERunnerQuit; EPrintStatsJson; EPrintStats; EPrintPercentileStats;
        EPrintErrorReport; EFireQuit 0].
Proof. split; reflexivity. Qed.

(** ** The fork loop in the parent *)

Lemma fork_loop_parent (fr : nat -> Z) (n k : nat) (children : list Z) :
  (forall i, (i < n)%nat -> fr (k + i)%nat <> 0) ->
  fork_loop fr k n children
  = (map EFork (map fr (seq k n)), Ret (children ++ map fr (seq k n), true)).
Proof.
  revert k children. induction n as [|n IH]; intros k children Hp; simpl.
  - unfold ret. now rewrite app_nil_r.
  - rewrite bind_emit.
    assert (Hk : truthy_Z (fr k) = true).
    { unfold truthy_Z. specialize (Hp 0%nat ltac:(lia)).
      rewrite Nat.add_0_r in Hp. apply Z.eqb_neq in Hp. now rewrite Hp. }
    rewrite Hk, IH.
    + simpl. now rewrite <- app_assoc.
    + intros i Hi. replace (S k + i)%nat with (k + S i)%nat by lia.
      apply Hp. lia.
Qed.

(** ** The waiting parent *)

Lemma firstn_plus {X : Type} (n m : nat) (l : list X) :
  firstn (n + m) l = firstn n l ++ firstn m (skipn n l).
Proof.
  revert l. induction n as [|n IH]; intros l; simpl.
  - reflexivity.
  - destruct l as [|x l]; simpl.
    + now rewrite firstn_nil.
    + now rewrite IH.
Qed.

Lemma skipn_plus {X : Type} (n m : nat) (l : list X) :
  skipn m (skipn n l) = skipn (n + m) l.
Proof.
  revert l. induction n as [|n IH]; intros l; simpl.
  - reflexivity.
  - destruct l as [|x l]; simpl; [now rewrite skipn_nil | apply IH].
Qed.

Lemma skipn_nonempty {X : Type} (n : nat) (l : list X) :
  (n < List.length l)%nat -> exists x r, skipn n l = x :: r.
Proof.
  revert l. induction n as [|n IH]; intros [|x l] H; simpl in *; try lia.
  - eauto.
  - apply IH. lia.
Qed.

Lemma fold_left_max_is_max (l : list Z) (init : Z) :
  is_max_of init l (fold_left Z.max l init).
Proof.
  revert init. induction l as [|x l IH]; intros init; simpl.
  - unfold is_max_of. split; [lia|]. split; [contradiction | now left].
  - destruct (IH (Z.max init x)) as [H1 [H2 H3]].
    unfold is_max_of. split; [lia|]. split.
    + intros y [<- | Hy]; [lia | auto].
    + destruct H3 as [H3 | H3]; [|right; now right].
      destruct (Z.max_spec init x) as [[_ E] | [_ E]].
      * right. left. congruence.
      * left. congruence.
Qed.

(** The children that end while the parent waits are waited for in turn. *)
Lemma parent_wait_exits {A : Type} (kill : Z -> signal -> kill_result)
    (children : list Z) (has_run : bool) (sts : list child_status)
    (remaining : list Z) (exit_code : Z) (rest : list os_input) :
  (List.length sts <= List.length remaining)%nat ->
  @parent_wait A kill children has_run remaining exit_code
     (map ChildExit sts ++ rest)
  = (map (fun p => EWaitpid p false) (firstn (List.length sts) remaining)
       ++ fst (@parent_wait A kill children has_run
                 (skipn (List.length sts) remaining)
                 (fold_left Z.max (map waitstatus_to_exitcode sts) exit_code)
                 rest),
     snd (@parent_wait A kill children has_run
            (skipn (List.length sts) remaining)
            (fold_left Z.max (map waitstatus_to_exitcode sts) exit_code)
            rest)).
Proof.
  revert remaining exit_code.
  induction sts as [|st sts IH]; intros remaining exit_code Hlen; simpl.
  - now destruct (parent_wait kill children has_run remaining exit_code rest).
  - destruct remaining as [|c remaining]; simpl in Hlen; [lia|].
    simpl. rewrite bind_emit. rewrite IH by lia. reflexivity.
Qed.

Lemma parent_wait_first_sigint {A : Type} (kill : Z -> signal -> kill_result)
    (children : list Z) (c : Z) (r : list Z) (exit_code : Z)
    (inputs : list os_input) :
  @parent_wait A kill children false (c :: r) exit_code (Sigint :: inputs)
  = @parent_wait A kill children true (c :: r) exit_code inputs.
Proof. cbn [parent_wait]. unfold sigint_handler. now rewrite bind_ret. Qed.

Lemma sigint_handler_second (kill : Z -> signal -> kill_result)
    (children : list Z) :
  sigint_handler kill children true
  = (map (fun p => EKill p SIGKILL (kill p SIGKILL)) children, Exit 1).
Proof.
  unfold sigint_handler. rewrite bind_emit. simpl. now rewrite app_nil_r.
Qed.

Lemma parent_wait_second_sigint {A : Type} (kill : Z -> signal -> kill_result)
    (children : list Z) (c : Z) (r : list Z) (exit_code : Z)
    (inputs : list os_input) :
  @parent_wait A kill children true (c :: r) exit_code (Sigint :: inputs)
  = (map (fun p => EKill p SIGKILL (kill p SIGKILL)) children, Exit 1).
Proof. cbn [parent_wait]. now rewrite sigint_handler_second. Qed.

(** The parent that is itself a worker installs the handler and waits. *)
Lemma processes_block_worker_parent (h : Host) (o : Options) (n : Z) :
  processes o <> 0 ->
  resolve_processes h o = Ret n ->
  (forall k, (k < Z.to_nat n)%nat -> fork_ret h k <> 0) ->
  worker o = true ->
  processes_block h o
  = (map EFork (map (fork_ret h) (seq 0 (Z.to_nat n)))
       ++ ESigintHandler
       :: fst (@parent_wait (Options * list Z) (os_kill h)
                 (map (fork_ret h) (seq 0 (Z.to_nat n))) false
                 (map (fork_ret h) (seq 0 (Z.to_nat n))) 0 (wait_inputs h)),
     snd (@parent_wait (Options * list Z) (os_kill h)
            (map (fork_ret h) (seq 0 (Z.to_nat n))) false
            (map (fork_ret h) (seq 0 (Z.to_nat n))) 0 (wait_inputs h))).
Proof.
  intros Hp Hr Hf Hw. unfold processes_block.
  assert (Ht : truthy_Z (processes o) = true).
  { unfold truthy_Z. apply Z.eqb_neq in Hp. now rewrite Hp. }
  rewrite Ht, Hr, bind_lift_ret.
  rewrite fork_loop_parent by (intros i Hi; now apply Hf).
  unfold bind at 1. cbn [fst snd app]. simpl worker. rewrite Hw.
  rewrite bind_emit. reflexivity.
Qed.

(** ** What [kill_workers] does *)

Lemma poll_child_events (child_pid : Z) (attempts : list wait_attempt)
    (e : event) :
  In e (fst (poll_child child_pid attempts)) ->
  e = EWaitpid child_pid true \/ e = ESleep (1 # 10).
Proof.
  induction attempts as [|a rest IH]; simpl; [intros []|].
  destruct a; simpl.
  - intros [<- | []]. now left.
  - intros [<- | [<- | H]]; auto.
  - intros [<- | H]; auto.
Qed.

Lemma reap_finished_events (attempts : Z -> list wait_attempt)
    (snapshot : list Z) :
  forall (children : list Z) (exit_code : Z) (e : event),
    In e (fst (reap_finished attempts snapshot children exit_code)) ->
    (exists p, In p snapshot /\ e = EWaitpid p true) \/ e = ESleep (1 # 10).
Proof.
  induction snapshot as [|c rest IH]; intros children exit_code e;
    cbn [reap_finished]; [intros []|].
  cbn [fst]. intros H. apply in_app_or in H. destruct H as [H | H].
  - apply poll_child_events in H. destruct H as [-> | ->]; [left | now right].
    exists c. split; [now left | reflexivity].
  - destruct (snd (poll_child c (attempts c)));
      apply IH in H; (destruct H as [[p [Hp ->]] | ->]; [left | now right]);
      exists p; (split; [now right | reflexivity]).
Qed.

Lemma reap_remaining_events (status : Z -> child_status) (children : list Z) :
  forall exit_code,
    fst (reap_remaining status children exit_code)
    = map (fun c => EWaitpid c false) children.
Proof.
  induction children as [|c rest IH]; intros exit_code; [reflexivity|].
  cbn [reap_remaining fst map]. now rewrite IH.
Qed.

Lemma interrupt_children_events (kill : Z -> signal -> kill_result)
    (children : list Z) (e : event) :
  In e (fst (interrupt_children kill children)) ->
  exists p r, e = EKill p SIGINT r.
Proof.
  induction children as [|c rest IH]; cbn [interrupt_children];
    [intros []|].
  destruct (kill c SIGINT); cbn [fst];
    (intros [<- | H]; [eauto | try contradiction; auto]).
Qed.

(** Every event of [kill_workers] is a call of [waitpid], a sleep of
    0.1 s, a SIGINT sent to a child, or the error line, which carries the
    final value of the local [exit_code], a value above 1. *)
Lemma kill_workers_events (h : Host) (children : list Z) (e : event) :
  In e (fst (kill_workers h children)) ->
  (exists p nohang, e = EWaitpid p nohang)
  \/ e = ESleep (1 # 10)
  \/ (exists p r, e = EKill p SIGINT r)
  \/ (exists c, e = EBadResponseCode c /\ 1 < c
                /\ snd (kill_workers h children) = Some c).
Proof.
  unfold kill_workers.
  pose proof (reap_finished_events (wait_attempts h) children children 0)
    as H1.
  destruct (reap_finished (wait_attempts h) children children 0)
    as [tr1 [children1 code1]].
  cbn [fst snd] in *.
  pose proof (interrupt_children_events (os_kill h) children1) as H2.
  destruct (interrupt_children (os_kill h) children1) as [tr2 ok].
  cbn [fst snd] in *.
  assert (Hfirst : In e tr1 ->
            (exists p nohang, e = EWaitpid p nohang) \/ e = ESleep (1 # 10)
            \/ (exists p r, e = EKill p SIGINT r)
            \/ (exists c, e = EBadResponseCode c /\ 1 < c
                          /\ snd (if ok
                                  then (tr1 ++ tr2
                                          ++ fst (reap_remaining (final_status h)
                                                    children1 code1)
                                          ++ (if 1 <? snd (reap_remaining
                                                             (final_status h)
                                                             children1 code1)
                                              then [EBadResponseCode
                                                      (snd (reap_remaining
                                                              (final_status h)
                                                              children1 code1))]
                                              else [])
                                          ++ [ESleep (1 # 10)],
                                        Some (snd (reap_remaining
                                                     (final_status h)
                                                     children1 code1)))
                                  else (tr1 ++ tr2, None)) = Some c)).
  { intros H. destruct (H1 e H) as [[p [_ ->]] | ->]; [left; eauto | auto]. }
  assert (Hsecond : In e tr2 -> exists p r, e = EKill p SIGINT r)
    by (intros H; now apply H2).
  destruct ok; cbn [fst snd]; intros H.
  - apply in_app_or in H. destruct H as [H | H]; [now apply Hfirst|].
    apply in_app_or in H. destruct H as [H | H]; [right; right; left; auto|].
    apply in_app_or in H. destruct H as [H | H].
    { rewrite reap_remaining_events in H. apply in_map_iff in H.
      destruct H as [p [<- _]]. left. eauto. }
    apply in_app_or in H. destruct H as [H | H].
    + destruct (1 <? snd (reap_remaining (final_status h) children1 code1))
        eqn:E; [|contradiction].
      destruct H as [<- | []]. right. right. right.
      eexists. split; [reflexivity|]. split; [now apply Z.ltb_lt | reflexivity].
    + destruct H as [<- | []]. auto.
  - apply in_app_or in H. destruct H as [H | H]; [now apply Hfirst|].
    right; right; left; auto.
Qed.

(** The parent that is not a worker installs no handler: it registers
    [kill_workers] and goes on as the master. *)
Lemma processes_block_master_parent (h : Host) (o : Options) (n : Z) :
  processes o <> 0 ->
  resolve_processes h o = Ret n ->
  (forall k, (k < Z.to_nat n)%nat -> fork_ret h k <> 0) ->
  worker o = false ->
  processes_block h o
  = (map EFork (map (fork_ret h) (seq 0 (Z.to_nat n)))
       ++ [EAtexitRegister
             (AtexitKillWorkers (map (fork_ret h) (seq 0 (Z.to_nat n))))],
     Ret (parent_master_options (set_processes n o),
          map (fork_ret h) (seq 0 (Z.to_nat n)))).
Proof.
  intros Hp Hr Hf Hw. unfold processes_block.
  assert (Ht : truthy_Z (processes o) = true).
  { unfold truthy_Z. apply Z.eqb_neq in Hp. now rewrite Hp. }
  rewrite Ht, Hr, bind_lift_ret.
  rewrite fork_loop_parent by (intros i Hi; now apply Hf).
  unfold bind at 1. cbn [fst snd app]. simpl worker. rewrite Hw.
  rewrite bind_emit. reflexivity.
Qed.

(** C2, as stated, fails in the parent that becomes the master, which is
    a coordinator with live children as well.  That process installs no
    SIGINT handler, so the first SIGINT is not ignored: it raises
    [KeyboardInterrupt] in [main_greenlet.join()], which [main] catches to
    go on with [shutdown()].  Here the children are alive (the calls of
    [waitpid] with [WNOHANG] return at once): the process exits with the
    code of [shutdown()], 0 and not 1, and no child is sent SIGKILL. *)
Lemma sigint_master_parent_counterexample :
  process
    (sample_host [] (fun _ => [WaitReturned (Exited 0)]) []
       (Some clean_final))
    plain_locustfile ["locustfile.py"%string]
    (sample_options false false (-1) 2 false false None false)
  = ([EFork 101; EFork 102;
      EAtexitRegister (AtexitKillWorkers [101; 102]);
      ECreateRunner MasterRunner; ECreateWebUi; EFireInit; EWebUiStart;
      ESpawn StatsHistory; ESpawn InputListener;
      EAtexitRegister AtexitKillInputListener; ESigtermHandler;
      EKillGreenlet InputListener; EFireQuitting; ERunnerQuit;
      EPrintStats; EPrintPercentileStats; EPrintErrorReport;
      EFireQuit 0; EKillGreenlet InputListener;
      EWaitpid 101 true; EWaitpid 102 true; ESleep (1 # 10)],
     Some 0).
Proof. reflexivity. Qed.

(** C2 (amended): in the parent that is itself a worker and waits for
    its children (the one process in which [sigint_handler] is installed),
    the first SIGINT causes no call of [os.kill] and no exit, it only sets
    [has_run]: the parent goes on waiting.  The second SIGINT sends SIGKILL
    to every child of the list and exits with code 1.  [sts1] and [sts2]
    are the children that ended before the first and between the two
    signals; at least one child has not been waited for.  The sixth part
    states the same for the whole [--processes] block of [main].  The
    parent that is not a worker installs no SIGINT handler in that block:
    it registers [kill_workers], which never sends SIGKILL. *)
Theorem sigint_first_ignored_second_kills
    (kill : Z -> signal -> kill_result) (children : list Z)
    (sts1 sts2 : list child_status) (post : list os_input) :
  (List.length sts1 + List.length sts2 < List.length children)%nat ->
  let waits := map (fun p => EWaitpid p false)
                   (firstn (List.length sts1 + List.length sts2) children) in
  let kills := map (fun p => EKill p SIGKILL (kill p SIGKILL)) children in
  sigint_handler kill children false = ([], Ret true)
  /\ sigint_handler kill children true = (kills, Exit 1)
  /\ (forall A : Type,
      @parent_wait A kill children false children 0
        (map ChildExit sts1 ++ Sigint :: map ChildExit sts2)
      = (waits, Blocked))
  /\ (forall A : Type,
      @parent_wait A kill children false children 0
        (map ChildExit sts1 ++ Sigint :: map ChildExit sts2 ++ Sigint :: post)
      = (waits ++ kills, Exit 1))
  /\ (forall c, In c children -> In (EKill c SIGKILL (kill c SIGKILL)) kills)
  /\ (forall h o n,
      processes o <> 0 -> resolve_processes h o = Ret n -> worker o = true ->
      (forall k, (k < Z.to_nat n)%nat -> fork_ret h k <> 0) ->
      children = map (fork_ret h) (seq 0 (Z.to_nat n)) ->
      os_kill h = kill ->
      wait_inputs h
        = map ChildExit sts1 ++ Sigint :: map ChildExit sts2 ++ Sigint :: post ->
      processes_block h o
      = (map EFork children ++ ESigintHandler :: waits ++ kills, Exit 1))
  /\ (forall h o n,
      processes o <> 0 -> resolve_processes h o = Ret n -> worker o = false ->
      (forall k, (k < Z.to_nat n)%nat -> fork_ret h k <> 0) ->
      children = map (fork_ret h) (seq 0 (Z.to_nat n)) ->
      processes_block h o
      = (map EFork children ++ [EAtexitRegister (AtexitKillWorkers children)],
         Ret (parent_master_options (set_processes n o), children)))
  /\ (forall h pid r,
      ~ In (EKill pid SIGKILL r) (fst (kill_workers h children))).
Proof.
  intros Hlen waits kills.
  split; [reflexivity|]. split; [apply sigint_handler_second|].
  assert (Hw : waits =
            map (fun p => EWaitpid p false) (firstn (List.length sts1) children)
            ++ map (fun p => EWaitpid p false)
                 (firstn (List.length sts2) (skipn (List.length sts1) children))).
  { unfold waits. now rewrite firstn_plus, map_app. }
  destruct (skipn_nonempty (List.length sts1) children) as [c1 [r1 E1]]; [lia|].
  destruct (skipn_nonempty (List.length sts1 + List.length sts2) children)
    as [c2 [r2 E2]]; [lia|].
  assert (Hlen2 : (List.length sts2 <= List.length (c1 :: r1))%nat).
  { rewrite <- E1, length_skipn. lia. }
  assert (E2' : skipn (List.length sts2) (c1 :: r1) = c2 :: r2).
  { rewrite <- E1, skipn_plus. exact E2. }
  assert (Hsecond : forall A : Type,
      @parent_wait A kill children false children 0
        (map ChildExit sts1 ++ Sigint :: map ChildExit sts2 ++ Sigint :: post)
      = (waits ++ kills, Exit 1)).
  { intros A. rewrite parent_wait_exits by lia. rewrite E1.
    rewrite parent_wait_first_sigint.
    rewrite parent_wait_exits by exact Hlen2.
    rewrite E2'. rewrite parent_wait_second_sigint.
    cbn [fst snd].
    rewrite Hw, E1, app_assoc. reflexivity. }
  split; [|split; [exact Hsecond|split; [|split; [|split]]]].
  - intros A. rewrite parent_wait_exits by lia. rewrite E1.
    rewrite parent_wait_first_sigint.
    rewrite <- (app_nil_r (map ChildExit sts2)).
    rewrite parent_wait_exits by exact Hlen2.
    rewrite E2'. cbn [parent_wait blocked fst snd].
    rewrite Hw, E1, app_nil_r. reflexivity.
  - intros c Hc. unfold kills.
    apply (in_map (fun p => EKill p SIGKILL (kill p SIGKILL))). exact Hc.
  - intros h o n Hp Hr Hwk Hf Hc Hk Hi.
    rewrite (processes_block_worker_parent h o n Hp Hr Hf Hwk).
    rewrite <- Hc, Hk, Hi, Hsecond. reflexivity.
  - intros h o n Hp Hr Hwk Hf Hc.
    rewrite (processes_block_master_parent h o n Hp Hr Hf Hwk).
    now rewrite <- Hc.
  - intros h pid r Hin. apply kill_workers_events in Hin.
    destruct Hin as [[p [b E]] | [E | [[p [r' E]] | [c [E _]]]]];
      discriminate E.
Qed.

Lemma sigint_first_ignored_second_kills_witness :
  @parent_wait Empty_set (fun _ _ => KillOk) [101; 102; 103] false
     [101; 102; 103] 0
     (map ChildExit [Exited 0] ++ Sigint :: map ChildExit [] ++ Sigint :: [])
  = ([EWaitpid 101 false; EKill 101 SIGKILL KillOk; EKill 102 SIGKILL KillOk;
      EKill 103 SIGKILL KillOk], Exit 1).
Proof.
  refine (proj1 (proj2 (proj2 (proj2 (sigint_first_ignored_second_kills
            (fun _ _ => KillOk) [101; 102; 103] [Exited 0] [] [] _)))) _).
  simpl. lia.
Defined.

(** ** The aggregate exit code *)

Lemma list_remove_middle (c : Z) (kept rest : list Z) :
  ~ In c kept -> list_remove c (kept ++ c :: rest) = kept ++ rest.
Proof.
  induction kept as [|x kept IH]; simpl; intros Hn.
  - now rewrite Z.eqb_refl.
  - destruct (x =? c) eqn:E.
    + apply Z.eqb_eq in E. exfalso. apply Hn. now left.
    + rewrite IH; [reflexivity|]. intros Hc. apply Hn. now right.
Qed.

(** The first loop of [kill_workers] leaves in the list the children for
    which no call returned, and takes the maximum over the others. *)
Lemma reap_finished_result (attempts : Z -> list wait_attempt)
    (snapshot kept : list Z) (exit_code : Z) :
  NoDup (kept ++ snapshot) ->
  snd (reap_finished attempts snapshot (kept ++ snapshot) exit_code)
  = (kept ++ filter (not_polled attempts) snapshot,
     fold_left Z.max (flat_map (polled_codes attempts) snapshot) exit_code).
Proof.
  revert kept exit_code.
  induction snapshot as [|c rest IH]; intros kept exit_code Hnd; simpl.
  - reflexivity.
  - unfold not_polled, polled_codes, polled_status.
    destruct (snd (poll_child c (attempts c))) as [st|] eqn:Ep; simpl.
    + rewrite list_remove_middle by (now apply NoDup_remove_2 in Hnd;
                                     intros Hc; apply Hnd, in_or_app; left).
      apply IH. now apply NoDup_remove_1 in Hnd.
    + replace (kept ++ c :: rest) with ((kept ++ [c]) ++ rest)
        by (now rewrite <- app_assoc).
      rewrite IH by (now rewrite <- app_assoc).
      now rewrite <- app_assoc.
Qed.

Lemma reap_remaining_result (status : Z -> child_status) (children : list Z)
    (exit_code : Z) :
  snd (reap_remaining status children exit_code)
  = fold_left Z.max
      (map (fun c => waitstatus_to_exitcode (status c)) children) exit_code.
Proof.
  revert exit_code. induction children as [|c rest IH]; intros exit_code; simpl.
  - reflexivity.
  - apply IH.
Qed.

Lemma is_max_of_same_elements (init : Z) (l1 l2 : list Z) (m : Z) :
  (forall x, In x l1 <-> In x l2) -> is_max_of init l1 m -> is_max_of init l2 m.
Proof.
  intros Hs [H1 [H2 H3]]. split; [assumption|]. split.
  - intros x Hx. apply H2. now apply Hs.
  - destruct H3 as [H3 | H3]; [now left | right; now apply Hs].
Qed.

(** The local [exit_code] of [kill_workers] is the largest of 0 and the
    exit codes it read. *)
Lemma kill_workers_aggregate (h : Host) (children : list Z)
    (tr : list event) (agg : Z) :
  NoDup children ->
  kill_workers h children = (tr, Some agg) ->
  is_max_of 0 (map (reaped_exit_code h) children) agg.
Proof.
  intros Hnd. unfold kill_workers.
  pose proof (reap_finished_result (wait_attempts h) children [] 0 Hnd) as Hr.
  simpl in Hr.
  destruct (reap_finished (wait_attempts h) children children 0)
    as [tr1 [children1 code1]].
  simpl in Hr. inversion Hr; subst children1 code1; clear Hr.
  cbn [fst snd].
  destruct (interrupt_children (os_kill h)
              (filter (not_polled (wait_attempts h)) children)) as [tr2 [|]];
    cbn [fst snd]; [|discriminate].
  intros H. inversion H as [[Ht Ha]]. clear H Ht.
  rewrite reap_remaining_result. rewrite <- fold_left_app.
  eapply is_max_of_same_elements; [|apply fold_left_max_is_max].
  intros x. rewrite in_app_iff, in_flat_map, !in_map_iff. split.
  - intros [[c [Hc Hx]] | [c [Hx Hc]]].
    + exists c. split; [|assumption].
      unfold reaped_exit_code. unfold polled_codes, polled_status in Hx.
      destruct (snd (poll_child c (wait_attempts h c))); simpl in Hx;
        [intuition congruence | contradiction].
    + apply filter_In in Hc. destruct Hc as [Hc Hn].
      exists c. split; [|assumption].
      unfold reaped_exit_code. unfold not_polled, polled_status in Hn.
      destruct (snd (poll_child c (wait_attempts h c)));
        [discriminate | assumption].
  - intros [c [Hx Hc]]. unfold reaped_exit_code in Hx.
    destruct (snd (poll_child c (wait_attempts h c))) as [st|] eqn:Ep.
    + left. exists c. split; [assumption|].
      unfold polled_codes, polled_status. rewrite Ep. now left.
    + right. exists c. split; [assumption|].
      apply filter_In. split; [assumption|].
      unfold not_polled, polled_status. now rewrite Ep.
Qed.

(** C3, as stated, fails twice.  A child that a signal terminated has a
    non-zero exit code (-9 for SIGKILL), and the parent that waits for it
    exits with 0.  And the parent that became the master exits with the
    code of its own [shutdown()], here 0, whatever [kill_workers] finds:
    its child exited with 3, which is only logged. *)
Lemma aggregate_exit_code_counterexample :
  waitstatus_to_exitcode (Signaled 9) = -9
  /\ process (sample_host [ChildExit (Signaled 9)] (fun _ => []) [] None)
       plain_locustfile ["locustfile.py"%string]
       (sample_options true false (-1) 1 false true None false)
     = ([EFork 101; ESigintHandler; EWaitpid 101 false], Some 0)
  /\ kill_workers
       (sample_host [] (fun _ => [WaitReturned (Exited 3)]) [(1, 0%Q)]
          (Some clean_final)) [101]
     = ([EWaitpid 101 true; EBadResponseCode 3; ESleep (1 # 10)], Some 3)
  /\ snd (process
            (sample_host [] (fun _ => [WaitReturned (Exited 3)]) [(1, 0%Q)]
               (Some clean_final))
            plain_locustfile ["locustfile.py"%string]
            (sample_options true false (-1) 1 false false None false))
     = Some 0.
Proof. repeat split. Qed.

(** C3 (amended): the parent that is itself a worker waits for all its
    children and exits with the largest of 0 and their exit codes, where a
    child that a signal terminated counts with minus the signal number; so
    a child with a positive exit code makes the exit code non-zero.  In the
    parent that became the master, [kill_workers] computes the largest of 0
    and the exit codes it reads; its one use of that number is the error
    line, which it logs exactly when the number is above 1. *)
Theorem aggregate_exit_code_is_max
    (kill : Z -> signal -> kill_result) (children : list Z)
    (sts : list child_status) :
  List.length sts = List.length children ->
  let codes := map waitstatus_to_exitcode sts in
  let agg := fold_left Z.max codes 0 in
  @parent_wait Empty_set kill children false children 0 (map ChildExit sts)
    = (map (fun p => EWaitpid p false) children, Exit agg)
  /\ is_max_of 0 codes agg
  /\ (forall c, In c codes -> 0 < c -> agg <> 0)
  /\ (forall h tr agg',
        NoDup children -> kill_workers h children = (tr, Some agg') ->
        is_max_of 0 (map (reaped_exit_code h) children) agg'
        /\ (In (EBadResponseCode agg') tr <-> 1 < agg')
        /\ (forall c, In (EBadResponseCode c) tr -> c = agg')).
Proof.
  intros Hlen codes agg.
  pose proof (fold_left_max_is_max codes 0) as Hmax. fold agg in Hmax.
  split; [|split; [exact Hmax|split]].
  - rewrite <- (app_nil_r (map ChildExit sts)).
    rewrite parent_wait_exits by lia.
    rewrite Hlen, skipn_all, firstn_all. cbn [parent_wait sys_exit fst snd].
    now rewrite app_nil_r.
  - intros c Hc Hpos. destruct Hmax as [_ [Hub _]]. specialize (Hub c Hc). lia.
  - intros h tr agg' Hnd Hk.
    assert (Hlog : forall c, In (EBadResponseCode c) tr -> c = agg' /\ 1 < c).
    { intros c Hin.
      pose proof (kill_workers_events h children (EBadResponseCode c)) as He.
      rewrite Hk in He. cbn [fst snd] in He.
      destruct (He Hin) as [[p [b E]] | [E | [[p [r E]] | [c' [E [Hc Hs]]]]]];
        try discriminate E.
      inversion E; subst c'. inversion Hs; subst. auto. }
    split; [eapply kill_workers_aggregate; eauto|]. split.
    + split.
      * intros Hin. destruct (Hlog _ Hin) as [_ H]. exact H.
      * intros Hbad. unfold kill_workers in Hk.
        destruct (snd (interrupt_children _ _)); [|discriminate].
        inversion Hk as [[Ht Ha]]. rewrite Ha.
        apply Z.ltb_lt in Hbad. rewrite Hbad.
        apply in_or_app; right. apply in_or_app; right. apply in_or_app; right.
        apply in_or_app; left. now left.
    + intros c Hin. now destruct (Hlog _ Hin).
Qed.

Lemma aggregate_exit_code_is_max_witness :
  @parent_wait Empty_set (fun _ _ => KillOk) [101; 102] false [101; 102] 0
     (map ChildExit [Exited 0; Exited 3])
  = (map (fun p => EWaitpid p false) [101; 102], Exit 3).
Proof.
  apply (proj1 (aggregate_exit_code_is_max (fun _ _ => KillOk) [101; 102]
                  [Exited 0; Exited 3] eq_refl)).
Defined.

(** ** Forking *)

Lemma fork_loop_child (fr : nat -> Z) (j n k : nat) (children : list Z) :
  (j < n)%nat ->
  (forall i, (i < j)%nat -> fr (k + i)%nat <> 0) ->
  fr (k + j)%nat = 0 ->
  fork_loop fr k n children
  = (map EFork (map fr (seq k (S j))),
     Ret (children ++ map fr (seq k j), false)).
Proof.
  revert n k children.
  induction j as [|j IH]; intros n k children Hj Hnz Hz;
    (destruct n as [|n]; [lia|]); cbn [fork_loop]; rewrite bind_emit.
  - rewrite Nat.add_0_r in Hz. cbn [seq map]. rewrite Hz. simpl.
    now rewrite app_nil_r.
  - assert (Hk : truthy_Z (fr k) = true).
    { unfold truthy_Z. specialize (Hnz 0%nat ltac:(lia)).
      rewrite Nat.add_0_r in Hnz. apply Z.eqb_neq in Hnz. now rewrite Hnz. }
    rewrite Hk, IH.
    + cbn [fst snd seq map app]. now rewrite <- app_assoc.
    + lia.
    + intros i Hi. replace (S k + i)%nat with (k + S i)%nat by lia.
      apply Hnz. lia.
    + now replace (S k + j)%nat with (k + S j)%nat by lia.
Qed.

(** C4: when the validated process count is [n > 0] (the cpu count when
    [-1] was given), the process in which every fork returns a pid runs the
    loop to its end, forks exactly [n] times, and its list [children] holds
    the [n] pids, in order; the parent that is not a worker goes on with
    that list.  A process in which a fork returns 0 is a child: it leaves
    the loop at once and forks no further. *)
Theorem fork_loop_creates_n_children (h : Host) (o : Options) (n : Z) :
  processes o <> 0 ->
  resolve_processes h o = Ret n ->
  0 < n ->
  (forall k, (k < Z.to_nat n)%nat -> fork_ret h k <> 0) ->
  let pids := map (fork_ret h) (seq 0 (Z.to_nat n)) in
  fork_loop (fork_ret h) 0 (Z.to_nat n) [] = (map EFork pids, Ret (pids, true))
  /\ Z.of_nat (List.length pids) = n
  /\ Z.of_nat (List.length (map EFork pids)) = n
  /\ (worker o = false ->
      processes_block h o
      = (map EFork pids ++ [EAtexitRegister (AtexitKillWorkers pids)],
         Ret (parent_master_options (set_processes n o), pids)))
  /\ (forall fr j,
      (j < Z.to_nat n)%nat -> (forall i, (i < j)%nat -> fr i <> 0) ->
      fr j = 0 ->
      fork_loop fr 0 (Z.to_nat n) []
      = (map EFork (map fr (seq 0 (S j))), Ret (map fr (seq 0 j), false))).
Proof.
  intros Hp Hr Hn Hf pids.
  assert (Hloop : fork_loop (fork_ret h) 0 (Z.to_nat n) []
                  = (map EFork pids, Ret (pids, true))).
  { rewrite fork_loop_parent; [reflexivity|]. intros i Hi. now apply Hf. }
  assert (Hlen : Z.of_nat (List.length pids) = n).
  { unfold pids. rewrite length_map, length_seq. lia. }
  split; [exact Hloop|]. split; [exact Hlen|]. split; [|split].
  - now rewrite length_map.
  - intros Hw. unfold processes_block.
    assert (Ht : truthy_Z (processes o) = true).
    { unfold truthy_Z. apply Z.eqb_neq in Hp. now rewrite Hp. }
    rewrite Ht, Hr, bind_lift_ret, Hloop.
    unfold bind at 1. cbn [fst snd]. simpl worker. rewrite Hw.
    rewrite bind_emit. reflexivity.
  - intros fr j Hj Hnz Hz.
    rewrite (fork_loop_child fr j (Z.to_nat n) 0 []); auto.
Qed.

Lemma fork_loop_creates_n_children_witness :
  fork_loop (fun k => 101 + Z.of_nat k) 0 (Z.to_nat 4) []
  = (map EFork [101; 102; 103; 104], Ret ([101; 102; 103; 104], true)).
Proof.
  refine (proj1 (fork_loop_creates_n_children
            (sample_host [] (fun _ => []) [] None)
            (sample_options true false (-1) (-1) false false None false) 4
            _ _ _ _)).
  - simpl. discriminate.
  - reflexivity.
  - lia.
  - intros k Hk. cbn [fork_ret sample_host]. lia.
Defined.

(** ** Waiting for the workers *)

Lemma Qlt_bool_true (x y : Q) : Qlt_bool x y = true <-> (x < y)%Q.
Proof.
  unfold Qlt_bool. rewrite negb_true_iff. split.
  - intros H. apply Qnot_le_lt. intros Hle.
    apply Qle_bool_iff in Hle. congruence.
  - intros H. destruct (Qle_bool y x) eqn:E; [|reflexivity].
    apply Qle_bool_iff in E. exfalso. eapply Qlt_not_le; eauto.
Qed.

Lemma wait_for_workers_gives_up (o : Options) (pre : list (Z * Q))
    (ready : Z) (elapsed : Q) (rest : list (Z * Q)) :
  (forall r e, In (r, e) pre ->
     r < expect_workers o /\ ~ (inject_Z (expect_workers_max_wait o) < e)%Q) ->
  ready < expect_workers o ->
  expect_workers_max_wait o <> 0 ->
  (inject_Z (expect_workers_max_wait o) < elapsed)%Q ->
  wait_for_workers o (pre ++ (ready, elapsed) :: rest)
  = (repeat (ESleep 1) (List.length pre) ++ [ERunnerQuit], Exit 1).
Proof.
  intros Hpre Hr Hm He. induction pre as [|[r e] pre IH]; simpl.
  - apply Z.ltb_lt in Hr. rewrite Hr.
    unfold truthy_Z. apply Z.eqb_neq in Hm. rewrite Hm.
    apply Qlt_bool_true in He. rewrite He. reflexivity.
  - destruct (Hpre r e) as [Hr' He']; [now left|].
    apply Z.ltb_lt in Hr'. rewrite Hr'.
    destruct (Qlt_bool (inject_Z (expect_workers_max_wait o)) e) eqn:Eq.
    + apply Qlt_bool_true in Eq. contradiction.
    + rewrite andb_false_r, bind_emit, IH; [reflexivity|].
      intros r0 e0 H0. apply Hpre. now right.
Qed.

(** C5, as stated, fails: when the master gives up waiting for its workers
    the runner receives [quit()], not [stop()].  With three workers
    expected, a maximum wait of 5 seconds and two workers ready at every
    turn, the loop sleeps six times, calls [runner.quit()] and exits with
    code 1; [runner.stop()] is not called. *)
Lemma give_up_waiting_counterexample :
  start_automatic_run
    (sample_host [] (fun _ => []) two_of_three_polls None)
    (mkStarted (waiting_master_options 3 5) MasterRunner false None [])
    (waiting_master_options 3 5)
  = ([ESleep 1; ESleep 1; ESleep 1; ESleep 1; ESleep 1; ESleep 1; ERunnerQuit],
     Exit 1)
  /\ ~ In ERunnerStop
       (trace (start_automatic_run
                 (sample_host [] (fun _ => []) two_of_three_polls None)
                 (mkStarted (waiting_master_options 3 5) MasterRunner false
                    None [])
                 (waiting_master_options 3 5))).
Proof.
  split; [reflexivity|].
  simpl. intros H. repeat (destruct H as [H | H]; [discriminate|]). exact H.
Qed.

(** C5 (amended): if a maximum wait for the workers is configured, then at
    the first turn of the wait loop at which fewer workers than expected
    are ready and more than the maximum wait has passed, the automatic run
    controller calls [runner.quit()] and exits with code 1.  Before that it
    has only slept; it calls neither [runner.stop()] nor [runner.start()]. *)
Theorem give_up_waiting_quits_and_exits_1 (h : Host) (s : Started) (o : Options)
    (pre : list (Z * Q)) (ready : Z) (elapsed : Q) (rest : list (Z * Q)) :
  master o = true ->
  worker_polls h = pre ++ (ready, elapsed) :: rest ->
  (forall r e, In (r, e) pre ->
     r < expect_workers o /\ ~ (inject_Z (expect_workers_max_wait o) < e)%Q) ->
  ready < expect_workers o ->
  expect_workers_max_wait o <> 0 ->
  (inject_Z (expect_workers_max_wait o) < elapsed)%Q ->
  start_automatic_run h s o
    = (repeat (ESleep 1) (List.length pre) ++ [ERunnerQuit], Exit 1)
  /\ exit_status 1 = 1
  /\ (forall e, In e (trace (start_automatic_run h s o)) ->
        e = ESleep 1 \/ e = ERunnerQuit).
Proof.
  intros Hm Hp Hpre Hr Hw He.
  assert (Hs : start_automatic_run h s o
               = (repeat (ESleep 1) (List.length pre) ++ [ERunnerQuit], Exit 1)).
  { unfold start_automatic_run. rewrite Hm, Hp.
    rewrite (wait_for_workers_gives_up o pre ready elapsed rest Hpre Hr Hw He).
    reflexivity. }
  split; [exact Hs|]. split; [reflexivity|].
  intros e. rewrite Hs. unfold trace; simpl. rewrite in_app_iff.
  intros [Hin | [Hin | []]].
  - left. now apply repeat_spec in Hin.
  - right. now symmetry.
Qed.

Lemma give_up_waiting_quits_and_exits_1_witness :
  start_automatic_run
    (sample_host [] (fun _ => []) two_of_three_polls None)
    (mkStarted (waiting_master_options 3 5) MasterRunner false None [])
    (waiting_master_options 3 5)
  = (repeat (ESleep 1) 6 ++ [ERunnerQuit], Exit 1).
Proof.
  refine (proj1 (give_up_waiting_quits_and_exits_1
            (sample_host [] (fun _ => []) two_of_three_polls None)
            (mkStarted (waiting_master_options 3 5) MasterRunner false None [])
            (waiting_master_options 3 5)
            [(2, 0%Q); (2, 1%Q); (2, 2%Q); (2, 3%Q); (2, 4%Q); (2, 5%Q)]
            2 6%Q [] eq_refl eq_refl _ _ _ _)).
  - intros r e Hin. simpl in Hin.
    repeat (destruct Hin as [Hin | Hin];
            [inversion Hin; subst; split;
             [reflexivity | intros Hlt; vm_compute in Hlt; discriminate]|]).
    contradiction.
  - reflexivity.
  - simpl. discriminate.
  - reflexivity.
Defined.

(** ** Validation of the options *)


Lemma resolve_processes_invalid (h : Host) (o : Options) :
  invalid_processes h o -> resolve_processes h o = Exit 1.
Proof.
  unfold invalid_processes, resolve_processes.
  intros [H | [[H1 H2] | [H | [H1 H2]]]].
  - now rewrite H.
  - destruct (os_name_nt h); [reflexivity|]. rewrite H1. simpl.
    destruct H2 as [-> | ->]; reflexivity.
  - destruct (os_name_nt h); [reflexivity|].
    destruct (processes o =? -1) eqn:E; [apply Z.eqb_eq in E; lia|].
    apply Z.ltb_lt in H. now rewrite H.
  - destruct (os_name_nt h); [reflexivity|].
    apply Z.eqb_neq in H1. rewrite H1, H2.
    now destruct (processes o <? -1).
Qed.












(** * Further properties of the code *)

(** ** More on dictionaries *)

Lemma dict_get_set {V : Type} (k k' : string) (v : V) (d : dict V) :
  dict_get k' (dict_set k v d)
  = if String.eqb k k' then Some v else dict_get k' d.
Proof.
  destruct (String.eqb k k') eqn:E.
  - apply String.eqb_eq in E. subst k'. apply dict_get_set_same.
  - apply String.eqb_neq in E. now apply dict_get_set_other.
Qed.

Lemma dict_get_none_keys {V : Type} (k : string) (d : dict V) :
  dict_get k d = None <-> ~ In k (map fst d).
Proof.
  induction d as [|[k0 v0] d IH]; simpl.
  - tauto.
  - destruct (String.eqb k k0) eqn:E.
    + apply String.eqb_eq in E. subst k0. split; [discriminate|].
      intros H. exfalso. apply H. now left.
    + apply String.eqb_neq in E. rewrite IH. split.
      * intros H [H1 | H1]; [congruence | contradiction].
      * intros H H1. apply H. now right.
Qed.

Lemma dict_get_in {V : Type} (k : string) (v : V) (d : dict V) :
  dict_get k d = Some v -> In (k, v) d.
Proof.
  induction d as [|[k0 v0] d IH]; simpl; [discriminate|].
  destruct (String.eqb k k0) eqn:E.
  - apply String.eqb_eq in E. subst k0. intros H. inversion H. now left.
  - intros H. right. auto.
Qed.

(** Setting a key that is absent appends the binding. *)
Lemma dict_set_absent {V : Type} (k : string) (v : V) (d : dict V) :
  dict_get k d = None -> dict_set k v d = d ++ [(k, v)].
Proof.
  induction d as [|[k0 v0] d IH]; simpl; [reflexivity|].
  destruct (String.eqb k k0); [discriminate|].
  intros H. now rewrite IH.
Qed.

Lemma dict_mem_false_get {V : Type} (k : string) (d : dict V) :
  dict_mem k d = false -> dict_get k d = None.
Proof. unfold dict_mem. now destruct (dict_get k d). Qed.

(** ** More on merging locustfiles *)

Lemma add_user_classes_tasks modules items classes tasks classes' tasks' :
  add_user_classes modules items classes tasks = Ret (classes', tasks') ->
  (forall n, dict_get n tasks = option_map uc_tasks (dict_get n classes)) ->
  forall n, dict_get n tasks' = option_map uc_tasks (dict_get n classes').
Proof.
  revert classes tasks.
  induction items as [|[n0 d0] rest IH]; simpl; intros classes tasks H Hi.
  - inversion H; subst. exact Hi.
  - destruct (dict_get n0 classes) as [prev|] eqn:E0.
    + destruct (inspect_getfile modules prev) as [p1|]; [|discriminate].
      destruct (inspect_getfile modules d0) as [p2|]; [|discriminate].
      destruct (String.eqb p1 p2); [eauto | discriminate].
    + eapply IH; [exact H|]. intros n. rewrite !dict_get_set.
      destruct (String.eqb n0 n); [reflexivity | apply Hi].
Qed.

Lemma add_user_classes_keys modules items classes tasks classes' tasks' :
  add_user_classes modules items classes tasks = Ret (classes', tasks') ->
  NoDup (map fst classes) -> map fst tasks = map fst classes ->
  NoDup (map fst classes') /\ map fst tasks' = map fst classes'.
Proof.
  revert classes tasks.
  induction items as [|[n0 d0] rest IH]; simpl; intros classes tasks H Hn Hk.
  - inversion H; subst. now split.
  - destruct (dict_get n0 classes) as [prev|] eqn:E0.
    + destruct (inspect_getfile modules prev) as [p1|]; [|discriminate].
      destruct (inspect_getfile modules d0) as [p2|]; [|discriminate].
      destruct (String.eqb p1 p2); [eauto | discriminate].
    + assert (Et : dict_get n0 tasks = None).
      { apply dict_get_none_keys. rewrite Hk. now apply dict_get_none_keys. }
      eapply IH; [exact H | |].
      * rewrite dict_set_absent by assumption. rewrite map_app. simpl.
        apply NoDup_app; [assumption | repeat constructor; auto |].
        intros x Hx [Hx' | []]. subst x.
        apply dict_get_none_keys in E0. contradiction.
      * rewrite !dict_set_absent by assumption. rewrite !map_app. simpl.
        now rewrite Hk.
Qed.

(** Nothing is bound that was not bound before or defined by an item. *)
Lemma add_user_classes_provenance modules items classes tasks classes' tasks' :
  add_user_classes modules items classes tasks = Ret (classes', tasks') ->
  forall n d, dict_get n classes' = Some d ->
  dict_get n classes = Some d \/ In (n, d) items.
Proof.
  revert classes tasks.
  induction items as [|[n0 d0] rest IH]; simpl; intros classes tasks H n d Hg.
  - inversion H; subst. now left.
  - destruct (dict_get n0 classes) as [prev|] eqn:E0.
    + destruct (inspect_getfile modules prev) as [p1|]; [|discriminate].
      destruct (inspect_getfile modules d0) as [p2|]; [|discriminate].
      destruct (String.eqb p1 p2); [|discriminate].
      destruct (IH _ _ H n d Hg); auto.
    + destruct (IH _ _ H n d Hg) as [Hd | Hd]; [|auto].
      rewrite dict_get_set in Hd.
      destruct (String.eqb n0 n) eqn:E; [|auto].
      apply String.eqb_eq in E. subst n0. inversion Hd; subst. right. now left.
Qed.

(** The first definition of a name that is not yet bound is the one kept. *)
Lemma add_user_classes_first modules items classes tasks classes' tasks' :
  add_user_classes modules items classes tasks = Ret (classes', tasks') ->
  forall n d, dict_get n classes = None -> dict_get n items = Some d ->
  dict_get n classes' = Some d.
Proof.
  revert classes tasks.
  induction items as [|[n0 d0] rest IH]; simpl;
    intros classes tasks H n d Hc Hi; [discriminate|].
  destruct (String.eqb n n0) eqn:E.
  - apply String.eqb_eq in E. subst n0. inversion Hi; subst d0.
    rewrite Hc in H.
    eapply add_user_classes_keeps; [exact H | apply dict_get_set_same].
  - apply String.eqb_neq in E.
    destruct (dict_get n0 classes) as [prev|] eqn:E0.
    + destruct (inspect_getfile modules prev) as [p1|]; [|discriminate].
      destruct (inspect_getfile modules d0) as [p2|]; [|discriminate].
      destruct (String.eqb p1 p2); [eauto | discriminate].
    + eapply IH; [exact H | | assumption].
      rewrite dict_get_set_other; [assumption | congruence].
Qed.

(** Shapes that pass are appended, in order. *)
Lemma add_shape_classes_appends shapes avail avail' :
  add_shape_classes shapes avail = Ret avail' ->
  avail' = avail ++ map (fun s => (sc_name s, s)) shapes.
Proof.
  revert avail. induction shapes as [|s rest IH]; simpl; intros avail H.
  - inversion H. now rewrite app_nil_r.
  - destruct (dict_mem (sc_name s) avail) eqn:E; [discriminate|].
    apply IH in H. rewrite H.
    rewrite dict_set_absent by (now apply dict_mem_false_get).
    now rewrite <- app_assoc.
Qed.

Lemma add_shape_classes_nodup shapes avail avail' :
  add_shape_classes shapes avail = Ret avail' ->
  NoDup (map fst avail) -> NoDup (map fst avail').
Proof.
  revert avail. induction shapes as [|s rest IH]; simpl; intros avail H Hn.
  - now inversion H; subst.
  - destruct (dict_mem (sc_name s) avail) eqn:E; [discriminate|].
    apply dict_mem_false_get in E.
    eapply IH; [exact H|].
    rewrite dict_set_absent by assumption. rewrite map_app. simpl.
    apply NoDup_app; [assumption | repeat constructor; auto |].
    intros x Hx [Hx' | []]. subst x.
    apply dict_get_none_keys in E. contradiction.
Qed.

(** What a successful run of the loop over the locustfiles has built. *)
Lemma merge_loop_invariants load files modules classes shapes tasks
    classes' shapes' tasks' :
  merge_loop load files modules classes shapes tasks
    = Ret (classes', shapes', tasks') ->
  (shapes' = shapes
     ++ map (fun s => (sc_name s, s))
          (flat_map (fun f => lf_shape_classes (load f)) files))
  /\ (NoDup (map fst shapes) -> NoDup (map fst shapes'))
  /\ ((forall n, dict_get n tasks = option_map uc_tasks (dict_get n classes)) ->
      forall n, dict_get n tasks' = option_map uc_tasks (dict_get n classes'))
  /\ (NoDup (map fst classes) -> map fst tasks = map fst classes ->
      NoDup (map fst classes') /\ map fst tasks' = map fst classes')
  /\ (forall n d, dict_get n classes' = Some d ->
      dict_get n classes = Some d
      \/ exists f, In f files /\ In (n, d) (lf_user_classes (load f))).
Proof.
  revert modules classes shapes tasks.
  induction files as [|f rest IH]; simpl; intros modules classes shapes tasks H.
  - inversion H; subst. rewrite app_nil_r. repeat split; auto.
  - destruct (add_shape_classes _ shapes) as [| |s1] eqn:Es; simpl in H;
      try discriminate.
    destruct (add_user_classes _ _ classes tasks) as [| |[c1 t1]] eqn:Eu;
      simpl in H; try discriminate.
    destruct (IH _ _ _ _ H) as [I1 [I2 [I3 [I4 I5]]]].
    split; [|split; [|split; [|split]]].
    + rewrite I1, (add_shape_classes_appends _ _ _ Es).
      now rewrite <- app_assoc, <- map_app.
    + intros Hn. apply I2. eapply add_shape_classes_nodup; eauto.
    + intros Hi. apply I3. eapply add_user_classes_tasks; eauto.
    + intros Hn Hk.
      destruct (add_user_classes_keys _ _ _ _ _ _ Eu Hn Hk) as [Hn1 Hk1].
      now apply I4.
    + intros n d Hg. destruct (I5 n d Hg) as [Hd | [f' [Hf' Hin]]].
      * destruct (add_user_classes_provenance _ _ _ _ _ _ Eu n d Hd) as [Hd' | Hd'];
          [now left | right; exists f; split; [now left | assumption]].
      * right. exists f'. split; [now right | assumption].
Qed.

(** X1: after a successful merge the dictionary of tasks is the image of
    the dictionary of User classes: a name is bound in one exactly when it
    is bound in the other, to the [tasks] of the class kept, and both have
    their names in the same order. *)
Theorem merged_tasks_follow_classes
    (load : string -> Locustfile) (files : list string) (m : Merged) :
  merge_locustfiles_content load files = Ret m ->
  (forall n, dict_get n (available_user_tasks m)
             = option_map uc_tasks (dict_get n (available_user_classes m)))
  /\ map fst (available_user_tasks m) = map fst (available_user_classes m).
Proof.
  unfold merge_locustfiles_content. intros E.
  destruct (merge_loop load files [] [] [] []) as [c| |[[cs ss] ts]] eqn:El;
    simpl in E; try discriminate.
  inversion E; subst m; simpl.
  destruct (merge_loop_invariants _ _ _ _ _ _ _ _ _ El) as [_ [_ [I3 [I4 _]]]].
  split.
  - apply I3. reflexivity.
  - apply I4; [constructor | reflexivity].
Qed.

Lemma merged_tasks_follow_classes_witness :
  dict_get "WebsiteUser"%string
    [("WebsiteUser"%string, ["index"%string; "stats"%string])]
  = option_map uc_tasks
      (dict_get "WebsiteUser"%string
         [("WebsiteUser"%string,
           mkUserClass "a" ["index"%string; "stats"%string])]).
Proof.
  exact (proj1 (merged_tasks_follow_classes plain_locustfile ["a.py"%string]
                  _ eq_refl) "WebsiteUser"%string).
Defined.

(** X3: after a successful merge every User class kept is a definition of
    one of the locustfiles, under its own name; and a name that the first
    locustfile defines is bound to the definition of the first locustfile. *)
Theorem merged_definitions_come_from_files
    (load : string -> Locustfile) (files : list string) (m : Merged) :
  merge_locustfiles_content load files = Ret m ->
  (forall n d, dict_get n (available_user_classes m) = Some d ->
     exists f, In f files /\ In (n, d) (lf_user_classes (load f)))
  /\ (forall f rest n d,
        files = f :: rest ->
        dict_get n (lf_user_classes (load f)) = Some d ->
        dict_get n (available_user_classes m) = Some d).
Proof.
  unfold merge_locustfiles_content. intros E.
  destruct (merge_loop load files [] [] [] []) as [c| |[[cs ss] ts]] eqn:El;
    simpl in E; try discriminate.
  inversion E; subst m; simpl. clear E. split.
  - intros n d Hg.
    destruct (merge_loop_invariants _ _ _ _ _ _ _ _ _ El) as [_ [_ [_ [_ I5]]]].
    destruct (I5 n d Hg) as [Hd | Hd]; [discriminate | exact Hd].
  - intros f rest n d -> Hd. simpl in El.
    destruct (add_shape_classes _ []) as [| |s1] eqn:Es; simpl in El;
      try discriminate.
    destruct (add_user_classes _ _ [] []) as [| |[c1 t1]] eqn:Eu;
      simpl in El; try discriminate.
    eapply merge_loop_keeps; [exact El|].
    eapply add_user_classes_first; eauto.
Qed.

Lemma merged_definitions_come_from_files_witness :
  dict_get "WebsiteUser"%string
    [("WebsiteUser"%string,
      mkUserClass "a" ["index"%string; "stats"%string])]
  = Some (mkUserClass "a" ["index"%string; "stats"%string]).
Proof.
  exact (proj2 (merged_definitions_come_from_files plain_locustfile
                  ["a.py"%string; "a.py"%string] _ eq_refl)
           "a.py"%string ["a.py"%string] "WebsiteUser"%string _
           eq_refl eq_refl).
Defined.

(** X4: a merge succeeds only if the shape class names of all locustfiles
    are pairwise different; it then keeps every shape, in the order of the
    files, and [shape_class] is the first of them, [None] when there is
    none.  When a shape class name occurs twice the merge exits with
    code 1. *)
Theorem merged_shapes_in_file_order
    (load : string -> Locustfile) (files : list string) :
  (forall m, merge_locustfiles_content load files = Ret m ->
     available_shape_classes m
       = map (fun s => (sc_name s, s))
           (flat_map (fun f => lf_shape_classes (load f)) files)
     /\ shape_class m
        = hd_error (flat_map (fun f => lf_shape_classes (load f)) files)
     /\ NoDup (map sc_name
                 (flat_map (fun f => lf_shape_classes (load f)) files)))
  /\ (~ NoDup (map sc_name
                 (flat_map (fun f => lf_shape_classes (load f)) files)) ->
      merge_locustfiles_content load files = Exit 1).
Proof.
  assert (H : forall m, merge_locustfiles_content load files = Ret m ->
     available_shape_classes m
       = map (fun s => (sc_name s, s))
           (flat_map (fun f => lf_shape_classes (load f)) files)
     /\ shape_class m
        = hd_error (flat_map (fun f => lf_shape_classes (load f)) files)
     /\ NoDup (map sc_name
                 (flat_map (fun f => lf_shape_classes (load f)) files))).
  { unfold merge_locustfiles_content. intros m E.
    destruct (merge_loop load files [] [] [] []) as [c| |[[cs ss] ts]] eqn:El;
      simpl in E; try discriminate.
    inversion E; subst m; simpl. clear E.
    destruct (merge_loop_invariants _ _ _ _ _ _ _ _ _ El) as [I1 [I2 _]].
    simpl in I1. split; [exact I1|]. split.
    - rewrite I1. unfold dict_values. rewrite map_map. simpl.
      now rewrite map_id.
    - specialize (I2 (NoDup_nil _)). rewrite I1, map_map in I2. exact I2. }
  split; [exact H|].
  intros Hn.
  destruct (merge_locustfiles_content load files) as [c| |m] eqn:E.
  - f_equal. eapply merge_exit; eauto.
  - now apply merge_not_blocked in E.
  - exfalso. apply Hn. now apply (H m).
Qed.

Lemma merged_shapes_in_file_order_witness :
  merge_locustfiles_content shape_locustfile
    ["a.py"%string; "b.py"%string] = Exit 1.
Proof.
  apply (proj2 (merged_shapes_in_file_order shape_locustfile
                  ["a.py"%string; "b.py"%string])).
  simpl. intros H. inversion H as [|x l Hx Hl]; subst.
  apply Hx. now left.
Defined.

(** ** More on computations *)

Lemma bind_fst {A B : Type} (m : M A) (k : A -> M B) :
  fst (bind m k)
  = fst m ++ match snd m with Ret a => fst (k a) | _ => [] end.
Proof.
  unfold bind. destruct (snd m); simpl; now rewrite ?app_nil_r.
Qed.

Lemma bind_snd {A B : Type} (m : M A) (k : A -> M B) :
  snd (bind m k)
  = match snd m with
    | Exit c => Exit c
    | Blocked => Blocked
    | Ret a => snd (k a)
    end.
Proof. unfold bind. now destruct (snd m). Qed.

(** A computation that returns has returned at each of its steps. *)
Lemma bind_ret_inv {A B : Type} (m : M A) (k : A -> M B)
    (tr : list event) (b : B) :
  bind m k = (tr, Ret b) ->
  exists tr1 a tr2, m = (tr1, Ret a) /\ k a = (tr2, Ret b) /\ tr = tr1 ++ tr2.
Proof.
  destruct m as [tr1 [c| |a]]; unfold bind; simpl; intros H;
    try (inversion H; fail).
  exists tr1, a, (fst (k a)). inversion H; subst.
  repeat split. destruct (k a) as [t r]; simpl in *. congruence.
Qed.

(** ** Which option combinations start *)

(** X5: the checks of the [--processes] block end in [sys.exit(1)] exactly
    for the refused combinations and never with another code.  A count
    that passes is the cpu count when [-1] was given, whether or not
    [--master] is set, and otherwise the given count, which is then at
    least 0 and comes without [--master]; when process splitting was
    requested the count that passes is not 0. *)
Theorem resolve_processes_accepts (h : Host) (o : Options) :
  (resolve_processes h o = Exit 1 <-> invalid_processes h o)
  /\ (forall c, resolve_processes h o = Exit c -> c = 1)
  /\ resolve_processes h o <> Blocked
  /\ (forall n, resolve_processes h o = Ret n ->
        os_name_nt h = false
        /\ ((processes o = -1 /\ cpu_count h = Some n /\ n <> 0)
            \/ (processes o <> -1 /\ n = processes o /\ 0 <= n
                /\ master o = false))
        /\ (processes o <> 0 -> n <> 0)).
Proof.
  assert (Hinv : forall c, resolve_processes h o = Exit c ->
                           c = 1 /\ invalid_processes h o).
  { unfold resolve_processes, invalid_processes. intros c.
    destruct (os_name_nt h);
      [intros H; inversion H; split; [reflexivity | now left]|].
    destruct (processes o =? -1) eqn:E1.
    - apply Z.eqb_eq in E1.
      destruct (cpu_count h) as [n|].
      + unfold truthy_Z. destruct (n =? 0) eqn:E0; simpl; [|discriminate].
        apply Z.eqb_eq in E0. subst n. intros H; inversion H.
        split; [reflexivity|]. right. left. split; [assumption | now right].
      + intros H; inversion H.
        split; [reflexivity|]. right. left. split; [assumption | now left].
    - apply Z.eqb_neq in E1.
      destruct (processes o <? -1) eqn:E2.
      + apply Z.ltb_lt in E2. intros H; inversion H.
        split; [reflexivity|]. right. right. now left.
      + destruct (master o); [|discriminate].
        intros H; inversion H. split; [reflexivity|]. right. right. right.
        now split. }
  split; [|split; [|split]].
  - split; [intros H; now apply Hinv in H | apply resolve_processes_invalid].
  - intros c H. now apply Hinv in H.
  - unfold resolve_processes.
    destruct (os_name_nt h); [discriminate|].
    destruct (processes o =? -1).
    + destruct (cpu_count h) as [n|]; [|discriminate].
      destruct (truthy_Z n); discriminate.
    + destruct (processes o <? -1); [discriminate|].
      destruct (master o); discriminate.
  - unfold resolve_processes. intros n.
    destruct (os_name_nt h); [discriminate|].
    destruct (processes o =? -1) eqn:E1.
    + apply Z.eqb_eq in E1.
      destruct (cpu_count h) as [c|]; [|discriminate].
      unfold truthy_Z. destruct (c =? 0) eqn:E0; simpl; [discriminate|].
      apply Z.eqb_neq in E0. intros H. inversion H; subst c.
      split; [reflexivity|]. split; [left; auto | auto].
    + apply Z.eqb_neq in E1.
      destruct (processes o <? -1) eqn:E2; [discriminate|].
      apply Z.ltb_ge in E2.
      destruct (master o); [discriminate|].
      intros H. inversion H; subst n.
      split; [reflexivity|]. split; [right; repeat split; auto; lia | auto].
Qed.

Lemma resolve_processes_accepts_witness :
  os_name_nt (sample_host [] (fun _ => []) [] None) = false
  /\ ((processes (sample_options true false (-1) (-1) true false None false)
       = -1
       /\ cpu_count (sample_host [] (fun _ => []) [] None) = Some 4
       /\ 4 <> 0)
      \/ (processes (sample_options true false (-1) (-1) true false None false)
          <> -1
          /\ 4 = processes
                   (sample_options true false (-1) (-1) true false None false)
          /\ 0 <= 4
          /\ master (sample_options true false (-1) (-1) true false None false)
             = false))
  /\ (processes (sample_options true false (-1) (-1) true false None false)
      <> 0 -> 4 <> 0).
Proof.
  exact (proj2 (proj2 (proj2 (resolve_processes_accepts
           (sample_host [] (fun _ => []) [] None)
           (sample_options true false (-1) (-1) true false None false))))
           4 eq_refl).
Defined.

Lemma main_startup_to_user_classes (h : Host) (load : string -> Locustfile)
    (files : list string) (o : Options) (m : Merged) :
  merge_locustfiles_content load files = Ret m ->
  (autoquit o = -1 \/ autostart o = true) ->
  processes o = 0 ->
  exists o',
    list_commands o' = list_commands o /\ user_classes o' = user_classes o
    /\ forall code, check_user_classes o' m = sys_exit code ->
                    main_startup h load files o = ([], Exit code).
Proof.
  intros Hm Hq Hp.
  exists (if headful o then set_headless false o else o).
  split; [now destruct (headful o)|]. split; [now destruct (headful o)|].
  intros code Hc. unfold main_startup. rewrite Hm, bind_lift_ret. cbv zeta.
  set (o' := if headful o then set_headless false o else o) in *.
  assert (Hq' : check_autoquit o' = ret tt).
  { unfold check_autoquit.
    replace (autoquit o') with (autoquit o) by (unfold o'; now destruct (headful o)).
    replace (autostart o') with (autostart o)
      by (unfold o'; now destruct (headful o)).
    destruct Hq as [-> | ->]; [reflexivity | now rewrite andb_false_r]. }
  assert (Hb : processes_block h o' = ret (o', [])).
  { unfold processes_block, truthy_Z.
    replace (processes o') with (processes o)
      by (unfold o'; now destruct (headful o)).
    now rewrite Hp. }
  rewrite Hq', bind_ret, Hb, bind_ret. cbn [fst snd].
  rewrite Hc. reflexivity.
Qed.

(** X6: when the locustfiles merge, the autoquit check passes and no
    process splitting is requested, [--list] makes [main] exit with code 0
    before it creates anything, also when no User class was found; without
    [--list], an empty set of User classes and a requested User name that
    no locustfile defines make [main] exit with code 1, again before it
    creates anything. *)
Theorem user_class_checks (h : Host) (load : string -> Locustfile)
    (files : list string) (o : Options) (m : Merged) :
  merge_locustfiles_content load files = Ret m ->
  (autoquit o = -1 \/ autostart o = true) ->
  processes o = 0 ->
  (list_commands o = true -> main_startup h load files o = ([], Exit 0))
  /\ (list_commands o = false -> available_user_classes m = [] ->
      main_startup h load files o = ([], Exit 1))
  /\ (list_commands o = false ->
      (exists n, In n (user_classes o)
                 /\ dict_get n (available_user_classes m) = None) ->
      main_startup h load files o = ([], Exit 1)).
Proof.
  intros Hm Hq Hp.
  destruct (main_startup_to_user_classes h load files o m Hm Hq Hp)
    as [o' [Hl [Hu Hmain]]].
  split; [|split].
  - intros Hlist. apply Hmain. unfold check_user_classes.
    now rewrite Hl, Hlist.
  - intros Hlist He. apply Hmain. unfold check_user_classes.
    now rewrite Hl, Hlist, He.
  - intros Hlist [n [Hn Hg]]. apply Hmain. unfold check_user_classes.
    rewrite Hl, Hlist, Hu.
    destruct (available_user_classes m) as [|b l] eqn:Ea; [reflexivity|].
    destruct (filter _ (user_classes o)) as [|x xs] eqn:Ef; [|reflexivity].
    exfalso.
    assert (Hin : In n (filter (fun n0 => negb (dict_mem n0 (b :: l)))
                          (user_classes o))).
    { apply filter_In. split; [assumption|]. unfold dict_mem. now rewrite Hg. }
    rewrite Ef in Hin. contradiction.
Qed.

Lemma user_class_checks_witness :
  main_startup (sample_host [] (fun _ => []) [] None)
    (fun _ => mkLocustfile [] [] []) ["empty.py"%string]
    (sample_options true false (-1) 0 false false None false)
  = ([], Exit 1).
Proof.
  refine (proj1 (proj2 (user_class_checks
            (sample_host [] (fun _ => []) [] None)
            (fun _ => mkLocustfile [] [] []) ["empty.py"%string]
            (sample_options true false (-1) 0 false false None false)
            (mkMerged [] [] [] None) eq_refl _ eq_refl)) eq_refl eq_refl).
  left. reflexivity.
Defined.

(** ** The state in which [main] starts its greenlets *)

Lemma parent_wait_never_returns {A : Type} (kill : Z -> signal -> kill_result)
    (children : list Z) (inputs : list os_input) :
  forall (has_run : bool) (remaining : list Z) (exit_code : Z) (a : A),
    snd (@parent_wait A kill children has_run remaining exit_code inputs)
    <> Ret a.
Proof.
  induction inputs as [|i inputs IH]; intros has_run remaining exit_code a.
  - destruct remaining; discriminate.
  - destruct remaining as [|c rest]; [discriminate|].
    destruct i as [|st]; cbn [parent_wait].
    + destruct has_run.
      * rewrite sigint_handler_second. discriminate.
      * unfold sigint_handler. rewrite bind_ret. apply IH.
    + rewrite bind_emit. cbn [snd]. apply IH.
Qed.

Lemma fork_loop_events (fr : nat -> Z) (n : nat) :
  forall (k : nat) (children : list Z) (e : event),
    In e (fst (fork_loop fr k n children)) -> exists p, e = EFork p.
Proof.
  induction n as [|n IH]; intros k children e; cbn [fork_loop].
  - intros [].
  - rewrite bind_emit. cbn [fst]. intros [<- | Hin]; [eauto|].
    destruct (truthy_Z (fr k)); [eauto | contradiction].
Qed.

(** What the [--processes] block leaves behind when [main] goes on. *)
Lemma processes_block_ret (h : Host) (o o' : Options) (tr : list event)
    (children : list Z) :
  processes_block h o = (tr, Ret (o', children)) ->
  headless o' = headless o /\ headful o' = headful o
  /\ list_commands o' = list_commands o
  /\ (forall e, In e tr ->
        (exists p, e = EFork p) \/ (exists a, e = EAtexitRegister a)).
Proof.
  unfold processes_block.
  destruct (truthy_Z (processes o)).
  - intros H. apply bind_ret_inv in H.
    destruct H as [tr1 [n [tr2 [H1 [H2 Ht]]]]].
    unfold lift in H1. injection H1 as E1 E2. subst tr1.
    apply bind_ret_inv in H2.
    destruct H2 as [tr3 [r [tr4 [F3 [F4 Ht2]]]]].
    assert (Hf : forall e, In e tr3 -> exists p, e = EFork p).
    { intros e He. eapply fork_loop_events. rewrite F3. exact He. }
    destruct (snd r).
    + cbn [worker set_processes] in F4. destruct (worker o).
      * exfalso. rewrite bind_emit in F4.
        pose proof (parent_wait_never_returns (os_kill h) (fst r)
                      (wait_inputs h) false (fst r) 0 (o', children)) as Hn.
        apply Hn. inversion F4. reflexivity.
      * rewrite bind_emit in F4. cbn [ret fst snd] in F4.
        inversion F4; subst. repeat split.
        intros e He. simpl in He. apply in_app_or in He.
        destruct He as [He | [<- | []]]; [left; auto | right; eauto].
    + inversion F4; subst. repeat split.
      intros e He. simpl in He. rewrite app_nil_r in He. left; auto.
  - intros H. inversion H; subst. repeat split. intros e [].
Qed.

Lemma create_runner_ret (h : Host) (o : Options) (tr : list event)
    (k : RunnerKind) :
  create_runner h o = (tr, Ret k) ->
  tr = [ECreateRunner k]
  /\ k = (if master o then MasterRunner
          else if worker o then WorkerRunner else LocalRunner)
  /\ (master o = true -> worker o = false /\ 1 <= expect_workers o).
Proof.
  unfold create_runner.
  destruct (master o).
  - destruct (worker o); [discriminate|].
    destruct (expect_workers o <? 1) eqn:E; [discriminate|].
    apply Z.ltb_ge in E. intros H. inversion H. auto.
  - destruct (worker o).
    + destruct (master_connect_fails h); [discriminate|].
      intros H. inversion H. repeat split; discriminate.
    + intros H. inversion H. repeat split; discriminate.
Qed.

Lemma create_web_ui_ret (o : Options) (tr : list event) (b : bool) :
  create_web_ui o = (tr, Ret b) ->
  b = negb (headless o) && negb (worker o)
  /\ tr = (if b then [ECreateWebUi] else []).
Proof.
  unfold create_web_ui.
  destruct (negb (headless o) && negb (worker o)).
  - destruct (bad_web_base_path (web_base_path o)); [discriminate|].
    intros H. inversion H. auto.
  - intros H. inversion H. auto.
Qed.

(** The steps of a start of [main] that reaches the init event. *)
Lemma main_startup_ret (h : Host) (load : string -> Locustfile)
    (files : list string) (o : Options) (tr : list event) (s : Started) :
  main_startup h load files o = (tr, Ret s) ->
  exists m trb children,
    merge_locustfiles_content load files = Ret m
    /\ processes_block h (if headful o then set_headless false o else o)
       = (trb, Ret (st_options s, children))
    /\ check_user_classes (st_options s) m = ret tt
    /\ create_runner h (st_options s)
       = ([ECreateRunner (st_runner s)], Ret (st_runner s))
    /\ create_web_ui (st_options s)
       = ((if st_web_ui s then [ECreateWebUi] else []), Ret (st_web_ui s))
    /\ init_raises h = false
    /\ st_shape_class s = shape_class m
    /\ st_children s = children
    /\ tr = trb ++ [ECreateRunner (st_runner s)]
              ++ (if st_web_ui s then [ECreateWebUi] else []) ++ [EFireInit].
Proof.
  unfold main_startup. intros H.
  apply bind_ret_inv in H. destruct H as [t0 [m [t0' [Hm [H Ht0]]]]].
  unfold lift in Hm. inversion Hm as [[Ht Hmm]]. subst t0. clear Hm.
  cbv zeta in H.
  apply bind_ret_inv in H. destruct H as [t1 [u1 [t1' [Hq [H Ht1]]]]].
  assert (t1 = []).
  { unfold check_autoquit in Hq.
    destruct (negb _ && negb _); inversion Hq; reflexivity. }
  subst t1.
  apply bind_ret_inv in H. destruct H as [t2 [[o2 ch] [t2' [Hb [H Ht2]]]]].
  cbn [fst snd] in H.
  apply bind_ret_inv in H. destruct H as [t3 [u3 [t3' [Hu [H Ht3]]]]].
  assert (Hu' : check_user_classes o2 m = ret tt).
  { unfold check_user_classes in *.
    destruct (list_commands o2); [discriminate|].
    destruct (available_user_classes m); [discriminate|].
    destruct (filter _ (user_classes o2)); [reflexivity | discriminate]. }
  rewrite Hu' in Hu. inversion Hu; subst t3. clear Hu.
  apply bind_ret_inv in H. destruct H as [t4 [u4 [t4' [Hc [H Ht4]]]]].
  assert (t4 = []).
  { unfold apply_config_users in Hc.
    destruct (config_users o2 && update_user_class_raises h);
      inversion Hc; reflexivity. }
  subst t4.
  apply bind_ret_inv in H. destruct H as [t5 [u5 [t5' [Hs [H Ht5]]]]].
  assert (t5 = []).
  { unfold show_task_ratios in Hs.
    destruct (show_task_ratio o2); [discriminate|].
    destruct (show_task_ratio_json o2); inversion Hs; reflexivity. }
  subst t5.
  apply bind_ret_inv in H. destruct H as [t6 [k [t6' [Hr [H Ht6]]]]].
  apply bind_ret_inv in H. destruct H as [t7 [w [t7' [Hw [H Ht7]]]]].
  apply bind_ret_inv in H. destruct H as [t8 [u8 [t8' [Hi [H Ht8]]]]].
  unfold ret in H. inversion H; subst s t8'. clear H. cbn [st_options
    st_runner st_web_ui st_shape_class st_children].
  destruct (create_runner_ret _ _ _ _ Hr) as [Et6 _].
  destruct (create_web_ui_ret _ _ _ Hw) as [_ Et7].
  assert (Hi' : init_raises h = false /\ t8 = [EFireInit]).
  { unfold fire_init in Hi. rewrite bind_emit in Hi.
    destruct (init_raises h); [discriminate|].
    inversion Hi. auto. }
  destruct Hi' as [Hi1 Hi2].
  exists m, t2, ch. subst.
  repeat split; auto.
Qed.

(** X7: when [main] gets past the init event, the runner is a master
    runner if [options.master] is set, else a worker runner if
    [options.worker] is set, else a local runner; a master is not also a
    worker and expects at least one worker; the web UI exists exactly when
    the process is neither headless nor a worker; [--headful] has switched
    headless off; no init handler raised; the locustfiles gave at least one
    User class; and the init event is the last thing that happened. *)
Theorem started_state_invariants (h : Host) (load : string -> Locustfile)
    (files : list string) (o : Options) (tr : list event) (s : Started) :
  main_startup h load files o = (tr, Ret s) ->
  st_runner s = (if master (st_options s) then MasterRunner
                 else if worker (st_options s) then WorkerRunner
                 else LocalRunner)
  /\ (master (st_options s) = true ->
      worker (st_options s) = false /\ 1 <= expect_workers (st_options s))
  /\ st_web_ui s
     = negb (headless (st_options s)) && negb (worker (st_options s))
  /\ (In ECreateWebUi tr <-> st_web_ui s = true)
  /\ (headful o = true -> headless (st_options s) = false)
  /\ init_raises h = false
  /\ (exists m, merge_locustfiles_content load files = Ret m
                /\ available_user_classes m <> []
                /\ st_shape_class s = shape_class m)
  /\ (exists tr', tr = tr' ++ [EFireInit]).
Proof.
  intros H. apply main_startup_ret in H.
  destruct H as [m [trb [ch [Hm [Hb [Hu [Hr [Hw [Hi [Hs [Hc Ht]]]]]]]]]]].
  destruct (create_runner_ret _ _ _ _ Hr) as [_ [Hk Hmw]].
  destruct (create_web_ui_ret _ _ _ Hw) as [Hweb _].
  destruct (processes_block_ret _ _ _ _ _ Hb) as [Hhl [Hhf [_ Hev]]].
  split; [exact Hk|]. split; [exact Hmw|]. split; [exact Hweb|].
  split; [|split; [|split; [exact Hi|split]]].
  - rewrite Ht. split.
    + intros Hin. apply in_app_or in Hin. destruct Hin as [Hin | Hin].
      * destruct (Hev _ Hin) as [[p Hp] | [a Ha]]; discriminate.
      * simpl in Hin. destruct Hin as [Hin | Hin]; [discriminate|].
        destruct (st_web_ui s); [reflexivity|].
        simpl in Hin. destruct Hin as [Hin | []]. discriminate.
    + intros ->. apply in_or_app. right. right. now left.
  - intros Hf. rewrite Hhl, Hf. reflexivity.
  - exists m. split; [exact Hm|]. split; [|exact Hs].
    unfold check_user_classes in Hu.
    destruct (list_commands (st_options s)); [discriminate|].
    destruct (available_user_classes m); [discriminate | discriminate].
  - exists (trb ++ [ECreateRunner (st_runner s)]
              ++ (if st_web_ui s then [ECreateWebUi] else [])).
    rewrite Ht. now rewrite <- !app_assoc.
Qed.

Lemma started_state_invariants_witness :
  st_web_ui (mkStarted
               (sample_options false false (-1) 0 false false (Some 60) false)
               LocalRunner true None [])
  = negb (headless (sample_options false false (-1) 0 false false (Some 60)
                      false))
    && negb (worker (sample_options false false (-1) 0 false false (Some 60)
                       false)).
Proof.
  exact (proj1 (proj2 (proj2 (started_state_invariants
           (sample_host [] (fun _ => []) [] (Some clean_final))
           plain_locustfile ["locustfile.py"%string]
           (sample_options false false (-1) 0 false false (Some 60) false)
           _ _ eq_refl)))).
Defined.

(** ** What the automatic run controller does, and how often *)

Lemma filter_none {X : Type} (p : X -> bool) (l : list X) :
  (forall x, In x l -> p x = false) -> filter p l = [].
Proof.
  induction l as [|x l IH]; simpl; intros H; [reflexivity|].
  rewrite (H x) by now left. apply IH. intros y Hy. apply H. now right.
Qed.

Lemma existsb_none {X : Type} (p : X -> bool) (l : list X) :
  (forall x, In x l -> p x = false) -> existsb p l = false.
Proof.
  induction l as [|x l IH]; simpl; intros H; [reflexivity|].
  rewrite (H x) by now left. apply IH. intros y Hy. apply H. now right.
Qed.

Lemma wait_for_workers_events (o : Options) (polls : list (Z * Q)) (e : event) :
  In e (fst (wait_for_workers o polls)) -> e = ESleep 1 \/ e = ERunnerQuit.
Proof.
  induction polls as [|[ready elapsed] rest IH]; simpl; [intros []|].
  destruct (ready <? expect_workers o); [|intros []].
  destruct (truthy_Z (expect_workers_max_wait o)
            && Qlt_bool (inject_Z (expect_workers_max_wait o)) elapsed).
  - simpl. intros [<- | []]. now right.
  - rewrite bind_emit. simpl. intros [<- | H]; [now left | auto].
Qed.

Lemma stop_and_optionally_quit_events (o : Options) (web_ui : bool) (e : event) :
  In e (stop_and_optionally_quit o web_ui) ->
  e = ERunnerStop \/ e = ESleep (inject_Z (autoquit o)) \/ e = ERunnerQuit
  \/ e = EWebUiStop.
Proof.
  unfold stop_and_optionally_quit.
  destruct (autostart o && negb (headless o));
    [|simpl; intros [<- | []]; auto].
  destruct (negb (autoquit o =? -1)); destruct web_ui; simpl;
    intuition auto.
Qed.

(** On a worker the controller starts nothing; it only arms the timer of
    the run time limit, if there is one. *)
Lemma start_automatic_run_worker (h : Host) (s : Started) (o : Options) :
  worker o = true -> master o = false ->
  start_automatic_run h s o
  = (match run_time o with
     | Some t => if truthy_Z t then [ESpawnLater t StopAndOptionallyQuit]
                 else []
     | None => []
     end, Ret o).
Proof.
  intros Hw Hm. unfold start_automatic_run. rewrite Hw, Hm.
  cbn [negb]. rewrite !bind_ret.
  destruct (run_time o) as [t|]; [|reflexivity].
  destruct (truthy_Z t); [|reflexivity].
  rewrite bind_emit. reflexivity.
Qed.

Lemma start_automatic_run_ret (h : Host) (s : Started) (o o1 : Options)
    (tr : list event) :
  start_automatic_run h s o = (tr, Ret o1) ->
  o1 = o \/ o1 = headless_defaults o.
Proof.
  unfold start_automatic_run. intros H.
  apply bind_ret_inv in H. destruct H as [t1 [u [t1' [_ [H _]]]]].
  apply bind_ret_inv in H. destruct H as [t2 [o2 [t2' [H2 [H _]]]]].
  assert (Ho2 : o2 = o \/ o2 = headless_defaults o).
  { destruct (negb (worker o)).
    - destruct (st_shape_class s);
        apply bind_ret_inv in H2;
        destruct H2 as [t3 [u3 [t3' [_ [H3 _]]]]];
        inversion H3; now right.
    - inversion H2. now left. }
  assert (Ho1 : o1 = o2).
  { destruct (run_time o2) as [t|]; [|now inversion H].
    destruct (truthy_Z t); [|now inversion H].
    rewrite bind_emit in H. now inversion H. }
  now subst o1.
Qed.

(** In one run the controller arms at most one timer and starts the
    runner at most once. *)
Lemma start_automatic_run_once (h : Host) (s : Started) (o : Options) :
  (List.length (filter arms_timer (fst (start_automatic_run h s o))) <= 1)%nat
  /\ (List.length (filter starts_runner (fst (start_automatic_run h s o)))
      <= 1)%nat.
Proof.
  unfold start_automatic_run. rewrite bind_fst.
  set (W := if master o then wait_for_workers o (worker_polls h) else ret tt).
  assert (HW : forall e, In e (fst W) -> e = ESleep 1 \/ e = ERunnerQuit).
  { unfold W. destruct (master o); [apply wait_for_workers_events|].
    intros e []. }
  rewrite !filter_app.
  rewrite (filter_none arms_timer (fst W))
    by (intros e He; destruct (HW e He); subst; reflexivity).
  rewrite (filter_none starts_runner (fst W))
    by (intros e He; destruct (HW e He); subst; reflexivity).
  cbn [app].
  destruct (snd W); [simpl; lia | simpl; lia |].
  rewrite bind_fst, !filter_app, !length_app.
  set (Mid := if negb (worker o) then _ else _).
  assert (HM : (List.length (filter arms_timer (fst Mid)) = 0)%nat
               /\ (List.length (filter starts_runner (fst Mid)) <= 1)%nat).
  { unfold Mid. destruct (negb (worker o)); [|simpl; lia].
    destruct (st_shape_class s).
    - rewrite bind_emit. cbn [fst ret app]. rewrite app_nil_r.
      cbn [filter arms_timer starts_runner app List.length].
      rewrite (filter_none arms_timer (stop_and_optionally_quit _ _))
        by (intros e He; apply stop_and_optionally_quit_events in He;
            destruct He as [-> | [-> | [-> | ->]]]; reflexivity).
      rewrite (filter_none starts_runner (stop_and_optionally_quit _ _))
        by (intros e He; apply stop_and_optionally_quit_events in He;
            destruct He as [-> | [-> | [-> | ->]]]; reflexivity).
      simpl. lia.
    - rewrite bind_emit. simpl. lia. }
  destruct HM as [HM1 HM2]. rewrite HM1.
  destruct (snd Mid) as [c| |o2]; [simpl; lia | simpl; lia |].
  destruct (run_time o2) as [t|]; [|simpl; lia].
  destruct (truthy_Z t); [|simpl; lia].
  rewrite bind_emit. simpl. lia.
Qed.

Lemma shutdown_events {A : Type} (o : Options) (runner : RunnerKind)
    (il sp hm : bool) (f : FinalState) (p : event -> bool) :
  p (EKillGreenlet InputListener) = false ->
  p (EKillGreenlet StatsPrinter) = false ->
  p (EKillGreenlet (RunnerStart (num_users o) (spawn_rate o))) = false ->
  p EFireQuitting = false -> p ERunnerQuit = false ->
  p (EFireQuit (determine_exit_code o f)) = false ->
  filter p (fst (@shutdown A o runner il sp hm f))
  = filter p (final_statistics o runner).
Proof.
  intros H1 H2 H3 H4 H5 H6. unfold shutdown.
  cbn [bind emit sys_exit fst snd]. rewrite !filter_app.
  destruct il, sp, hm; cbn [filter];
    rewrite ?H1, ?H2, ?H3, ?H4, ?H5, ?H6; simpl; now rewrite app_nil_r.
Qed.

Lemma final_statistics_no_start (o : Options) (runner : RunnerKind) :
  filter arms_timer (final_statistics o runner) = []
  /\ filter starts_runner (final_statistics o runner) = [].
Proof.
  unfold final_statistics.
  destruct (json o), (json_file o) as [[|c f]|], runner; split; reflexivity.
Qed.

(** X10: in [main], from the init event on, the timer of the run time
    limit is armed at most once and the test is started at most once
    (by [runner.start] or by [start_shape]), whatever the options, the
    workers and the end of the run. *)
Theorem main_run_starts_once (h : Host) (s : Started) :
  (List.length (filter arms_timer (trace (main_run h s))) <= 1)%nat
  /\ (List.length (filter starts_runner (trace (main_run h s))) <= 1)%nat.
Proof.
  assert (Hend : forall o2 : Options,
            let E := match final h with
                     | None => @blocked Empty_set
                     | Some f =>
                         emit (if truthy_opt_str (html_file o2)
                               then [ESaveHtmlReport] else []) ;;
                         shutdown o2 (st_runner s) (negb (worker o2))
                           (stats_printer_wanted (st_options s)) false f
                     end in
            filter arms_timer (fst E) = [] /\ filter starts_runner (fst E) = []).
  { intros o2. cbv zeta. destruct (final h) as [f|]; [|split; reflexivity].
    rewrite bind_emit. cbn [fst]. rewrite !filter_app.
    rewrite !shutdown_events by reflexivity.
    destruct (final_statistics_no_start o2 (st_runner s)) as [-> ->].
    destruct (truthy_opt_str (html_file o2)); split; reflexivity. }
  unfold main_run, trace. cbv zeta.
  cbn [bind emit fst snd].
  rewrite !filter_app, !length_app.
  assert (HA : forall (p : event -> bool) (b : bool),
            p EWebUiStart = false ->
            List.length (filter p (if b then [EWebUiStart] else [])) = 0%nat).
  { intros p b Hp. destruct b; simpl; now rewrite ?Hp. }
  rewrite !HA by reflexivity.
  assert (HB : forall (p : event -> bool) (b : bool) (t : task),
            p (ESpawn t) = false ->
            List.length (filter p (if b then [ESpawn t] else [])) = 0%nat).
  { intros p b t Hp. destruct b; simpl; now rewrite ?Hp. }
  rewrite !HB by reflexivity.
  cbn [filter arms_timer starts_runner List.length Nat.add].
  rewrite !bind_fst.
  destruct (headless (st_options s)) eqn:Eh.
  - pose proof (start_automatic_run_once h s (st_options s)) as [H1 H2].
    destruct (start_automatic_run h s (st_options s)) as [tr1 [c| |o1]] eqn:Es;
      cbn [fst snd] in *; rewrite ?app_nil_r; [auto | auto |].
    assert (Eh1 : headless o1 = true).
    { destruct (start_automatic_run_ret _ _ _ _ _ Es) as [-> | ->];
        exact Eh. }
    rewrite Eh1, andb_false_r. cbn [bind emit ret fst snd].
    destruct (Hend o1) as [E1 E2].
    cbn [bind emit ret fst snd] in E1, E2.
    rewrite !filter_app, !length_app, E1, E2.
    destruct (negb (worker o1)); simpl; lia.
  - cbn [ret fst snd app]. cbn [bind emit ret fst snd].
    rewrite !filter_app, !length_app.
    assert (HE : forall p : event -> bool,
              p (ESpawn InputListener) = false ->
              p (EAtexitRegister AtexitKillInputListener) = false ->
              List.length
                (filter p (if negb (worker (st_options s))
                           then [ESpawn InputListener;
                                 EAtexitRegister AtexitKillInputListener]
                           else [])) = 0%nat).
    { intros p Hp1 Hp2. destruct (negb (worker (st_options s))); simpl;
        now rewrite ?Hp1, ?Hp2. }
    rewrite !HE by reflexivity.
    cbn [filter arms_timer starts_runner List.length Nat.add].
    rewrite !bind_fst.
    destruct (autostart (st_options s) && negb (headless (st_options s))).
    + pose proof (start_automatic_run_once h s (st_options s)) as [H1 H2].
      destruct (start_automatic_run h s (st_options s))
        as [tr1 [c| |o1]] eqn:Es;
        cbn [fst snd] in *; rewrite ?app_nil_r; [auto | auto |].
      destruct (Hend o1) as [E1 E2].
      cbn [bind emit ret fst snd] in E1, E2.
      rewrite !filter_app, !length_app, E1, E2. simpl. lia.
    + cbn [ret fst snd app]. destruct (Hend (st_options s)) as [E1 E2].
      cbn [bind emit ret fst snd] in E1, E2.
      rewrite E1, E2. simpl. lia.
Qed.

(** ** Workers *)

(** X9: a process in which a fork returns 0 is a child.  It leaves the
    [--processes] block as a worker, with run time limit, autostart, csv
    prefix and html file cleared; its list [children] holds the pids of
    the siblings forked before it; it has forked no process itself, and it
    has installed neither the SIGINT handler nor [kill_workers]. *)
Theorem forked_child_is_worker (h : Host) (o : Options) (n : Z) (j : nat) :
  processes o <> 0 ->
  resolve_processes h o = Ret n ->
  (j < Z.to_nat n)%nat ->
  (forall i, (i < j)%nat -> fork_ret h i <> 0) ->
  fork_ret h j = 0 ->
  exists o',
    processes_block h o
    = (map EFork (map (fork_ret h) (seq 0 j)) ++ [EFork 0],
       Ret (o', map (fork_ret h) (seq 0 j)))
    /\ worker o' = true /\ run_time o' = None /\ autostart o' = false
    /\ csv_prefix o' = None /\ html_file o' = None
    /\ master o' = master o /\ headless o' = headless o.
Proof.
  intros Hp Hr Hj Hnz Hz.
  exists (child_options (set_processes n o)).
  split; [|repeat split].
  unfold processes_block.
  assert (Ht : truthy_Z (processes o) = true).
  { unfold truthy_Z. apply Z.eqb_neq in Hp. now rewrite Hp. }
  rewrite Ht, Hr, bind_lift_ret.
  rewrite (fork_loop_child (fork_ret h) j (Z.to_nat n) 0 []) by auto.
  unfold bind at 1. cbn [fst snd app ret].
  rewrite seq_S, !map_app, app_nil_r. cbn [map Nat.add]. now rewrite Hz.
Qed.

Lemma forked_child_is_worker_witness :
  exists o',
    processes_block
      (mkHost false (Some 4) (fun k => if Nat.eqb k 1 then 0 else 101)
         (fun _ _ => KillOk) [] (fun _ => []) (fun _ => Exited 0)
         false false false [] None)
      (sample_options true true (-1) 3 false false (Some 60) false)
    = (map EFork (map (fun k => if Nat.eqb k 1 then 0 else 101) (seq 0 1))
         ++ [EFork 0],
       Ret (o', map (fun k => if Nat.eqb k 1 then 0 else 101) (seq 0 1)))
    /\ worker o' = true /\ run_time o' = None /\ autostart o' = false
    /\ csv_prefix o' = None /\ html_file o' = None
    /\ master o' = false /\ headless o' = true.
Proof.
  refine (forked_child_is_worker
            (mkHost false (Some 4) (fun k => if Nat.eqb k 1 then 0 else 101)
               (fun _ _ => KillOk) [] (fun _ => []) (fun _ => Exited 0)
               false false false [] None)
            (sample_options true true (-1) 3 false false (Some 60) false)
            3 1 _ eq_refl _ _ eq_refl).
  - simpl. discriminate.
  - simpl. lia.
  - intros i Hi. assert (i = 0%nat) by lia. subst i. simpl. discriminate.
Defined.

Lemma main_run_worker (h : Host) (s : Started) :
  worker (st_options s) = true -> master (st_options s) = false ->
  st_web_ui s = false -> st_runner s = WorkerRunner ->
  existsb left_to_master (trace (main_run h s)) = false.
Proof.
  intros Hw Hm Hweb Hr. unfold main_run, trace. cbv zeta.
  rewrite Hweb, Hr.
  set (E := fun o2 : Options =>
              match final h with
              | None => @blocked Empty_set
              | Some f =>
                  emit (if truthy_opt_str (html_file o2)
                        then [ESaveHtmlReport] else []) ;;
                  shutdown o2 WorkerRunner (negb (worker o2))
                    (stats_printer_wanted (st_options s)) false f
              end).
  assert (HE : existsb left_to_master (fst (E (st_options s))) = false).
  { unfold E. destruct (final h) as [f|]; [|reflexivity].
    rewrite Hw. unfold shutdown, final_statistics.
    cbn [bind emit ret sys_exit fst snd negb app].
    rewrite !existsb_app.
    repeat match goal with
           | |- context [if ?b then _ else _] => destruct b
           | |- context [match ?b with _ => _ end] => destruct b
           end; reflexivity. }
  assert (Ht : existsb left_to_master
                 (match run_time (st_options s) with
                  | Some t => if truthy_Z t
                              then [ESpawnLater t StopAndOptionallyQuit]
                              else []
                  | None => []
                  end) = false).
  { destruct (run_time (st_options s)) as [t|]; [|reflexivity].
    now destruct (truthy_Z t). }
  assert (HA : existsb left_to_master
                 (if stats_printer_wanted (st_options s)
                  then [ESpawn StatsPrinter] else []) = false)
    by now destruct (stats_printer_wanted (st_options s)).
  assert (HC : existsb left_to_master
                 (if truthy_opt_str (csv_prefix (st_options s))
                  then [ESpawn CsvWriter] else []) = false)
    by now destruct (truthy_opt_str (csv_prefix (st_options s))).
  do 4 (rewrite bind_emit; cbv beta; cbn [fst]).
  rewrite !existsb_app, HA, HC. cbn [existsb left_to_master orb].
  rewrite bind_fst, existsb_app.
  destruct (headless (st_options s)) eqn:Eh.
  - rewrite (start_automatic_run_worker h s _ Hw Hm). cbn [fst snd].
    rewrite Ht. cbn [orb]. rewrite Hw. cbn [negb].
    do 2 (rewrite bind_emit; cbv beta; cbn [fst]).
    rewrite Eh, andb_false_r, bind_ret. exact HE.
  - cbn [ret fst snd existsb orb]. rewrite Hw. cbn [negb].
    do 2 (rewrite bind_emit; cbv beta; cbn [fst]).
    cbn [app existsb left_to_master orb].
    rewrite bind_fst, existsb_app, Eh.
    destruct (autostart (st_options s)); cbn [andb negb].
    + rewrite (start_automatic_run_worker h s _ Hw Hm). cbn [fst snd].
      rewrite Ht. exact HE.
    + cbn [ret fst snd existsb orb]. exact HE.
Qed.

(** A worker that is started with a run time limit, headless or with
    autostart, arms the timer. *)
Lemma main_run_worker_timer (h : Host) (s : Started) (t : Z) :
  worker (st_options s) = true -> master (st_options s) = false ->
  run_time (st_options s) = Some t -> t <> 0 ->
  headless (st_options s) = true \/ autostart (st_options s) = true ->
  In (ESpawnLater t StopAndOptionallyQuit) (trace (main_run h s)).
Proof.
  intros Hw Hm Ht Hnz Hstart. unfold main_run, trace. cbv zeta.
  assert (Hrun : start_automatic_run h s (st_options s)
                 = ([ESpawnLater t StopAndOptionallyQuit], Ret (st_options s))).
  { rewrite (start_automatic_run_worker h s _ Hw Hm), Ht.
    unfold truthy_Z. apply Z.eqb_neq in Hnz. now rewrite Hnz. }
  do 4 (rewrite bind_emit; cbv beta; cbn [fst]).
  apply in_or_app; right. apply in_or_app; right. apply in_or_app; right.
  apply in_or_app; right.
  rewrite bind_fst.
  destruct (headless (st_options s)) eqn:Eh.
  - rewrite Hrun. cbn [fst]. apply in_or_app; left. now left.
  - destruct Hstart as [Hd | Ha]; [discriminate|].
    cbn [ret fst snd]. apply in_or_app; right.
    rewrite Hw. cbn [negb].
    do 2 (rewrite bind_emit; cbv beta; cbn [fst]).
    apply in_or_app; right. apply in_or_app; right.
    rewrite bind_fst, Eh, Ha. cbn [andb negb].
    rewrite Hrun. cbn [fst]. apply in_or_app; left. now left.
Qed.

(** X8: a process that gets past the init event as a worker runs a worker
    runner and has no web UI.  Neither the sequence of [main] in that
    process nor the body of the run time timer, [stop_and_optionally_quit],
    creates, starts or stops a web UI, spawns the input listener, starts
    the test or prints the plain-text summary, percentiles or error
    report.  The worker does not leave the end of the test to the master:
    started with a run time limit, headless or with autostart, it arms the
    timer, whose body stops or quits the runner of the worker. *)
Theorem worker_leaves_to_master (h : Host) (load : string -> Locustfile)
    (files : list string) (o : Options) (tr : list event) (s : Started) :
  main_startup h load files o = (tr, Ret s) ->
  worker (st_options s) = true ->
  st_runner s = WorkerRunner
  /\ st_web_ui s = false
  /\ (forall e,
        In e (trace (main h load files o)
                ++ stop_and_optionally_quit (st_options s) (st_web_ui s)) ->
        left_to_master e = false)
  /\ (forall t,
        run_time (st_options s) = Some t -> t <> 0 ->
        headless (st_options s) = true \/ autostart (st_options s) = true ->
        In (ESpawnLater t StopAndOptionallyQuit)
           (trace (main h load files o))
        /\ (In ERunnerStop
               (stop_and_optionally_quit (st_options s) (st_web_ui s))
            \/ In ERunnerQuit
                 (stop_and_optionally_quit (st_options s) (st_web_ui s)))).
Proof.
  intros H Hw.
  pose proof (main_startup_ret _ _ _ _ _ _ H)
    as [m [trb [ch [Hm [Hb [Hu [Hr [Hweb [Hi [Hs [Hc Ht]]]]]]]]]]].
  destruct (create_runner_ret _ _ _ _ Hr) as [_ [Hk Hmw]].
  destruct (create_web_ui_ret _ _ _ Hweb) as [Hui _].
  destruct (processes_block_ret _ _ _ _ _ Hb) as [_ [_ [_ Hev]]].
  assert (Hmaster : master (st_options s) = false).
  { destruct (master (st_options s)); [|reflexivity].
    destruct (Hmw eq_refl) as [Hc' _]. congruence. }
  rewrite Hmaster, Hw in Hk. rewrite Hw, andb_false_r in Hui.
  assert (Hmain : trace (main h load files o) = tr ++ trace (main_run h s)).
  { unfold main, trace. rewrite bind_fst, H. reflexivity. }
  split; [exact Hk|]. split; [exact Hui|]. split.
  - intros e He. apply in_app_or in He. destruct He as [He | He].
    + rewrite Hmain in He. apply in_app_or in He. destruct He as [He | He].
      * rewrite Ht, Hui in He. apply in_app_or in He. destruct He as [He | He].
        -- destruct (Hev _ He) as [[p ->] | [a ->]]; reflexivity.
        -- simpl in He. destruct He as [<- | [<- | []]]; reflexivity.
      * pose proof (main_run_worker h s Hw Hmaster Hui Hk) as Hn.
        destruct (left_to_master e) eqn:El; [|reflexivity].
        assert (existsb left_to_master (trace (main_run h s)) = true)
          by (apply existsb_exists; eauto).
        congruence.
    + rewrite Hui in He. unfold stop_and_optionally_quit in He.
      destruct (autostart (st_options s) && negb (headless (st_options s)));
        [destruct (negb (autoquit (st_options s) =? -1))|]; simpl in He;
        repeat (destruct He as [<- | He]; [reflexivity|]); contradiction.
  - intros t Hrt Hnz Hstart. split.
    + rewrite Hmain. apply in_or_app; right.
      now apply main_run_worker_timer.
    + unfold stop_and_optionally_quit.
      destruct (autostart (st_options s) && negb (headless (st_options s)));
        [left | right]; now left.
Qed.

Lemma worker_leaves_to_master_witness :
  In (ESpawnLater 60 StopAndOptionallyQuit)
     (trace (main (sample_host [] (fun _ => []) [] (Some clean_final))
               plain_locustfile ["locustfile.py"%string]
               (sample_options true false (-1) 0 false true (Some 60) false)))
  /\ (In ERunnerStop
        (stop_and_optionally_quit
           (sample_options true false (-1) 0 false true (Some 60) false) false)
      \/ In ERunnerQuit
           (stop_and_optionally_quit
              (sample_options true false (-1) 0 false true (Some 60) false)
              false)).
Proof.
  refine (proj2 (proj2 (proj2 (worker_leaves_to_master
            (sample_host [] (fun _ => []) [] (Some clean_final))
            plain_locustfile ["locustfile.py"%string]
            (sample_options true false (-1) 0 false true (Some 60) false)
            [ECreateRunner WorkerRunner; EFireInit]
            (mkStarted
               (sample_options true false (-1) 0 false true (Some 60) false)
               WorkerRunner false None [])
            eq_refl eq_refl))) 60 eq_refl _ _).
  - discriminate.
  - left. reflexivity.
Defined.

(** ** More on the waiting parent *)

Lemma parent_wait_has_run_irrelevant {A : Type}
    (kill : Z -> signal -> kill_result) (children : list Z)
    (sts : list child_status) :
  forall (remaining : list Z) (exit_code : Z),
    @parent_wait A kill children true remaining exit_code (map ChildExit sts)
    = @parent_wait A kill children false remaining exit_code
        (map ChildExit sts).
Proof.
  induction sts as [|st sts IH]; intros remaining exit_code.
  - now destruct remaining.
  - destruct remaining as [|c rest]; [reflexivity|].
    cbn [map parent_wait]. rewrite !bind_emit. now rewrite IH.
Qed.

Lemma parent_wait_one_sigint {A : Type}
    (kill : Z -> signal -> kill_result) (children : list Z)
    (sts1 sts2 : list child_status) :
  forall (remaining : list Z) (exit_code : Z),
    @parent_wait A kill children false remaining exit_code
      (map ChildExit sts1 ++ Sigint :: map ChildExit sts2)
    = @parent_wait A kill children false remaining exit_code
        (map ChildExit (sts1 ++ sts2)).
Proof.
  induction sts1 as [|st sts1 IH]; intros remaining exit_code.
  - cbn [map app]. destruct remaining as [|c rest].
    + now destruct sts2.
    + rewrite parent_wait_first_sigint.
      apply parent_wait_has_run_irrelevant.
  - destruct remaining as [|c rest]; [reflexivity|].
    cbn [map app parent_wait]. rewrite !bind_emit. now rewrite IH.
Qed.

(** X11: a single SIGINT, at whatever moment it arrives, changes neither
    what the waiting parent does nor the code it exits with: the parent
    behaves as if the signal had not been sent.  And as long as one child
    has not ended, the parent does not exit. *)
Theorem single_sigint_changes_nothing
    (kill : Z -> signal -> kill_result) (children : list Z)
    (sts1 sts2 : list child_status) :
  @parent_wait Empty_set kill children false children 0
    (map ChildExit sts1 ++ Sigint :: map ChildExit sts2)
  = @parent_wait Empty_set kill children false children 0
      (map ChildExit (sts1 ++ sts2))
  /\ ((List.length (sts1 ++ sts2) < List.length children)%nat ->
      snd (@parent_wait Empty_set kill children false children 0
             (map ChildExit sts1 ++ Sigint :: map ChildExit sts2))
      = Blocked).
Proof.
  split; [apply parent_wait_one_sigint|].
  intros Hlen. rewrite parent_wait_one_sigint.
  rewrite <- (app_nil_r (map ChildExit (sts1 ++ sts2))).
  rewrite parent_wait_exits by lia. cbn [snd].
  destruct (skipn_nonempty (List.length (sts1 ++ sts2)) children Hlen)
    as [c [r ->]].
  reflexivity.
Qed.

Lemma single_sigint_changes_nothing_witness :
  snd (@parent_wait Empty_set (fun _ _ => KillOk) [101; 102] false
         [101; 102] 0 (map ChildExit [Exited 0] ++ Sigint :: map ChildExit []))
  = Blocked.
Proof.
  apply (proj2 (single_sigint_changes_nothing (fun _ _ => KillOk) [101; 102]
                  [Exited 0] [])).
  simpl. lia.
Defined.

(** ** More on [kill_workers] *)

Lemma interrupt_children_all (kill : Z -> signal -> kill_result)
    (children : list Z) :
  (forall c, In c children -> kill c SIGINT <> KillOtherError) ->
  interrupt_children kill children
  = (map (fun c => EKill c SIGINT (kill c SIGINT)) children, true).
Proof.
  induction children as [|c rest IH]; intros H; [reflexivity|].
  cbn [interrupt_children map].
  rewrite IH by (intros x Hx; apply H; now right).
  destruct (kill c SIGINT) eqn:E; try reflexivity.
  exfalso. apply (H c); [now left | assumption].
Qed.

(** X12: [kill_workers], when no call of [os.kill] fails otherwise than
    with [ProcessLookupError]: first come only calls of [waitpid] with
    [WNOHANG] and sleeps of 0.1 s; then SIGINT goes to exactly the
    children for which no such call returned, in the order of the list;
    then exactly these children are waited for; then the error line, if
    the largest exit code is above 1; then the sleep of 0.1 s.  So
    [kill_workers] never sends SIGKILL, and a child for which a call with
    [WNOHANG] returned is neither signalled nor waited for again. *)
Theorem kill_workers_sequence (h : Host) (children : list Z) :
  NoDup children ->
  (forall c, In c children -> os_kill h c SIGINT <> KillOtherError) ->
  exists polls agg,
    kill_workers h children
    = (polls
         ++ map (fun c => EKill c SIGINT (os_kill h c SIGINT))
              (filter (not_polled (wait_attempts h)) children)
         ++ map (fun c => EWaitpid c false)
              (filter (not_polled (wait_attempts h)) children)
         ++ (if 1 <? agg then [EBadResponseCode agg] else [])
         ++ [ESleep (1 # 10)],
       Some agg)
    /\ (forall e, In e polls ->
          (exists p, In p children /\ e = EWaitpid p true)
          \/ e = ESleep (1 # 10)).
Proof.
  intros Hnd Hk. unfold kill_workers.
  pose proof (reap_finished_result (wait_attempts h) children [] 0 Hnd) as Hr.
  pose proof (reap_finished_events (wait_attempts h) children children 0)
    as He.
  simpl in Hr.
  destruct (reap_finished (wait_attempts h) children children 0)
    as [tr1 [children1 code1]].
  simpl in Hr. inversion Hr; subst children1 code1; clear Hr.
  cbn [fst snd] in *.
  rewrite interrupt_children_all
    by (intros c Hc; apply Hk; apply filter_In in Hc; tauto).
  cbn [fst snd]. rewrite reap_remaining_events.
  eexists tr1, _. split; [reflexivity | exact He].
Qed.

Lemma kill_workers_sequence_witness :
  exists polls agg,
    kill_workers
      (sample_host []
         (fun p => if p =? 101 then [WaitReturned (Exited 0)] else [WaitEINTR])
         [] None) [101; 102]
    = (polls
         ++ map (fun c => EKill c SIGINT KillOk)
              (filter (not_polled
                 (fun p => if p =? 101 then [WaitReturned (Exited 0)]
                           else [WaitEINTR])) [101; 102])
         ++ map (fun c => EWaitpid c false)
              (filter (not_polled
                 (fun p => if p =? 101 then [WaitReturned (Exited 0)]
                           else [WaitEINTR])) [101; 102])
         ++ (if 1 <? agg then [EBadResponseCode agg] else [])
         ++ [ESleep (1 # 10)],
       Some agg)
    /\ (forall e, In e polls ->
          (exists p, In p [101; 102] /\ e = EWaitpid p true)
          \/ e = ESleep (1 # 10)).
Proof.
  refine (kill_workers_sequence
            (sample_host []
               (fun p => if p =? 101 then [WaitReturned (Exited 0)]
                         else [WaitEINTR]) [] None) [101; 102] _ _).
  - repeat constructor; simpl; intuition discriminate.
  - intros c Hc. simpl. discriminate.
Defined.

(** ** More on waiting for the workers *)

Lemma wait_for_workers_exit (o : Options) (polls : list (Z * Q)) (c : Z) :
  snd (wait_for_workers o polls) = Exit c ->
  c = 1 /\ expect_workers_max_wait o <> 0
  /\ exists pre ready elapsed rest,
       polls = pre ++ (ready, elapsed) :: rest
       /\ ready < expect_workers o
       /\ (inject_Z (expect_workers_max_wait o) < elapsed)%Q
       /\ fst (wait_for_workers o polls)
          = repeat (ESleep 1) (List.length pre) ++ [ERunnerQuit].
Proof.
  induction polls as [|[ready elapsed] rest IH]; cbn [wait_for_workers];
    [discriminate|].
  destruct (ready <? expect_workers o) eqn:Er; [|discriminate].
  destruct (truthy_Z (expect_workers_max_wait o)
            && Qlt_bool (inject_Z (expect_workers_max_wait o)) elapsed) eqn:Ec.
  - apply andb_true_iff in Ec. destruct Ec as [Em Eq].
    rewrite bind_emit. cbn [fst snd sys_exit app].
    intros H. inversion H. split; [reflexivity|]. split.
    + unfold truthy_Z in Em. intros E0. rewrite E0 in Em. discriminate.
    + exists [], ready, elapsed, rest. split; [reflexivity|].
      split; [now apply Z.ltb_lt|]. split; [now apply Qlt_bool_true|].
      reflexivity.
  - rewrite bind_emit. cbn [fst snd]. intros H.
    destruct (IH H) as [Hc [Hm [pre [r [e [rs [Hp [Hr [He Ht]]]]]]]]].
    split; [exact Hc|]. split; [exact Hm|].
    exists ((ready, elapsed) :: pre), r, e, rs.
    split; [now rewrite Hp|]. split; [exact Hr|]. split; [exact He|].
    now rewrite Ht.
Qed.

(** X13: the wait for the workers ends the process only with code 1, only
    when a maximum wait is configured, and only at a turn of the loop at
    which fewer workers than expected are ready and more than the maximum
    wait has passed; it has then slept once for each earlier turn and has
    called [runner.quit()] last.  Without a maximum wait the process is
    never ended by the wait. *)
Theorem wait_for_workers_gives_up_only_late (o : Options)
    (polls : list (Z * Q)) :
  (forall c, snd (wait_for_workers o polls) = Exit c ->
     c = 1 /\ expect_workers_max_wait o <> 0
     /\ exists pre ready elapsed rest,
          polls = pre ++ (ready, elapsed) :: rest
          /\ ready < expect_workers o
          /\ (inject_Z (expect_workers_max_wait o) < elapsed)%Q
          /\ fst (wait_for_workers o polls)
             = repeat (ESleep 1) (List.length pre) ++ [ERunnerQuit])
  /\ (expect_workers_max_wait o = 0 ->
      forall c, snd (wait_for_workers o polls) <> Exit c).
Proof.
  split; [apply wait_for_workers_exit|].
  intros H0 c Hc. apply wait_for_workers_exit in Hc. tauto.
Qed.

Lemma wait_for_workers_gives_up_only_late_witness :
  1 = 1 /\ expect_workers_max_wait (waiting_master_options 3 5) <> 0
  /\ exists pre ready elapsed rest,
       two_of_three_polls = pre ++ (ready, elapsed) :: rest
       /\ ready < expect_workers (waiting_master_options 3 5)
       /\ (inject_Z (expect_workers_max_wait (waiting_master_options 3 5))
           < elapsed)%Q
       /\ fst (wait_for_workers (waiting_master_options 3 5)
                 two_of_three_polls)
          = repeat (ESleep 1) (List.length pre) ++ [ERunnerQuit].
Proof.
  exact (proj1 (wait_for_workers_gives_up_only_late
                  (waiting_master_options 3 5) two_of_three_polls)
           1 eq_refl).
Defined.

(** X14: the wait for the workers ends, without a call to the runner, at
    the first turn of the loop at which at least the expected number of
    workers is ready; it has then slept one second for each earlier turn,
    and not at all when the workers are ready at the first turn.  The
    earlier turns are those at which workers were missing and the maximum
    wait, if any, had not passed. *)
Theorem wait_for_workers_returns_when_ready (o : Options)
    (pre : list (Z * Q)) (ready : Z) (elapsed : Q) (rest : list (Z * Q)) :
  (forall r e, In (r, e) pre ->
     r < expect_workers o
     /\ (expect_workers_max_wait o = 0
         \/ ~ (inject_Z (expect_workers_max_wait o) < e)%Q)) ->
  expect_workers o <= ready ->
  wait_for_workers o (pre ++ (ready, elapsed) :: rest)
  = (repeat (ESleep 1) (List.length pre), Ret tt).
Proof.
  intros Hpre Hr. induction pre as [|[r e] pre IH]; simpl.
  - apply Z.ltb_ge in Hr. now rewrite Hr.
  - destruct (Hpre r e) as [Hr' He']; [now left|].
    apply Z.ltb_lt in Hr'. rewrite Hr'.
    assert (Hc : truthy_Z (expect_workers_max_wait o)
                 && Qlt_bool (inject_Z (expect_workers_max_wait o)) e
                 = false).
    { destruct He' as [H0 | Hq].
      - rewrite H0. reflexivity.
      - destruct (Qlt_bool _ e) eqn:Eq; [|apply andb_false_r].
        apply Qlt_bool_true in Eq. contradiction. }
    rewrite Hc, bind_emit, IH; [reflexivity|].
    intros r0 e0 H0. apply Hpre. now right.
Qed.

Lemma wait_for_workers_returns_when_ready_witness :
  wait_for_workers (waiting_master_options 3 5)
    ([(2, 0%Q); (2, 1%Q)] ++ (3, 2%Q) :: [(1, 3%Q)])
  = (repeat (ESleep 1) 2, Ret tt).
Proof.
  apply (wait_for_workers_returns_when_ready (waiting_master_options 3 5)
           [(2, 0%Q); (2, 1%Q)] 3 2%Q [(1, 3%Q)]).
  - intros r e Hin. simpl in Hin.
    repeat (destruct Hin as [Hin | Hin];
            [inversion Hin; subst; split;
             [reflexivity
             | right; intros Hlt; vm_compute in Hlt; discriminate]|]).
    contradiction.
  - simpl. lia.
Defined.

(** ** More on the automatic run controller *)

(** X15: on a process that is neither master nor worker,
    [start_automatic_run] never exits and never waits.  Without a load
    shape it spawns [runner.start] with the user count and the spawn rate
    of the options, 1 for each that is missing.  With a load shape it
    starts the shape, waits for its greenlet and then runs
    [stop_and_optionally_quit] itself, and [runner.start] is not spawned.
    In both cases the timer of the run time limit is armed last, if a
    limit is set and not 0, and the options leave the function with user
    count and spawn rate set. *)
Theorem start_automatic_run_standalone (h : Host) (s : Started) (o : Options) :
  master o = false -> worker o = false ->
  start_automatic_run h s o
  = (match st_shape_class s with
     | Some _ =>
         [ERunnerStartShape; EJoinShape]
           ++ stop_and_optionally_quit (headless_defaults o) (st_web_ui s)
     | None =>
         [ESpawn (RunnerStart
                    (Some (match num_users o with Some n => n | None => 1 end))
                    (Some (match spawn_rate o with Some r => r | None => 1 end)))]
     end
       ++ match run_time o with
          | Some t => if truthy_Z t
                      then [ESpawnLater t StopAndOptionallyQuit] else []
          | None => []
          end,
     Ret (headless_defaults o))
  /\ num_users (headless_defaults o)
     = Some (match num_users o with Some n => n | None => 1 end)
  /\ spawn_rate (headless_defaults o)
     = Some (match spawn_rate o with Some r => r | None => 1 end)
  /\ run_time (headless_defaults o) = run_time o
  /\ headless (headless_defaults o) = headless o
  /\ autostart (headless_defaults o) = autostart o.
Proof.
  intros Hm Hw. split.
  - unfold start_automatic_run. rewrite Hm, Hw.
    cbn [negb]. unfold bind, emit, ret.
    destruct (st_shape_class s);
      cbn [fst snd app run_time num_users spawn_rate headless_defaults];
      destruct (num_users o), (spawn_rate o), (run_time o) as [t|];
      try (destruct (truthy_Z t)); cbn [fst snd];
      rewrite ?app_nil_r, <- ?app_assoc; reflexivity.
  - cbn [num_users spawn_rate run_time headless autostart headless_defaults].
    destruct (num_users o), (spawn_rate o); repeat split.
Qed.

Lemma start_automatic_run_standalone_witness :
  start_automatic_run (sample_host [] (fun _ => []) [] None)
    (mkStarted (sample_options true false (-1) 0 false false (Some 60) false)
       LocalRunner false (Some (mkShapeClass "StagesShape" false)) [])
    (sample_options true false (-1) 0 false false (Some 60) false)
  = ([ERunnerStartShape; EJoinShape; ERunnerQuit;
      ESpawnLater 60 StopAndOptionallyQuit],
     Ret (headless_defaults
            (sample_options true false (-1) 0 false false (Some 60) false))).
Proof.
  exact (proj1 (start_automatic_run_standalone
                  (sample_host [] (fun _ => []) [] None)
                  (mkStarted
                     (sample_options true false (-1) 0 false false (Some 60)
                        false)
                     LocalRunner false
                     (Some (mkShapeClass "StagesShape" false)) [])
                  (sample_options true false (-1) 0 false false (Some 60)
                     false)
                  eq_refl eq_refl)).
Defined.

(** ** More on [shutdown] *)

(** X16: of the statistics of [shutdown()], the summary, the percentiles
    and the error report are printed all three or none; a worker runner
    prints none of them; with a non-empty [--json-file] none of them is
    printed and the statistics are saved to that file; and nothing is
    saved to a file that [--json-file] does not name. *)
Theorem plain_reports (o : Options) (runner : RunnerKind) :
  (In EPrintStats (final_statistics o runner)
   <-> In EPrintPercentileStats (final_statistics o runner))
  /\ (In EPrintStats (final_statistics o runner)
      <-> In EPrintErrorReport (final_statistics o runner))
  /\ (runner = WorkerRunner -> ~ In EPrintStats (final_statistics o runner))
  /\ (forall c file, json_file o = Some (String c file) ->
        ~ In EPrintStats (final_statistics o runner)
        /\ In (ESaveStatsJson (String c file)) (final_statistics o runner))
  /\ (forall file, In (ESaveStatsJson file) (final_statistics o runner) ->
        json_file o = Some file /\ file <> EmptyString).
Proof.
  unfold final_statistics.
  split; [|split; [|split; [|split]]].
  - destruct (json o), (json_file o) as [[|c s]|], runner; simpl;
      intuition discriminate.
  - destruct (json o), (json_file o) as [[|c s]|], runner; simpl;
      intuition discriminate.
  - intros ->.
    destruct (json o), (json_file o) as [[|c s]|]; simpl;
      intuition discriminate.
  - intros c file ->. destruct (json o); simpl; split;
      intuition discriminate.
  - intros file H.
    destruct (json o), (json_file o) as [[|c s]|], runner; simpl in H;
      repeat (destruct H as [H | H]; [try discriminate|]);
      try contradiction.
    all: inversion H; subst; split; [reflexivity | discriminate].
Qed.

Lemma plain_reports_witness :
  ~ In EPrintStats
      (final_statistics (sample_options true false (-1) 0 false true None true)
         WorkerRunner).
Proof.
  exact (proj1 (proj2 (proj2 (plain_reports
           (sample_options true false (-1) 0 false true None true)
           WorkerRunner))) eq_refl).
Defined.

(** ** The keys of the input listener *)

Lemma input_keys_cases (url : option string) (key : string)
    (f : string -> Z -> key_result) :
  dict_get key (input_keys url) = Some f ->
  (f = fun state user_count =>
         if negb (String.eqb state "spawning")
         then KeyStart (user_count + 1) 100 else KeyWarning)
  \/ (f = fun state user_count =>
            if negb (String.eqb state "spawning")
            then KeyStart (user_count + 10) 100 else KeyWarning)
  \/ (f = fun state user_count =>
            if negb (String.eqb state "spawning")
            then KeyStart (Z.max 0 (user_count - 1)) 100 else KeyWarning)
  \/ (f = fun state user_count =>
            if negb (String.eqb state "spawning")
            then KeyStart (Z.max 0 (user_count - 10)) 100 else KeyWarning)
  \/ ((key = carriage_return \/ key = line_feed)
      /\ f = fun _ _ => open_new_tab url).
Proof.
  unfold input_keys. cbn [dict_get].
  destruct (String.eqb key "w"); [intros H; inversion H; auto|].
  destruct (String.eqb key "W"); [intros H; inversion H; auto|].
  destruct (String.eqb key "s"); [intros H; inversion H; auto|].
  destruct (String.eqb key "S"); [intros H; inversion H; auto 6|].
  destruct (String.eqb key carriage_return) eqn:E1.
  { apply String.eqb_eq in E1. intros H; inversion H. auto 8. }
  destruct (String.eqb key line_feed) eqn:E2; [|discriminate].
  apply String.eqb_eq in E2. intros H; inversion H. auto 8.
Qed.

(** X17: whatever key is pressed, a start of users is requested only when
    the runner is not spawning, with spawn rate 100 and with a user count
    that is not negative and differs from the current one by at most 10,
    provided the current user count is not negative. *)
Theorem keys_request_valid_counts (url : option string) (key : string)
    (f : string -> Z -> key_result) (state : string) (user_count n r : Z) :
  dict_get key (input_keys url) = Some f ->
  0 <= user_count ->
  f state user_count = KeyStart n r ->
  0 <= n /\ r = 100 /\ state <> "spawning"%string
  /\ user_count - 10 <= n <= user_count + 10.
Proof.
  intros Hk Hc Hf.
  assert (Hs : forall m, (if negb (String.eqb state "spawning")
                          then KeyStart m 100 else KeyWarning) = KeyStart n r ->
                         n = m /\ r = 100 /\ state <> "spawning"%string).
  { intros m. destruct (String.eqb state "spawning") eqn:E; simpl;
      [discriminate|].
    apply String.eqb_neq in E. intros H; inversion H. auto. }
  destruct (input_keys_cases url key f Hk)
    as [-> | [-> | [-> | [-> | [_ ->]]]]].
  - apply Hs in Hf. destruct Hf as [-> [-> Hst]]. repeat split; auto; lia.
  - apply Hs in Hf. destruct Hf as [-> [-> Hst]]. repeat split; auto; lia.
  - apply Hs in Hf. destruct Hf as [-> [-> Hst]]. repeat split; auto; lia.
  - apply Hs in Hf. destruct Hf as [-> [-> Hst]]. repeat split; auto; lia.
  - unfold open_new_tab in Hf. destruct url; discriminate.
Qed.

Lemma keys_request_valid_counts_witness :
  0 <= 0 /\ 100 = 100 /\ "running"%string <> "spawning"%string
  /\ 3 - 10 <= 0 <= 3 + 10.
Proof.
  refine (keys_request_valid_counts None "S"%string _ "running"%string 3 0 100
            eq_refl _ eq_refl).
  lia.
Defined.

(** X18: when the runner is not spawning, the keys undo each other: after
    "w" the key "s" asks for the user count there was, and after "W" the
    key "S" does; at 0 users "s" asks for 0, and at up to 10 users "S"
    asks for 0.  When the runner is spawning every one of the four keys
    only logs a warning. *)
Theorem keys_up_and_down (url : option string) (state : string)
    (user_count : Z) :
  exists w big_w s big_s,
    dict_get "w"%string (input_keys url) = Some w
    /\ dict_get "W"%string (input_keys url) = Some big_w
    /\ dict_get "s"%string (input_keys url) = Some s
    /\ dict_get "S"%string (input_keys url) = Some big_s
    /\ (state <> "spawning"%string -> 0 <= user_count ->
        w state user_count = KeyStart (user_count + 1) 100
        /\ s state (user_count + 1) = KeyStart user_count 100
        /\ big_w state user_count = KeyStart (user_count + 10) 100
        /\ big_s state (user_count + 10) = KeyStart user_count 100
        /\ s state 0 = KeyStart 0 100
        /\ (user_count <= 10 -> big_s state user_count = KeyStart 0 100))
    /\ (state = "spawning"%string ->
        w state user_count = KeyWarning /\ s state user_count = KeyWarning
        /\ big_w state user_count = KeyWarning
        /\ big_s state user_count = KeyWarning).
Proof.
  do 4 eexists. do 4 (split; [reflexivity|]). split.
  - intros Hs Hc. apply String.eqb_neq in Hs. rewrite Hs. cbn [negb].
    repeat split; try (f_equal; lia).
    intros H. f_equal. lia.
  - intros ->. repeat split.
Qed.

Lemma keys_up_and_down_witness :
  exists w big_w s big_s,
    dict_get "w"%string (input_keys None) = Some w
    /\ dict_get "W"%string (input_keys None) = Some big_w
    /\ dict_get "s"%string (input_keys None) = Some s
    /\ dict_get "S"%string (input_keys None) = Some big_s
    /\ w "running"%string 5 = KeyStart (5 + 1) 100
    /\ s "running"%string (5 + 1) = KeyStart 5 100.
Proof.
  destruct (keys_up_and_down None "running"%string 5)
    as [w [bw [s [bs [H1 [H2 [H3 [H4 [H5 _]]]]]]]]].
  exists w, bw, s, bs. do 4 (split; [assumption|]).
  destruct H5 as [Ha [Hb _]]; [discriminate | lia |]. now split.
Defined.

(** X19: the keys carriage return and line feed open the address of the
    web UI in the browser when [main] has created a web UI; in a headless
    run, where the input listener runs as well, the variable [url] was
    never assigned and the function stored under these keys raises
    [NameError]. *)
Theorem enter_key_needs_web_ui (h : Host) (o : Options) (w : WebOptions)
    (key : string) (f : string -> Z -> key_result)
    (state : string) (user_count : Z) :
  worker o = false ->
  key = carriage_return \/ key = line_feed ->
  dict_get key (input_keys (web_url h o w)) = Some f ->
  (headless o = true -> f state user_count = KeyNameError)
  /\ (headless o = false ->
      exists u, web_url h o w = Some u /\ f state user_count = KeyOpenTab u).
Proof.
  intros Hw Hk Hf.
  assert (Hfun : f = fun _ _ => open_new_tab (web_url h o w)).
  { destruct Hk as [-> | ->]; cbn in Hf; now inversion Hf. }
  subst f. unfold web_url. rewrite Hw. split.
  - intros ->. reflexivity.
  - intros ->. cbn [negb andb]. eexists. split; reflexivity.
Qed.

Lemma enter_key_needs_web_ui_witness :
  (fun (_ : string) (_ : Z) =>
     open_new_tab
       (web_url (sample_host [] (fun _ => []) [] None)
          (sample_options true false (-1) 0 false false None false)
          (mkWebOptions None None EmptyString 8089 None)))
    "running"%string 1
  = KeyNameError.
Proof.
  refine (proj1 (enter_key_needs_web_ui
            (sample_host [] (fun _ => []) [] None)
            (sample_options true false (-1) 0 false false None false)
            (mkWebOptions None None EmptyString 8089 None)
            carriage_return _ "running"%string 1 eq_refl _ eq_refl) eq_refl).
  now left.
Defined.

(** ** The directory of the csv files *)

Lemma str_drop_app (d x : string) :
  str_drop (String.length d) (d ++ x) = x.
Proof. induction d as [|c d IH]; simpl; [now destruct x | exact IH]. Qed.

Lemma str_take_app (d x : string) :
  str_take (String.length d) (d ++ x) = d.
Proof.
  induction d as [|c d IH]; simpl; [now destruct x | now rewrite IH].
Qed.

Lemma str_take_0 (s : string) : str_take 0 s = EmptyString.
Proof. now destruct s. Qed.

Lemma string_length_app (a b : string) :
  String.length (a ++ b) = (String.length a + String.length b)%nat.
Proof. induction a as [|c a IH]; simpl; [reflexivity | now rewrite IH]. Qed.

Lemma string_app_assoc (a b c : string) :
  ((a ++ b) ++ c = a ++ (b ++ c))%string.
Proof. induction a as [|x a IH]; simpl; [reflexivity | now rewrite IH]. Qed.

Lemma string_app_nil_r (a : string) : (a ++ "")%string = a.
Proof. induction a as [|x a IH]; simpl; [reflexivity | now rewrite IH]. Qed.

Lemma has_slash_app (a b : string) :
  has_slash (a ++ b) = has_slash a || has_slash b.
Proof.
  induction a as [|c a IH]; simpl; [reflexivity|].
  now rewrite IH, orb_assoc.
Qed.

(** Where the last slash is. *)
Lemma rfind_slash_split (p : string) :
  forall i last,
    (has_slash p = false /\ rfind_slash i last p = last)
    \/ (exists d b, p = (d ++ "/" ++ b)%string /\ has_slash b = false
                    /\ rfind_slash i last p = i + Z.of_nat (String.length d)).
Proof.
  induction p as [|c p IH]; intros i last; simpl.
  - now left.
  - destruct (IH (i + 1) (if Ascii.eqb c "/" then i else last))
      as [[Hn Hr] | [d [b [Hp [Hb Hr]]]]].
    + destruct (Ascii.eqb c "/") eqn:Ec.
      * right. exists EmptyString, p. apply Ascii.eqb_eq in Ec. subst c.
        repeat split; auto. rewrite Hr. simpl. lia.
      * left. simpl. split; [exact Hn | exact Hr].
    + right. exists (String c d), b. subst p. repeat split; auto.
      rewrite Hr. simpl String.length. lia.
Qed.

(** On a POSIX host [basename] is what follows the last slash. *)
Lemma basename_split (h : Host) (ntpath_basename : string -> string)
    (p : string) :
  os_name_nt h = false ->
  (has_slash p = false /\ basename h ntpath_basename p = p)
  \/ (exists d b, p = (d ++ "/" ++ b)%string /\ has_slash b = false
                  /\ basename h ntpath_basename p = b).
Proof.
  intros Hnt. unfold basename, posixpath_basename. rewrite Hnt.
  destruct (rfind_slash_split p 0 (-1)) as [[Hn Hr] | [d [b [Hp [Hb Hr]]]]].
  - left. rewrite Hr. simpl. now split.
  - right. exists d, b. repeat split; auto. rewrite Hr.
    replace (Z.to_nat (0 + Z.of_nat (String.length d) + 1))
      with (String.length (d ++ "/")).
    + subst p. rewrite <- string_app_assoc. apply str_drop_app.
    + rewrite string_length_app. simpl. lia.
Qed.

Lemma base_csv_dir_split (h : Host) (ntpath_basename : string -> string)
    (p : string) :
  os_name_nt h = false ->
  (has_slash p = false
   /\ base_csv_dir h ntpath_basename p = EmptyString)
  \/ (exists d b, p = (d ++ "/" ++ b)%string /\ has_slash b = false
                  /\ basename h ntpath_basename p = b
                  /\ base_csv_dir h ntpath_basename p
                     = match b with
                       | EmptyString => EmptyString
                       | String _ _ => (d ++ "/")%string
                       end).
Proof.
  intros Hnt. unfold base_csv_dir.
  destruct (basename_split h ntpath_basename p Hnt) as [[Hn Hb] | [d [b [Hp [Hb Hbase]]]]].
  - left. split; [exact Hn|]. rewrite Hb. unfold slice_to_minus.
    destruct (String.length p) eqn:El; [reflexivity|].
    rewrite Nat.sub_diag. apply str_take_0.
  - right. exists d, b. repeat split; auto. rewrite Hbase.
    unfold slice_to_minus. destruct b as [|c b]; [reflexivity|].
    cbn [String.length].
    replace (String.length p - S (String.length b))%nat
      with (String.length (d ++ "/")).
    + subst p. rewrite <- string_app_assoc. apply str_take_app.
    + subst p. rewrite !string_length_app. simpl. lia.
Qed.

Lemma no_slash_at_end (b : string) (d : string) :
  has_slash b = false -> forall x, (x ++ b = d ++ "/")%string ->
  b = EmptyString.
Proof.
  intros Hb. revert d. 
  assert (Hlast : forall s d, (s = d ++ "/")%string -> has_slash s = true).
  { intros s d0 ->. rewrite has_slash_app. simpl. apply orb_true_r. }
  intros d x. revert d. induction x as [|c x IH]; intros d H; simpl in H.
  - destruct b as [|cb b]; [reflexivity|].
    rewrite (Hlast _ _ H) in Hb. discriminate.
  - destruct d as [|cd d]; simpl in H.
    + injection H as Hc Hx. destruct x; [|discriminate].
      simpl in Hx. exact Hx.
    + injection H as Hc Hx. eapply IH. exact Hx.
Qed.

(** X20: the directory that [main] derives from [--csv-prefix] on a host
    that is not Windows, where [os.path.basename] is that of [posixpath].
    When the prefix has a file part after its last slash, the directory is
    the prefix up to and including that slash, so directory and file part
    together are the prefix again.  When the prefix has no slash the
    directory is empty; and when the prefix ends with a slash the
    directory is empty as well, so that [os.makedirs] is not called.
    [os.makedirs] is called only with a non-empty directory that does not
    exist and ends with a slash. *)
Theorem csv_directory (h : Host) (ntpath_basename : string -> string)
    (csv_prefix : string) (path_exists : string -> bool) :
  os_name_nt h = false ->
  (basename h ntpath_basename csv_prefix <> EmptyString ->
   (base_csv_dir h ntpath_basename csv_prefix ++ basename h ntpath_basename csv_prefix)%string = csv_prefix)
  /\ (has_slash csv_prefix = false -> base_csv_dir h ntpath_basename csv_prefix = EmptyString)
  /\ (forall d, csv_prefix = (d ++ "/")%string ->
        base_csv_dir h ntpath_basename csv_prefix = EmptyString
        /\ csv_makedirs h ntpath_basename path_exists csv_prefix = None)
  /\ (forall dir, csv_makedirs h ntpath_basename path_exists csv_prefix = Some dir ->
        path_exists dir = false
        /\ (exists d, dir = (d ++ "/")%string)
        /\ (dir ++ basename h ntpath_basename csv_prefix)%string = csv_prefix
        /\ basename h ntpath_basename csv_prefix <> EmptyString).
Proof.
  intros Hnt. split; [|split; [|split]].
  - intros Hb.
    destruct (base_csv_dir_split h ntpath_basename csv_prefix Hnt)
      as [[Hn Hd] | [d [b [Hp [Hs [Hbase Hd]]]]]].
    + rewrite Hd. destruct (basename_split h ntpath_basename csv_prefix Hnt)
        as [[_ ->] | [d [b [Hp [_ _]]]]]; [reflexivity|].
      rewrite Hp, has_slash_app in Hn. simpl in Hn.
      rewrite orb_true_r in Hn. discriminate.
    + rewrite Hd, Hbase. destruct b as [|c b]; [now rewrite Hbase in Hb|].
      rewrite Hp. now rewrite string_app_assoc.
  - intros Hn.
    destruct (base_csv_dir_split h ntpath_basename csv_prefix Hnt)
      as [[_ Hd] | [d [b [Hp [_ _]]]]]; [exact Hd|].
    rewrite Hp, has_slash_app in Hn. simpl in Hn.
    rewrite orb_true_r in Hn. discriminate.
  - intros d0 Hp0.
    assert (Hd : base_csv_dir h ntpath_basename csv_prefix = EmptyString).
    { destruct (base_csv_dir_split h ntpath_basename csv_prefix Hnt)
        as [[_ Hd] | [d [b [Hp [Hs [_ Hd]]]]]]; [exact Hd|].
      rewrite Hd.
      assert (b = EmptyString).
      { apply (no_slash_at_end b d0 Hs (d ++ "/")%string).
        rewrite string_app_assoc. congruence. }
      now subst b. }
    split; [exact Hd|]. unfold csv_makedirs. rewrite Hd. simpl.
    now rewrite andb_false_r.
  - intros dir. unfold csv_makedirs.
    destruct (path_exists (base_csv_dir h ntpath_basename csv_prefix)) eqn:Ee; [discriminate|].
    destruct (Nat.eqb (String.length (base_csv_dir h ntpath_basename csv_prefix)) 0) eqn:El;
      [discriminate|].
    cbn [negb andb]. intros H. inversion H; subst dir. clear H.
    split; [exact Ee|].
    destruct (base_csv_dir_split h ntpath_basename csv_prefix Hnt)
      as [[_ Hd] | [d [b [Hp [Hs [Hbase Hd]]]]]].
    + rewrite Hd in El. discriminate.
    + rewrite Hd in *. destruct b as [|c b]; [discriminate|].
      split; [now exists d|]. rewrite Hbase. split; [|discriminate].
      rewrite Hp. now rewrite string_app_assoc.
Qed.

Lemma csv_directory_witness :
  base_csv_dir (sample_host [] (fun _ => []) [] None) (fun p => p) "out/"
    = EmptyString
  /\ csv_makedirs (sample_host [] (fun _ => []) [] None) (fun p => p)
       (fun _ => false) "out/" = None.
Proof.
  exact (proj1 (proj2 (proj2 (csv_directory
                                (sample_host [] (fun _ => []) [] None)
                                (fun p => p) "out/" (fun _ => false)
                                eq_refl)))
           "out"%string eq_refl).
Defined.

(** ** The content length statistics of [examples/extend_web_ui.py] *)

Lemma existsb_eqb_in (n : string) (l : list string) :
  existsb (String.eqb n) l = true <-> In n l.
Proof.
  rewrite existsb_exists. split.
  - intros [x [Hx He]]. apply String.eqb_eq in He. now subst x.
  - intros H. exists n. split; [assumption | apply String.eqb_refl].
Qed.

Lemma first_names_in (requests : list (string * Z)) :
  forall seen m,
    In m (first_names requests seen)
    <-> In m (map fst requests) /\ ~ In m seen.
Proof.
  induction requests as [|[n l] rest IH]; intros seen m; simpl.
  - tauto.
  - destruct (existsb (String.eqb n) seen) eqn:E.
    + apply existsb_eqb_in in E. rewrite IH. split.
      * intros [H1 H2]. auto.
      * intros [[H1 | H1] H2]; [subst; contradiction | auto].
    + assert (Hn : ~ In n seen).
      { intros H. apply existsb_eqb_in in H. congruence. }
      simpl. rewrite IH. rewrite in_app_iff. simpl. split.
      * intros [H | [H1 H2]]; [subst; auto | split; [auto | tauto]].
      * intros [[H1 | H1] H2]; [now left|].
        destruct (String.eqb n m) eqn:Em.
        -- apply String.eqb_eq in Em. now left.
        -- apply String.eqb_neq in Em. right. split; [assumption|].
           intros [H | [H | []]]; [contradiction | contradiction].
Qed.

Lemma first_names_nodup (requests : list (string * Z)) :
  forall seen, NoDup (first_names requests seen).
Proof.
  induction requests as [|[n l] rest IH]; intros seen; simpl.
  - constructor.
  - destruct (existsb (String.eqb n) seen); [apply IH|].
    constructor; [|apply IH].
    rewrite first_names_in. intros [_ H]. apply H.
    apply in_or_app. right. now left.
Qed.

Lemma first_names_snoc (requests : list (string * Z)) (n : string) (l : Z) :
  forall seen,
    first_names (requests ++ [(n, l)]) seen
    = first_names requests seen
        ++ (if existsb (String.eqb n) (seen ++ map fst requests)
            then [] else [n]).
Proof.
  induction requests as [|[n0 l0] rest IH]; intros seen; simpl.
  - rewrite app_nil_r. now destruct (existsb (String.eqb n) seen).
  - destruct (existsb (String.eqb n0) seen) eqn:E.
    + rewrite IH. f_equal.
      assert (Heq : existsb (String.eqb n) (seen ++ map fst rest)
                    = existsb (String.eqb n) (seen ++ n0 :: map fst rest)).
      { rewrite !existsb_app. simpl.
        destruct (String.eqb n n0) eqn:En; [|reflexivity].
        apply String.eqb_eq in En. subst n0. rewrite E. reflexivity. }
      now rewrite Heq.
    + rewrite IH. simpl. f_equal. f_equal.
      assert (Heq : existsb (String.eqb n) ((seen ++ [n0]) ++ map fst rest)
                    = existsb (String.eqb n) (seen ++ n0 :: map fst rest)).
      { now rewrite <- app_assoc. }
      now rewrite Heq.
Qed.

Lemma total_length_snoc (name : string) (requests : list (string * Z))
    (n : string) (l : Z) :
  total_length name (requests ++ [(n, l)])
  = total_length name requests + (if String.eqb n name then l else 0).
Proof.
  induction requests as [|[n0 l0] rest IH]; simpl; [lia|].
  rewrite IH. lia.
Qed.

Lemma total_length_absent (name : string) (requests : list (string * Z)) :
  ~ In name (map fst requests) -> total_length name requests = 0.
Proof.
  induction requests as [|[n0 l0] rest IH]; simpl; intros H; [reflexivity|].
  destruct (String.eqb n0 name) eqn:E.
  - apply String.eqb_eq in E. exfalso. apply H. now left.
  - rewrite IH; [reflexivity|]. intros Hin. apply H. now right.
Qed.

Lemma dict_get_map {V : Type} (g : string -> V) (names : list string)
    (n : string) :
  dict_get n (map (fun m => (m, g m)) names)
  = if existsb (String.eqb n) names then Some (g n) else None.
Proof.
  induction names as [|m names IH]; simpl; [reflexivity|].
  destruct (String.eqb n m) eqn:E; simpl; [|exact IH].
  apply String.eqb_eq in E. now subst m.
Qed.

Lemma dict_set_map {V : Type} (g : string -> V) (names : list string)
    (n : string) (v : V) :
  In n names -> NoDup names ->
  dict_set n v (map (fun m => (m, g m)) names)
  = map (fun m => (m, if String.eqb m n then v else g m)) names.
Proof.
  induction names as [|m names IH]; simpl; intros H Hnd; [contradiction|].
  inversion Hnd as [|x l Hx Hl]; subst.
  destruct (String.eqb n m) eqn:E.
  - apply String.eqb_eq in E. subst m. rewrite String.eqb_refl. f_equal.
    apply map_ext_in. intros x Hin.
    destruct (String.eqb x n) eqn:Ex; [|reflexivity].
    apply String.eqb_eq in Ex. subst x. contradiction.
  - destruct H as [H | H]; [subst; now rewrite String.eqb_refl in E|].
    rewrite String.eqb_sym, E. f_equal. now apply IH.
Qed.

Lemma dict_set_twice {V : Type} (k : string) (v0 v : V) (d : dict V) :
  dict_set k v (dict_set k v0 d) = dict_set k v d.
Proof.
  induction d as [|[k0 x] d IH]; simpl.
  - now rewrite String.eqb_refl.
  - destruct (String.eqb k k0) eqn:E; simpl.
    + now rewrite String.eqb_refl.
    + now rewrite E, IH.
Qed.

(** One request more. *)
Lemma on_request_stats (requests : list (string * Z)) (n : string) (l : Z) :
  on_request n l (stats_of_requests requests)
  = Some (stats_of_requests (requests ++ [(n, l)])).
Proof.
  unfold on_request, stats_of_requests, dict_mem.
  rewrite dict_get_map, first_names_snoc. cbn [app].
  destruct (existsb (String.eqb n) (first_names requests [])) eqn:E.
  - assert (Hin : In n (first_names requests [])) by now apply existsb_eqb_in.
    assert (Hreq : existsb (String.eqb n) (map fst requests) = true).
    { apply existsb_eqb_in. now apply first_names_in in Hin. }
    rewrite Hreq, app_nil_r, dict_get_map, E.
    cbn [dict_get content_length_key]. rewrite String.eqb_refl.
    cbn [dict_set]. rewrite String.eqb_refl.
    rewrite dict_set_map by (auto using first_names_nodup).
    f_equal. apply map_ext. intros m. rewrite total_length_snoc.
    rewrite (String.eqb_sym m n).
    destruct (String.eqb n m) eqn:Em.
    + apply String.eqb_eq in Em. now subst m.
    + now rewrite Z.add_0_r.
  - assert (Hnin : ~ In n (map fst requests)).
    { intros H. assert (H0 : In n (first_names requests []))
        by (apply first_names_in; split; [assumption | intros []]).
      apply existsb_eqb_in in H0. congruence. }
    assert (Hreq : existsb (String.eqb n) (map fst requests) = false).
    { destruct (existsb (String.eqb n) (map fst requests)) eqn:Er;
        [|reflexivity].
      apply existsb_eqb_in in Er. contradiction. }
    rewrite Hreq.
    assert (Hg : dict_get n
                   (map (fun m => (m, [(content_length_key,
                                        total_length m requests)]))
                      (first_names requests [])) = None).
    { now rewrite dict_get_map, E. }
    rewrite dict_get_set_same.
    cbn [dict_get content_length_key]. rewrite String.eqb_refl.
    cbn [dict_set]. rewrite String.eqb_refl.
    rewrite dict_set_twice, (dict_set_absent n _ _ Hg).
    rewrite !map_app. cbn [map].
    rewrite total_length_snoc, String.eqb_refl.
    rewrite (total_length_absent n requests Hnin).
    f_equal. f_equal.
    apply map_ext_in. intros m Hm. rewrite total_length_snoc.
    destruct (String.eqb n m) eqn:Em; [|now rewrite Z.add_0_r].
    apply String.eqb_eq in Em. subst m.
    apply first_names_in in Hm. tauto.
Qed.

Lemma handle_events_stats (events : list stats_event) :
  forall requests,
    handle_events events (stats_of_requests requests)
    = Some (stats_of_requests (since_reset events requests)).
Proof.
  induction events as [|[n l|] rest IH]; intros requests; simpl.
  - reflexivity.
  - rewrite on_request_stats. apply IH.
  - apply (IH []).
Qed.

Lemma content_length_rows_map (g : string -> Z) (names : list string) :
  content_length_rows (map (fun n => (n, [(content_length_key, g n)])) names)
  = Some (map (fun n => (n, g n)) names).
Proof.
  induction names as [|n names IH]; simpl; [reflexivity|].
  now rewrite IH.
Qed.

(** X21: whatever requests and resets of the statistics have happened,
    the handlers of the example never raise [KeyError], and the global
    [stats] holds, for each name requested since the last reset and for no
    other name, the one key ["content-length"] with the sum of the
    response lengths of the requests of that name since the last reset. *)
Theorem content_length_totals (events : list stats_event) :
  handle_events events []
    = Some (stats_of_requests (since_reset events []))
  /\ (forall name,
        dict_get name (stats_of_requests (since_reset events []))
        = if existsb (String.eqb name) (map fst (since_reset events []))
          then Some [(content_length_key,
                      total_length name (since_reset events []))]
          else None).
Proof.
  split; [apply (handle_events_stats events [])|].
  intros name. unfold stats_of_requests. rewrite dict_get_map.
  set (reqs := since_reset events []).
  destruct (existsb (String.eqb name) (first_names reqs [])) eqn:E1;
    destruct (existsb (String.eqb name) (map fst reqs)) eqn:E2;
    try reflexivity; exfalso.
  - apply existsb_eqb_in, first_names_in in E1. destruct E1 as [E1 _].
    apply existsb_eqb_in in E1. congruence.
  - apply existsb_eqb_in in E2.
    assert (H : In name (first_names reqs []))
      by (apply first_names_in; split; [assumption | intros []]).
    apply existsb_eqb_in in H. congruence.
Qed.

(** X22: [get_content_length_stats], after whatever requests and resets,
    never raises [KeyError].  When no request was made since the last
    reset it returns the empty [stats] itself; otherwise it returns one
    row for each name requested since the last reset, with the sum of the
    response lengths, in the order of the first requests, cut off after
    500 rows; no name has two rows. *)
Theorem content_length_rows_shown (events : list stats_event) :
  exists stats,
    handle_events events [] = Some stats
    /\ get_content_length_stats stats
       = Some (match since_reset events [] with
               | [] => StatsEmpty
               | _ :: _ =>
                   StatsRows
                     (firstn 500
                        (map (fun n =>
                                (n, total_length n (since_reset events [])))
                             (first_names (since_reset events []) [])))
               end)
    /\ NoDup (first_names (since_reset events []) [])
    /\ (List.length
          (firstn 500
             (map (fun n => (n, total_length n (since_reset events [])))
                (first_names (since_reset events []) []))) <= 500)%nat.
Proof.
  exists (stats_of_requests (since_reset events [])).
  split; [apply (handle_events_stats events [])|].
  split; [|split; [apply first_names_nodup | apply firstn_le_length]].
  unfold get_content_length_stats, stats_of_requests.
  destruct (since_reset events []) as [|[n l] rest] eqn:E; [reflexivity|].
  rewrite content_length_rows_map.
  cbn [first_names existsb map]. reflexivity.
Qed.
